(** * Shallow embedding of tests/test_scaling.py

    The load generator of the repository: the percentile utility, the
    two session drivers, the concurrent batch runners, the summary
    aggregator and the grid sweep.

    Python floats are read as exact rationals ([Q]): rounding, NaN and
    infinities are outside the model.  Python ints are [Z], strings are
    [string], [Optional[str]] is [option string]. *)

From Stdlib Require Import ZArith QArith Qround Lia Lqa List Bool String Ascii.
From Stdlib Require Import Permutation Sorted.
Import ListNotations.

Local Open Scope Z_scope.
Local Open Scope Q_scope.

(** ** Python primitives used by the module *)

(** [int(k)] on a float truncates toward zero. *)
Definition py_int (k : Q) : Z := Z.quot (Qnum k) (Zpos (Qden k)).

(** [len(l)] as a Python int. *)
Definition len {A : Type} (l : list A) : Z := Z.of_nat (List.length l).

(** [l[i]]: indices in [0, n) read from the front, indices in [-n, 0) read
    from the back, anything else is an IndexError ([None]). *)
Definition py_getitem {A : Type} (l : list A) (i : Z) : option A :=
  if (0 <=? i)%Z then nth_error l (Z.to_nat i)
  else if (- len l <=? i)%Z then nth_error l (Z.to_nat (len l + i))
  else None.

(** [sorted(data)]: a stable ascending sort; equal keys keep their order. *)
Fixpoint insert_sorted (x : Q) (l : list Q) : list Q :=
  match l with
  | [] => [x]
  | y :: l' => if Qlt_le_dec x y then x :: l else y :: insert_sorted x l'
  end.

Fixpoint sorted (data : list Q) : list Q :=
  match data with
  | [] => []
  | x :: l => insert_sorted x (sorted l)
  end.

(** [min(l)] and [max(l)] on a non-empty list keep the first extremal
    element; on an empty list they raise ValueError ([None]). *)
Definition py_min (l : list Q) : option Q :=
  match l with
  | [] => None
  | x :: l' => Some (fold_left (fun m y => if Qlt_le_dec y m then y else m) l' x)
  end.

Definition py_max (l : list Q) : option Q :=
  match l with
  | [] => None
  | x :: l' => Some (fold_left (fun m y => if Qlt_le_dec m y then y else m) l' x)
  end.

(** [sum(l)] and [statistics.mean(l)] (StatisticsError on no data). *)
Definition py_sum (l : list Q) : Q := fold_left Qplus l 0.

Definition mean (l : list Q) : option Q :=
  match l with
  | [] => None
  | _ => Some (py_sum l / inject_Z (len l))
  end.

(** ** Utility functions *)

(** [percentile(data, p)].  The two subscripts may raise IndexError, so the
    result is an [option]. *)
Definition percentile (data : list Q) (p : Q) : option Q :=
  match data with
  | [] => Some 0
  | _ =>
      let sorted_data := sorted data in
      let k := inject_Z (len sorted_data - 1) * p / 100 in
      let f := py_int k in
      let c := Z.min (f + 1) (len sorted_data - 1) in
      match py_getitem sorted_data f, py_getitem sorted_data c with
      | Some sf, Some sc => Some (sf + (k - inject_Z f) * (sc - sf))
      | _, _ => None
      end
  end.

(** Equality of optional floats up to the representation of the rational. *)
Definition oQeq (a b : option Q) : Prop :=
  match a, b with
  | Some x, Some y => x == y
  | None, None => True
  | _, _ => False
  end.


(** [range(n)] and [range(a, b)]. *)
Definition py_range2 (a b : Z) : list Z :=
  map (fun i => (a + Z.of_nat i)%Z) (seq 0 (Z.to_nat (b - a))).

Definition py_range (n : Z) : list Z := py_range2 0 n.

(** String helpers behind [convert_to_ws_url]. *)
Fixpoint rstrip_slash (s : string) : string :=
  match s with
  | EmptyString => EmptyString
  | String ch s' =>
      match rstrip_slash s' with
      | EmptyString => if Ascii.eqb ch "/" then EmptyString else String ch EmptyString
      | r => String ch r
      end
  end.

Definition startswith (s pre : string) : bool := String.prefix pre s.

Definition drop_chars (n : nat) (s : string) : string :=
  substring n (String.length s - n) s.

Definition endswith (s suf : string) : bool :=
  (String.length suf <=? String.length s)%nat
  && String.eqb (drop_chars (String.length s - String.length suf) s) suf.

Definition convert_to_ws_url (url : string) : string :=
  let url := rstrip_slash url in
  if startswith url "http://" then ("ws://" ++ drop_chars 7 url ++ "/ws")%string
  else if startswith url "https://" then ("wss://" ++ drop_chars 8 url ++ "/ws")%string
  else if startswith url "ws://" || startswith url "wss://" then
    if endswith url "/ws" then url else (url ++ "/ws")%string
  else ("ws://" ++ url ++ "/ws")%string.

(** ** Exceptions and effects *)

(** The name of an exception class is an identifier: at least one
    character. *)
Record ClassName : Type := mkClassName { cn_first : ascii; cn_rest : string }.

Definition class_name (c : ClassName) : string := String (cn_first c) (cn_rest c).

(** An exception instance, seen through [type(e).__name__] and [str(e)].
    Only instances of [Exception] are modelled; asynchronous signals
    (KeyboardInterrupt, task cancellation) are not. *)
Record PyExc : Type := mkExc { exc_type : ClassName; exc_str : string }.

Definition ImportError : ClassName := mkClassName "I" "mportError".
Definition RuntimeError : ClassName := mkClassName "R" "untimeError".
Definition IndexError : ClassName := mkClassName "I" "ndexError".
Definition ValueError : ClassName := mkClassName "V" "alueError".
Definition StatisticsError : ClassName := mkClassName "S" "tatisticsError".
Definition TimeoutError : ClassName := mkClassName "T" "imeoutError".
Definition ZeroDivisionError : ClassName := mkClassName "Z" "eroDivisionError".

(** What evaluating an expression gives: a value, or a raised exception. *)
Inductive outcome (A : Type) : Type :=
| Ret (a : A)
| Raise (e : PyExc).
Arguments Ret {A} a.
Arguments Raise {A} e.

Definition of_option {A : Type} (o : option A) (e : PyExc) : outcome A :=
  match o with
  | Some a => Ret a
  | None => Raise e
  end.

(** [asyncio.gather] over the tasks: the results in launch order; when a task
    raises, the exception propagates to the caller. *)
Fixpoint gather {A : Type} (tasks : list (outcome A)) : outcome (list A) :=
  match tasks with
  | [] => Ret []
  | t :: ts =>
      match t, gather ts with
      | Ret a, Ret l => Ret (a :: l)
      | Raise e, _ => Raise e
      | Ret _, Raise e => Raise e
      end
  end.

(** Code that reads [time.perf_counter()] and may raise: the state is the
    number of clock readings taken so far, and it survives an exception,
    so that a handler reads the clock after the readings of the body. *)
Definition M (A : Type) : Type := nat -> outcome A * nat.

Definition ret {A : Type} (a : A) : M A := fun n => (Ret a, n).

Definition bind {A B : Type} (m : M A) (k : A -> M B) : M B :=
  fun n =>
    match m n with
    | (Ret a, n') => k a n'
    | (Raise e, n') => (Raise e, n')
    end.

Definition raise {A : Type} (e : PyExc) : M A := fun n => (Raise e, n).

Definition lift {A : Type} (o : outcome A) : M A := fun n => (o, n).

(** [try: body / except Exception as e: handler(e)]. *)
Definition try_except {A : Type} (body : M A) (handler : PyExc -> M A) : M A :=
  fun n =>
    match body n with
    | (Ret a, n') => (Ret a, n')
    | (Raise e, n') => handler e n'
    end.

(** [time.perf_counter()] against the readings [clock 0], [clock 1], ... *)
Definition perf_counter (clock : nat -> Q) : M Q := fun n => (Ret (clock n), S n).

(** Run a coroutine from its first clock reading. *)
Definition run {A : Type} (m : M A) : outcome A := fst (m 0%nat).

Declare Scope py_scope.
Delimit Scope py_scope with py.
Notation "x <- m ;; k" := (bind m (fun x => k))
  (at level 100, m at next level, right associativity) : py_scope.
Notation "m ;;; k" := (bind m (fun _ => k))
  (at level 100, right associativity) : py_scope.

(** ** Data classes *)

Module SessionResult.
Record t : Type := mk {
  request_id : Z;
  mode : string;
  timestamp : string;
  wait_requested : Q;
  batch_size : Z;
  hardware : string;
  connect_latency : Q;
  reset_latency : Q;
  step_latency : Q;
  total_latency : Q;
  waited_seconds : Q;
  pid : Z;
  session_hash : string;
  host_url : string;
  success : bool;
  error_type : option string;
  error_message : option string
}.

(** [r.batch_size = n] and [r.hardware = h]: attribute assignment. *)
Definition set_batch_size (n : Z) (r : t) : t :=
  mk (request_id r) (mode r) (timestamp r) (wait_requested r) n (hardware r)
     (connect_latency r) (reset_latency r) (step_latency r) (total_latency r)
     (waited_seconds r) (pid r) (session_hash r) (host_url r)
     (success r) (error_type r) (error_message r).

Definition set_hardware (h : string) (r : t) : t :=
  mk (request_id r) (mode r) (timestamp r) (wait_requested r) (batch_size r) h
     (connect_latency r) (reset_latency r) (step_latency r) (total_latency r)
     (waited_seconds r) (pid r) (session_hash r) (host_url r)
     (success r) (error_type r) (error_message r).
End SessionResult.

Module RunSummary.
Record t : Type := mk {
  mode : string;
  url : string;
  num_requests : Z;
  batch_size : Z;
  wait_seconds : Q;
  repetition : Z;
  timestamp : string;
  hardware : string;
  successful : Z;
  failed : Z;
  error_rate : Q;
  total_wall_time : Q;
  connect_p50 : Q;
  connect_p95 : Q;
  connect_p99 : Q;
  reset_p50 : Q;
  reset_p95 : Q;
  reset_p99 : Q;
  step_p50 : Q;
  step_p95 : Q;
  step_p99 : Q;
  total_min : Q;
  total_max : Q;
  total_avg : Q;
  total_p50 : Q;
  total_p90 : Q;
  total_p95 : Q;
  total_p99 : Q;
  requests_per_second : Q;
  effective_concurrency : Q;
  unique_pids : Z;
  unique_sessions : Z;
  unique_hosts : Z
}.

(** The attribute assignments of [compute_summary], one function per
    block of assignments. *)
Definition set_connect (p50 p95 p99 : Q) (s : t) : t :=
  mk (mode s) (url s) (num_requests s) (batch_size s) (wait_seconds s)
     (repetition s) (timestamp s) (hardware s) (successful s) (failed s)
     (error_rate s) (total_wall_time s)
     p50 p95 p99
     (reset_p50 s) (reset_p95 s) (reset_p99 s)
     (step_p50 s) (step_p95 s) (step_p99 s)
     (total_min s) (total_max s) (total_avg s)
     (total_p50 s) (total_p90 s) (total_p95 s) (total_p99 s)
     (requests_per_second s) (effective_concurrency s)
     (unique_pids s) (unique_sessions s) (unique_hosts s).

Definition set_reset (p50 p95 p99 : Q) (s : t) : t :=
  mk (mode s) (url s) (num_requests s) (batch_size s) (wait_seconds s)
     (repetition s) (timestamp s) (hardware s) (successful s) (failed s)
     (error_rate s) (total_wall_time s)
     (connect_p50 s) (connect_p95 s) (connect_p99 s)
     p50 p95 p99
     (step_p50 s) (step_p95 s) (step_p99 s)
     (total_min s) (total_max s) (total_avg s)
     (total_p50 s) (total_p90 s) (total_p95 s) (total_p99 s)
     (requests_per_second s) (effective_concurrency s)
     (unique_pids s) (unique_sessions s) (unique_hosts s).

Definition set_step (p50 p95 p99 : Q) (s : t) : t :=
  mk (mode s) (url s) (num_requests s) (batch_size s) (wait_seconds s)
     (repetition s) (timestamp s) (hardware s) (successful s) (failed s)
     (error_rate s) (total_wall_time s)
     (connect_p50 s) (connect_p95 s) (connect_p99 s)
     (reset_p50 s) (reset_p95 s) (reset_p99 s)
     p50 p95 p99
     (total_min s) (total_max s) (total_avg s)
     (total_p50 s) (total_p90 s) (total_p95 s) (total_p99 s)
     (requests_per_second s) (effective_concurrency s)
     (unique_pids s) (unique_sessions s) (unique_hosts s).

Definition set_total (mn mx avg p50 p90 p95 p99 : Q) (s : t) : t :=
  mk (mode s) (url s) (num_requests s) (batch_size s) (wait_seconds s)
     (repetition s) (timestamp s) (hardware s) (successful s) (failed s)
     (error_rate s) (total_wall_time s)
     (connect_p50 s) (connect_p95 s) (connect_p99 s)
     (reset_p50 s) (reset_p95 s) (reset_p99 s)
     (step_p50 s) (step_p95 s) (step_p99 s)
     mn mx avg p50 p90 p95 p99
     (requests_per_second s) (effective_concurrency s)
     (unique_pids s) (unique_sessions s) (unique_hosts s).

Definition set_throughput (rps eff : Q) (s : t) : t :=
  mk (mode s) (url s) (num_requests s) (batch_size s) (wait_seconds s)
     (repetition s) (timestamp s) (hardware s) (successful s) (failed s)
     (error_rate s) (total_wall_time s)
     (connect_p50 s) (connect_p95 s) (connect_p99 s)
     (reset_p50 s) (reset_p95 s) (reset_p99 s)
     (step_p50 s) (step_p95 s) (step_p99 s)
     (total_min s) (total_max s) (total_avg s)
     (total_p50 s) (total_p90 s) (total_p95 s) (total_p99 s)
     rps eff
     (unique_pids s) (unique_sessions s) (unique_hosts s).

Definition set_distribution (pids sessions hosts : Z) (s : t) : t :=
  mk (mode s) (url s) (num_requests s) (batch_size s) (wait_seconds s)
     (repetition s) (timestamp s) (hardware s) (successful s) (failed s)
     (error_rate s) (total_wall_time s)
     (connect_p50 s) (connect_p95 s) (connect_p99 s)
     (reset_p50 s) (reset_p95 s) (reset_p99 s)
     (step_p50 s) (step_p95 s) (step_p99 s)
     (total_min s) (total_max s) (total_avg s)
     (total_p50 s) (total_p90 s) (total_p95 s) (total_p99 s)
     (requests_per_second s) (effective_concurrency s)
     pids sessions hosts.
End RunSummary.

(** ** The server as seen by one session *)

(** The [observation] object of a step reply; a field is [None] when the
    key is missing. *)
Record Observation : Type := mkObs {
  ob_waited_seconds : option Q;
  ob_pid : option Z;
  ob_session_hash : option string;
  ob_host_url : option string
}.

(** [d.get(key, default)]. *)
Definition get {A : Type} (field : option A) (default : A) : A :=
  match field with
  | Some a => a
  | None => default
  end.

(** The empty dict [{}]. *)
Definition empty_obs : Observation := mkObs None None None None.

(** An HTTP response: what [raise_for_status()] raises, if anything, and
    what [json()] followed by [.get("observation", {})] gives (a body that
    is not a JSON object is an exception). *)
Record Response : Type := mkResponse {
  status_error : option PyExc;
  json_observation : outcome (option Observation)
}.

(** A decoded WebSocket message: its ["type"], its rendering in an
    f-string, and [data.observation] when both keys are present. *)
Record WsMessage : Type := mkWsMessage {
  msg_type : option string;
  msg_text : string;
  msg_observation : option Observation
}.

Inductive WsRequest : Type :=
| WsReset
| WsStep (wait_seconds : Q)
| WsClose.

(** Everything outside the process that one session touches: the wall
    clock for [now_iso()], the readings of [time.perf_counter()], and the
    result of each network operation. *)
Record SessionEnv : Type := mkSessionEnv {
  now_iso : string;
  clock : nat -> Q;
  (** [client.post(url, json=...)] on a client built with this timeout;
      the payload is the [wait_seconds] of the action, if any *)
  post : Q -> string -> option Q -> outcome Response;
  (** [wait_for(websockets.connect(ws_url, open_timeout=timeout), timeout)] *)
  ws_connect : string -> Q -> outcome unit;
  (** [ws.send(json.dumps(request))] *)
  ws_send : WsRequest -> outcome unit;
  (** [json.loads(wait_for(ws.recv(), timeout))] after this request *)
  ws_recv : WsRequest -> Q -> outcome WsMessage;
  (** what leaving the [async with ws] block raises, if anything *)
  ws_aexit : option PyExc
}.

Definition raise_for_status (r : Response) : M unit :=
  match status_error r with
  | Some e => raise e
  | None => ret tt
  end.

(** [async with ws: body]. *)
Definition async_with {A : Type} (aexit : option PyExc) (body : M A) : M A :=
  fun n =>
    match body n, aexit with
    | (_, n'), Some e => (Raise e, n')
    | (r, n'), None => (r, n')
    end.

Local Open Scope py_scope.

(** ** HTTP mode *)

(** The [try] block of [http_session]. *)
Definition http_try (env : SessionEnv) (client : Q) (base_url : string)
    (request_id : Z) (wait_seconds : Q) (timestamp : string) (t0 : Q)
    : M SessionResult.t :=
  t_reset_start <- perf_counter (clock env) ;;
  reset_resp <- lift (post env client (base_url ++ "/reset")%string None) ;;
  raise_for_status reset_resp ;;;
  t_reset_end <- perf_counter (clock env) ;;
  let reset_latency := t_reset_end - t_reset_start in
  t_step_start <- perf_counter (clock env) ;;
  step_resp <- lift (post env client (base_url ++ "/step")%string (Some wait_seconds)) ;;
  raise_for_status step_resp ;;;
  t_step_end <- perf_counter (clock env) ;;
  let step_latency := t_step_end - t_step_start in
  t_end <- perf_counter (clock env) ;;
  let total_latency := t_end - t0 in
  result <- lift (json_observation step_resp) ;;
  let obs := get result empty_obs in
  ret (SessionResult.mk request_id "http" timestamp wait_seconds
         0%Z "cpu-basic"
         0 reset_latency step_latency total_latency
         (get (ob_waited_seconds obs) 0) (get (ob_pid obs) 0%Z)
         (get (ob_session_hash obs) ""%string) (get (ob_host_url obs) ""%string)
         true None None).

(** The [except Exception as e] block of both session drivers. *)
Definition session_except (env : SessionEnv) (mode : string) (request_id : Z)
    (wait_seconds : Q) (timestamp : string) (t0 : Q) (e : PyExc)
    : M SessionResult.t :=
  t_fail <- perf_counter (clock env) ;;
  let total_latency := t_fail - t0 in
  ret (SessionResult.mk request_id mode timestamp wait_seconds
         0%Z "cpu-basic"
         0 0 0 total_latency
         0 0%Z "" ""
         false (Some (class_name (exc_type e))) (Some (exc_str e))).

Definition http_session (env : SessionEnv) (client : Q) (base_url : string)
    (request_id : Z) (wait_seconds : Q) : M SessionResult.t :=
  let timestamp := now_iso env in
  t0 <- perf_counter (clock env) ;;
  try_except
    (http_try env client base_url request_id wait_seconds timestamp t0)
    (session_except env "http" request_id wait_seconds timestamp t0).

(** The post-collection loop of both batch runners. *)
Definition stamp (num_requests : Z) (hardware : string) (r : SessionResult.t)
    : SessionResult.t :=
  SessionResult.set_hardware hardware (SessionResult.set_batch_size num_requests r).

(** [env i] is the environment of the session launched with id [i]. *)
Definition run_http_test (env : Z -> SessionEnv) (url : string) (num_requests : Z)
    (wait_seconds timeout : Q) (hardware : string) : outcome (list SessionResult.t) :=
  let client := timeout in
  let tasks := map (fun i => run (http_session (env i) client url i wait_seconds))
                   (py_range num_requests) in
  match gather tasks with
  | Ret results => Ret (map (stamp num_requests hardware) results)
  | Raise e => Raise e
  end.

(** ** WebSocket mode *)

(** ["type"] of a reply is ["error"]. *)
Definition is_error (m : WsMessage) : bool :=
  match msg_type m with
  | Some ty => String.eqb ty "error"
  | None => false
  end.

(** The [try] block of [ws_session]. *)
Definition ws_try (env : SessionEnv) (ws_url : string) (request_id : Z)
    (wait_seconds timeout : Q) (timestamp : string) (t0 : Q)
    : M SessionResult.t :=
  t_connect_start <- perf_counter (clock env) ;;
  lift (ws_connect env ws_url timeout) ;;;
  t_connect_end <- perf_counter (clock env) ;;
  let connect_latency := t_connect_end - t_connect_start in
  inner <- async_with (ws_aexit env)
    (t_reset_start <- perf_counter (clock env) ;;
     lift (ws_send env WsReset) ;;;
     reset_response <- lift (ws_recv env WsReset timeout) ;;
     t_reset_end <- perf_counter (clock env) ;;
     let reset_latency := t_reset_end - t_reset_start in
     (if is_error reset_response
      then raise (mkExc RuntimeError ("Reset error: " ++ msg_text reset_response))
      else ret tt) ;;;
     t_step_start <- perf_counter (clock env) ;;
     lift (ws_send env (WsStep wait_seconds)) ;;;
     step_response <- lift (ws_recv env (WsStep wait_seconds) timeout) ;;
     t_step_end <- perf_counter (clock env) ;;
     let step_latency := t_step_end - t_step_start in
     (if is_error step_response
      then raise (mkExc RuntimeError ("Step error: " ++ msg_text step_response))
      else ret tt) ;;;
     lift (ws_send env WsClose) ;;;
     ret (reset_latency, step_latency, step_response)) ;;
  let '(reset_latency, step_latency, step_response) := inner in
  t_end <- perf_counter (clock env) ;;
  let total_latency := t_end - t0 in
  let obs := get (msg_observation step_response) empty_obs in
  ret (SessionResult.mk request_id "ws" timestamp wait_seconds
         0%Z "cpu-basic"
         connect_latency reset_latency step_latency total_latency
         (get (ob_waited_seconds obs) 0) (get (ob_pid obs) 0%Z)
         (get (ob_session_hash obs) ""%string) (get (ob_host_url obs) ""%string)
         true None None).

(** [websockets] is the module-level binding: [false] when the import at
    the top of the file failed and left it [None]. *)
Definition ws_session (websockets : bool) (env : SessionEnv) (ws_url : string)
    (request_id : Z) (wait_seconds timeout : Q) : M SessionResult.t :=
  if negb websockets then
    raise (mkExc ImportError "websockets not installed: pip install websockets")
  else
  let timestamp := now_iso env in
  t0 <- perf_counter (clock env) ;;
  try_except
    (ws_try env ws_url request_id wait_seconds timeout timestamp t0)
    (session_except env "ws" request_id wait_seconds timestamp t0).

Definition run_ws_test (websockets : bool) (env : Z -> SessionEnv) (url : string)
    (num_requests : Z) (wait_seconds timeout : Q) (hardware : string)
    : outcome (list SessionResult.t) :=
  let ws_url := convert_to_ws_url url in
  let tasks := map (fun i => run (ws_session websockets (env i) ws_url i wait_seconds timeout))
                   (py_range num_requests) in
  match gather tasks with
  | Ret results => Ret (map (stamp num_requests hardware) results)
  | Raise e => Raise e
  end.

(** ** Results processing *)

Definition obind {A B : Type} (o : outcome A) (k : A -> outcome B) : outcome B :=
  match o with
  | Ret a => k a
  | Raise e => Raise e
  end.

Notation "'let!' x ':=' o 'in' k" := (obind o (fun x => k))
  (at level 100, x name, o at next level, k at level 100, right associativity) : py_scope.

(** [a / b]: ZeroDivisionError on a zero divisor. *)
Definition py_div (a b : Q) : outcome Q :=
  if Qeq_dec b 0 then Raise (mkExc ZeroDivisionError "division by zero")
  else Ret (a / b).

(** [x > 0] on a float. *)
Definition is_positive (x : Q) : bool := if Qlt_le_dec 0 x then true else false.

(** [percentile] with its IndexError as an exception. *)
Definition percentile_exc (data : list Q) (p : Q) : outcome Q :=
  of_option (percentile data p) (mkExc IndexError "list index out of range").

(** [len(set(...))] over ints and over strings. *)
Definition count_unique_Z (l : list Z) : Z := len (nodup Z.eq_dec l).
Definition count_unique_string (l : list string) : Z := len (nodup string_dec l).

(** [now] is what the call of [now_iso()] returns. *)
Definition compute_summary (now : string) (results : list SessionResult.t)
    (mode url : string) (num_requests : Z) (wait_seconds : Q) (repetition : Z)
    (total_wall_time : Q) (hardware : string) : outcome RunSummary.t :=
  let successful := filter SessionResult.success results in
  let failed := filter (fun r => negb (SessionResult.success r)) results in
  let! error_rate :=
    match results with
    | [] => Ret 0
    | _ => py_div (inject_Z (len failed)) (inject_Z (len results))
    end in
  let summary :=
    RunSummary.mk mode url num_requests num_requests wait_seconds repetition
      now hardware
      (len successful) (len failed) error_rate total_wall_time
      0 0 0 0 0 0 0 0 0 0 0 0 0 0 0 0 0 0 0%Z 0%Z 0%Z in
  match successful with
  | [] => Ret summary
  | _ =>
      let connect_times :=
        map SessionResult.connect_latency
            (filter (fun r => is_positive (SessionResult.connect_latency r)) successful) in
      let reset_times :=
        map SessionResult.reset_latency
            (filter (fun r => is_positive (SessionResult.reset_latency r)) successful) in
      let step_times :=
        map SessionResult.step_latency
            (filter (fun r => is_positive (SessionResult.step_latency r)) successful) in
      let total_times := map SessionResult.total_latency successful in
      let! summary :=
        match connect_times with
        | [] => Ret summary
        | _ =>
            let! p50 := percentile_exc connect_times 50 in
            let! p95 := percentile_exc connect_times 95 in
            let! p99 := percentile_exc connect_times 99 in
            Ret (RunSummary.set_connect p50 p95 p99 summary)
        end in
      let! summary :=
        match reset_times with
        | [] => Ret summary
        | _ =>
            let! p50 := percentile_exc reset_times 50 in
            let! p95 := percentile_exc reset_times 95 in
            let! p99 := percentile_exc reset_times 99 in
            Ret (RunSummary.set_reset p50 p95 p99 summary)
        end in
      let! summary :=
        match step_times with
        | [] => Ret summary
        | _ =>
            let! p50 := percentile_exc step_times 50 in
            let! p95 := percentile_exc step_times 95 in
            let! p99 := percentile_exc step_times 99 in
            Ret (RunSummary.set_step p50 p95 p99 summary)
        end in
      let! summary :=
        match total_times with
        | [] => Ret summary
        | _ =>
            let! mn := of_option (py_min total_times)
                         (mkExc ValueError "min() arg is an empty sequence") in
            let! mx := of_option (py_max total_times)
                         (mkExc ValueError "max() arg is an empty sequence") in
            let! avg := of_option (mean total_times)
                          (mkExc StatisticsError "mean requires at least one data point") in
            let! p50 := percentile_exc total_times 50 in
            let! p90 := percentile_exc total_times 90 in
            let! p95 := percentile_exc total_times 95 in
            let! p99 := percentile_exc total_times 99 in
            Ret (RunSummary.set_total mn mx avg p50 p90 p95 p99 summary)
        end in
      let! summary :=
        if is_positive total_wall_time then
          let! rps := py_div (inject_Z (len successful)) total_wall_time in
          let! eff := py_div (inject_Z num_requests * wait_seconds) total_wall_time in
          Ret (RunSummary.set_throughput rps eff summary)
        else Ret summary in
      let summary :=
        RunSummary.set_distribution
          (count_unique_Z
             (map SessionResult.pid
                  (filter (fun r => negb (SessionResult.pid r =? 0)%Z) successful)))
          (count_unique_string
             (map SessionResult.session_hash
                  (filter (fun r => negb (String.eqb (SessionResult.session_hash r) ""))
                          successful)))
          (count_unique_string
             (map SessionResult.host_url
                  (filter (fun r => negb (String.eqb (SessionResult.host_url r) ""))
                          successful)))
          summary in
      Ret summary
  end.

(** ** Main test runners *)

(** Everything outside the process that one configuration cell touches:
    the clock read by [run_single_test], the wall clock read by
    [compute_summary], and the environment of each session of the batch. *)
Record CellEnv : Type := mkCellEnv {
  cell_clock : nat -> Q;
  cell_now : string;
  cell_sessions : Z -> SessionEnv
}.

(** [run_single_test] without an output directory; console output is not
    modelled. *)
Definition run_single_test (websockets : bool) (cell : CellEnv) (url : string)
    (num_requests : Z) (wait_seconds : Q) (mode : string) (timeout : Q)
    (repetition : Z) (hardware : string) : M RunSummary.t :=
  start <- perf_counter (cell_clock cell) ;;
  results <-
    (if String.eqb mode "ws" then
       if negb websockets then
         raise (mkExc ImportError "websockets not installed for ws mode")
       else
         lift (run_ws_test websockets (cell_sessions cell) url num_requests
                 wait_seconds timeout hardware)
     else
       lift (run_http_test (cell_sessions cell) url num_requests
               wait_seconds timeout hardware)) ;;
  t_done <- perf_counter (cell_clock cell) ;;
  let total_wall_time := t_done - start in
  summary <- lift (compute_summary (cell_now cell) results mode url num_requests
                     wait_seconds repetition total_wall_time hardware) ;;
  ret summary.

(** The process-wide environment of a sweep: whether [websockets] was
    imported, and the environment of the [current]-th run. *)
Record World : Type := mkWorld {
  websockets : bool;
  cells : Z -> CellEnv
}.

(** The two local variables the loops of [run_grid_sweep] update. *)
Record SweepState : Type := mkSweepState {
  current : Z;
  all_summaries : list RunSummary.t
}.

(** [for x in xs: body], where the body may raise. *)
Fixpoint for_each {X S : Type} (xs : list X) (body : X -> S -> outcome S) (st : S)
    : outcome S :=
  match xs with
  | [] => Ret st
  | x :: xs' =>
      match body x st with
      | Ret st' => for_each xs' body st'
      | Raise e => Raise e
      end
  end.

(** [run_grid_sweep] without an output directory; the pause between runs
    and console output are not modelled. *)
Definition run_grid_sweep (w : World) (url : string) (requests_grid : list Z)
    (wait_grid : list Q) (mode : string) (timeout : Q) (repetitions : Z)
    (hardware : string) : outcome (list RunSummary.t) :=
  let loops :=
    for_each requests_grid (fun n =>
      for_each wait_grid (fun wt =>
        for_each (py_range2 1 (repetitions + 1)) (fun rep st =>
          let current := (current st + 1)%Z in
          let! summary :=
            run (run_single_test (websockets w) (cells w current) url n wt mode
                   timeout rep hardware) in
          Ret (mkSweepState current (all_summaries st ++ [summary])%list))))
      (mkSweepState 0%Z []) in
  let! st := loops in
  Ret (all_summaries st).

(** ** The percentile as the specification words it

    Given the sample sorted ascending as [s]: the rank
    [k = (n-1) * p / 100], [f = floor(k)], [c = min(f+1, n-1)], and the
    result [s[f] + (k-f) * (s[c] - s[f])]. *)

Definition rank (n : Z) (p : Q) : Q := inject_Z (n - 1) * p / 100.

Definition item (s : list Q) (i : Z) : Q := nth (Z.to_nat i) s 0.

Definition percentile_spec (s : list Q) (p : Q) : Q :=
  let n := len s in
  let k := rank n p in
  let f := Qfloor k in
  let c := Z.min (f + 1) (n - 1) in
  item s f + (k - inject_Z f) * (item s c - item s f).

(** ** The summary as a total function

    The value [compute_summary] returns, with each percentile written as
    the specified interpolation; [compute_summary_value] below proves that
    the code returns exactly this record. *)

Definition pct (times : list Q) (p : Q) : Q := percentile_spec (sorted times) p.

Definition summary_value (now : string) (results : list SessionResult.t)
    (mode url : string) (num_requests : Z) (wait_seconds : Q) (repetition : Z)
    (total_wall_time : Q) (hardware : string) : RunSummary.t :=
  let successful := filter SessionResult.success results in
  let failed := filter (fun r => negb (SessionResult.success r)) results in
  let summary :=
    RunSummary.mk mode url num_requests num_requests wait_seconds repetition
      now hardware
      (len successful) (len failed)
      (match results with
       | [] => 0
       | _ => inject_Z (len failed) / inject_Z (len results)
       end)
      total_wall_time
      0 0 0 0 0 0 0 0 0 0 0 0 0 0 0 0 0 0 0%Z 0%Z 0%Z in
  match successful with
  | [] => summary
  | _ =>
      let connect_times :=
        map SessionResult.connect_latency
            (filter (fun r => is_positive (SessionResult.connect_latency r)) successful) in
      let reset_times :=
        map SessionResult.reset_latency
            (filter (fun r => is_positive (SessionResult.reset_latency r)) successful) in
      let step_times :=
        map SessionResult.step_latency
            (filter (fun r => is_positive (SessionResult.step_latency r)) successful) in
      let total_times := map SessionResult.total_latency successful in
      let summary :=
        match connect_times with
        | [] => summary
        | _ => RunSummary.set_connect (pct connect_times 50) (pct connect_times 95)
                 (pct connect_times 99) summary
        end in
      let summary :=
        match reset_times with
        | [] => summary
        | _ => RunSummary.set_reset (pct reset_times 50) (pct reset_times 95)
                 (pct reset_times 99) summary
        end in
      let summary :=
        match step_times with
        | [] => summary
        | _ => RunSummary.set_step (pct step_times 50) (pct step_times 95)
                 (pct step_times 99) summary
        end in
      let summary :=
        RunSummary.set_total (get (py_min total_times) 0) (get (py_max total_times) 0)
          (get (mean total_times) 0)
          (pct total_times 50) (pct total_times 90) (pct total_times 95)
          (pct total_times 99) summary in
      let summary :=
        if is_positive total_wall_time then
          RunSummary.set_throughput
            (inject_Z (len successful) / total_wall_time)
            (inject_Z num_requests * wait_seconds / total_wall_time)
            summary
        else summary in
      RunSummary.set_distribution
        (count_unique_Z
           (map SessionResult.pid
                (filter (fun r => negb (SessionResult.pid r =? 0)%Z) successful)))
        (count_unique_string
           (map SessionResult.session_hash
                (filter (fun r => negb (String.eqb (SessionResult.session_hash r) ""))
                        successful)))
        (count_unique_string
           (map SessionResult.host_url
                (filter (fun r => negb (String.eqb (SessionResult.host_url r) ""))
                        successful)))
        summary
  end.

(** ** The grid as the specification words it

    The configuration cell a summary carries, and the Cartesian product
    of the grid in the nested order concurrency, then wait, then
    repetition [1 .. R]. *)

Definition cell_of (s : RunSummary.t) : Z * Q * Z :=
  (RunSummary.num_requests s, RunSummary.wait_seconds s, RunSummary.repetition s).

Definition grid_cells (levels : list Z) (waits : list Q) (R : Z) : list (Z * Q * Z) :=
  flat_map (fun n =>
    flat_map (fun wt =>
      map (fun rep => (n, wt, rep)) (py_range2 1 (R + 1)))
      waits)
    levels.

(** ** Sample environments *)

Definition sample_clock (n : nat) : Q := inject_Z (Z.of_nat n).

Definition sample_observation : Observation :=
  mkObs (Some 1) (Some 7%Z) (Some "a1b2"%string) (Some "http://host"%string).

(** A server that answers every request. *)
Definition env_ok : SessionEnv :=
  mkSessionEnv "2026-01-01T00:00:00Z" sample_clock
    (fun _ _ _ => Ret (mkResponse None (Ret (Some sample_observation))))
    (fun _ _ => Ret tt)
    (fun _ => Ret tt)
    (fun _ _ => Ret (mkWsMessage (Some "observation"%string) "{}" (Some sample_observation)))
    None.

(** A server that never answers: the first network operation times out,
    and the timeout carries no message, as [asyncio.wait_for] raises it. *)
Definition env_timeout : SessionEnv :=
  mkSessionEnv "2026-01-01T00:00:00Z" sample_clock
    (fun _ _ _ => Raise (mkExc TimeoutError ""))
    (fun _ _ => Raise (mkExc TimeoutError ""))
    (fun _ => Ret tt)
    (fun _ _ => Raise (mkExc TimeoutError ""))
    None.

Definition cell_ok : CellEnv :=
  mkCellEnv sample_clock "2026-01-01T00:00:01Z" (fun _ => env_ok).

(** A process with [websockets] imported, and one where the import failed. *)
Definition world_ok : World := mkWorld true (fun _ => cell_ok).
Definition world_without_websockets : World := mkWorld false (fun _ => cell_ok).

(** Two records as the drivers build them: a timed-out session and a
    completed one. *)
Definition sample_failed : SessionResult.t :=
  SessionResult.mk 0 "http" "2026-01-01T00:00:00Z" 1 4 "cpu-basic"
    0 0 0 (1 # 2) 0 0 "" "" false (Some "TimeoutError"%string) (Some ""%string).

Definition sample_ok : SessionResult.t :=
  SessionResult.mk 1 "http" "2026-01-01T00:00:00Z" 1 4 "cpu-basic"
    0 (1 # 4) (5 # 4) (3 # 2) 1 7 "a1b2" "http://host" true None None.

(** ** More sample environments *)

Definition ConnectionClosed : ClassName := mkClassName "C" "onnectionClosed".
Definition HTTPStatusError : ClassName := mkClassName "H" "TTPStatusError".

(** A server that answers the reset message with an error message. *)
Definition env_reset_error : SessionEnv :=
  mkSessionEnv "2026-01-01T00:00:00Z" sample_clock
    (fun _ _ _ => Ret (mkResponse None (Ret (Some sample_observation))))
    (fun _ _ => Ret tt)
    (fun _ => Ret tt)
    (fun _ _ => Ret (mkWsMessage (Some "error"%string) "{'type': 'error'}" None))
    None.

(** A server that answers reset and step and then drops the connection, so
    that the close message cannot be sent. *)
Definition env_close_fails : SessionEnv :=
  mkSessionEnv "2026-01-01T00:00:00Z" sample_clock
    (fun _ _ _ => Ret (mkResponse None (Ret (Some sample_observation))))
    (fun _ _ => Ret tt)
    (fun request =>
       match request with
       | WsClose => Raise (mkExc ConnectionClosed "no close frame received or sent")
       | _ => Ret tt
       end)
    (fun _ _ => Ret (mkWsMessage (Some "observation"%string) "{}" (Some sample_observation)))
    None.

(** A server that answers every HTTP request with status 500. *)
Definition env_http_500 : SessionEnv :=
  mkSessionEnv "2026-01-01T00:00:00Z" sample_clock
    (fun _ _ _ =>
       Ret (mkResponse (Some (mkExc HTTPStatusError "Server error '500 Internal Server Error'"))
              (Ret None)))
    (fun _ _ => Ret tt)
    (fun _ => Ret tt)
    (fun _ _ => Ret (mkWsMessage (Some "observation"%string) "{}" (Some sample_observation)))
    None.

(** A server whose replies carry no observation object. *)
Definition env_no_observation : SessionEnv :=
  mkSessionEnv "2026-01-01T00:00:00Z" sample_clock
    (fun _ _ _ => Ret (mkResponse None (Ret None)))
    (fun _ _ => Ret tt)
    (fun _ => Ret tt)
    (fun _ _ => Ret (mkWsMessage (Some "observation"%string) "{}" None))
    None.

(** ** The summary in closed form

    A statistic of a sample that may be empty, and the record
    [compute_summary] returns written without case analysis;
    [summary_value_closed] below proves the two equal. *)

Definition stat (times : list Q) (p : Q) : Q :=
  match times with
  | [] => 0
  | _ => pct times p
  end.

Definition summary_closed (now : string) (results : list SessionResult.t)
    (mode url : string) (num_requests : Z) (wait_seconds : Q) (repetition : Z)
    (total_wall_time : Q) (hardware : string) : RunSummary.t :=
  let successful := filter SessionResult.success results in
  let failed := filter (fun r => negb (SessionResult.success r)) results in
  let times (latency : SessionResult.t -> Q) :=
    map latency (filter (fun r => is_positive (latency r)) successful) in
  let total_times := map SessionResult.total_latency successful in
  let throughput (work : Q) :=
    match successful with
    | [] => 0
    | _ => if is_positive total_wall_time then work / total_wall_time else 0
    end in
  RunSummary.mk mode url num_requests num_requests wait_seconds repetition
    now hardware
    (len successful) (len failed)
    (match results with
     | [] => 0
     | _ => inject_Z (len failed) / inject_Z (len results)
     end)
    total_wall_time
    (stat (times SessionResult.connect_latency) 50)
    (stat (times SessionResult.connect_latency) 95)
    (stat (times SessionResult.connect_latency) 99)
    (stat (times SessionResult.reset_latency) 50)
    (stat (times SessionResult.reset_latency) 95)
    (stat (times SessionResult.reset_latency) 99)
    (stat (times SessionResult.step_latency) 50)
    (stat (times SessionResult.step_latency) 95)
    (stat (times SessionResult.step_latency) 99)
    (get (py_min total_times) 0) (get (py_max total_times) 0)
    (get (mean total_times) 0)
    (stat total_times 50) (stat total_times 90) (stat total_times 95)
    (stat total_times 99)
    (throughput (inject_Z (len successful)))
    (throughput (inject_Z num_requests * wait_seconds))
    (count_unique_Z
       (map SessionResult.pid
            (filter (fun r => negb (SessionResult.pid r =? 0)%Z) successful)))
    (count_unique_string
       (map SessionResult.session_hash
            (filter (fun r => negb (String.eqb (SessionResult.session_hash r) ""))
                    successful)))
    (count_unique_string
       (map SessionResult.host_url
            (filter (fun r => negb (String.eqb (SessionResult.host_url r) ""))
                    successful))).

(** Equality of summaries up to the representation of the rationals. *)
Definition summary_equiv (s s' : RunSummary.t) : Prop :=
  RunSummary.mode s = RunSummary.mode s'
  /\ RunSummary.url s = RunSummary.url s'
  /\ RunSummary.num_requests s = RunSummary.num_requests s'
  /\ RunSummary.batch_size s = RunSummary.batch_size s'
  /\ RunSummary.wait_seconds s == RunSummary.wait_seconds s'
  /\ RunSummary.repetition s = RunSummary.repetition s'
  /\ RunSummary.timestamp s = RunSummary.timestamp s'
  /\ RunSummary.hardware s = RunSummary.hardware s'
  /\ RunSummary.successful s = RunSummary.successful s'
  /\ RunSummary.failed s = RunSummary.failed s'
  /\ RunSummary.error_rate s == RunSummary.error_rate s'
  /\ RunSummary.total_wall_time s == RunSummary.total_wall_time s'
  /\ RunSummary.connect_p50 s == RunSummary.connect_p50 s'
  /\ RunSummary.connect_p95 s == RunSummary.connect_p95 s'
  /\ RunSummary.connect_p99 s == RunSummary.connect_p99 s'
  /\ RunSummary.reset_p50 s == RunSummary.reset_p50 s'
  /\ RunSummary.reset_p95 s == RunSummary.reset_p95 s'
  /\ RunSummary.reset_p99 s == RunSummary.reset_p99 s'
  /\ RunSummary.step_p50 s == RunSummary.step_p50 s'
  /\ RunSummary.step_p95 s == RunSummary.step_p95 s'
  /\ RunSummary.step_p99 s == RunSummary.step_p99 s'
  /\ RunSummary.total_min s == RunSummary.total_min s'
  /\ RunSummary.total_max s == RunSummary.total_max s'
  /\ RunSummary.total_avg s == RunSummary.total_avg s'
  /\ RunSummary.total_p50 s == RunSummary.total_p50 s'
  /\ RunSummary.total_p90 s == RunSummary.total_p90 s'
  /\ RunSummary.total_p95 s == RunSummary.total_p95 s'
  /\ RunSummary.total_p99 s == RunSummary.total_p99 s'
  /\ RunSummary.requests_per_second s == RunSummary.requests_per_second s'
  /\ RunSummary.effective_concurrency s == RunSummary.effective_concurrency s'
  /\ RunSummary.unique_pids s = RunSummary.unique_pids s'
  /\ RunSummary.unique_sessions s = RunSummary.unique_sessions s'
  /\ RunSummary.unique_hosts s = RunSummary.unique_hosts s'.

(** ** Output files

    A file system holds, for each directory and file name, the records
    written to the file so far ([None]: the file does not exist).  I/O
    errors are not modelled. *)

Definition FileSystem : Type := string -> string -> option (list string).

Definition no_files : FileSystem := fun _ _ => None.

(** [with open(path, "a") as f:] and the writes of [records]: the file is
    created when it is missing, also when nothing is written. *)
Definition append_records (fs : FileSystem) (dir name : string)
    (records : list string) : FileSystem :=
  fun d n =>
    if String.eqb d dir && String.eqb n name
    then Some (get (fs d n) [] ++ records)%list
    else fs d n.

(** [filepath.exists()]. *)
Definition file_exists (fs : FileSystem) (dir name : string) : bool :=
  match fs dir name with
  | Some _ => true
  | None => false
  end.

(** The keys of [asdict(summary)], in the order of the fields. *)
Definition summary_fieldnames : list string :=
  ["mode"; "url"; "num_requests"; "batch_size"; "wait_seconds"; "repetition";
   "timestamp"; "hardware"; "successful"; "failed"; "error_rate";
   "total_wall_time"; "connect_p50"; "connect_p95"; "connect_p99";
   "reset_p50"; "reset_p95"; "reset_p99"; "step_p50"; "step_p95"; "step_p99";
   "total_min"; "total_max"; "total_avg"; "total_p50"; "total_p90";
   "total_p95"; "total_p99"; "requests_per_second"; "effective_concurrency";
   "unique_pids"; "unique_sessions"; "unique_hosts"]%string.

(** The record [writeheader()] writes. *)
Definition csv_header : string := String.concat "," summary_fieldnames.

Section Output.

(** [json.dumps(asdict(r))] and the row [DictWriter.writerow(asdict(s))]
    writes; how floats are printed is left open. *)
Variable json_dumps : SessionResult.t -> string.
Variable csv_row : RunSummary.t -> string.

Definition write_jsonl (results : list SessionResult.t) (dir name : string)
    (fs : FileSystem) : FileSystem :=
  append_records fs dir name (map json_dumps results).

Definition write_csv_summary (summaries : list RunSummary.t) (dir name : string)
    (fs : FileSystem) : FileSystem :=
  match summaries with
  | [] => fs
  | _ =>
      let existed := file_exists fs dir name in
      append_records fs dir name
        ((if existed then [] else [csv_header]) ++ map csv_row summaries)%list
  end.

(** [run_single_test] with its [output_dir] argument; console output is
    not modelled. *)
Definition run_single_test_out (websockets : bool) (cell : CellEnv) (url : string)
    (num_requests : Z) (wait_seconds : Q) (mode : string) (timeout : Q)
    (repetition : Z) (output_dir : option string) (hardware : string)
    (fs : FileSystem) : M (RunSummary.t * FileSystem) :=
  start <- perf_counter (cell_clock cell) ;;
  results <-
    (if String.eqb mode "ws" then
       if negb websockets then
         raise (mkExc ImportError "websockets not installed for ws mode")
       else
         lift (run_ws_test websockets (cell_sessions cell) url num_requests
                 wait_seconds timeout hardware)
     else
       lift (run_http_test (cell_sessions cell) url num_requests
               wait_seconds timeout hardware)) ;;
  t_done <- perf_counter (cell_clock cell) ;;
  let total_wall_time := t_done - start in
  summary <- lift (compute_summary (cell_now cell) results mode url num_requests
                     wait_seconds repetition total_wall_time hardware) ;;
  let fs :=
    match output_dir with
    | Some dir =>
        let fs := write_jsonl results dir "raw.jsonl" fs in
        write_csv_summary [summary] dir "summary.csv" fs
    | None => fs
    end in
  ret (summary, fs).



End Output.


(** ** Comparison and command line *)

(** A coroutine that may end the process with [sys.exit(code)]. *)
Inductive process (A : Type) : Type :=
| Finished (o : outcome A)
| Exited (code : Z).
Arguments Finished {A} o.
Arguments Exited {A} code.

(** [s.split(",")]. *)
Fixpoint split_comma_from (current : string) (s : string) : list string :=
  match s with
  | EmptyString => [current]
  | String ch s' =>
      if Ascii.eqb ch ","
      then current :: split_comma_from EmptyString s'
      else split_comma_from (current ++ String ch EmptyString)%string s'
  end.

Definition split_comma (s : string) : list string := split_comma_from EmptyString s.





Section CommandLine.

Variable json_dumps : SessionResult.t -> string.
Variable csv_row : RunSummary.t -> string.

(** [int(x)] and [float(x)] on a string: a number, or ValueError. *)
Variable int_of_string : string -> outcome Z.
Variable float_of_string : string -> outcome Q.

(** [run_comparison]: the HTTP run, then the WebSocket run, each in its
    own cell; the pause between them and console output are not
    modelled. *)
Definition run_comparison (websockets : bool) (http_cell ws_cell : CellEnv)
    (url : string) (num_requests : Z) (wait_seconds timeout : Q)
    (output_dir : option string) (hardware : string) (fs : FileSystem)
    : process (RunSummary.t * RunSummary.t * FileSystem) :=
  if negb websockets then Exited 1
  else
    Finished
      (let! http_run :=
         run (run_single_test_out json_dumps csv_row websockets http_cell url
                num_requests wait_seconds "http" timeout 1 output_dir hardware fs) in
       let! ws_run :=
         run (run_single_test_out json_dumps csv_row websockets ws_cell url
                num_requests wait_seconds "ws" timeout 1 output_dir hardware
                (snd http_run)) in
       Ret (fst http_run, fst ws_run, snd ws_run)).


End CommandLine.

(** * Properties *)

(** ** The model on concrete inputs *)

Example percentile_quartile : oQeq (percentile [3; 1; 2] 25) (Some (3 # 2)).
Proof. vm_compute. reflexivity. Qed.

Example percentile_negative_rank_wraps : oQeq (percentile [1; 2] (-100)) (Some 2).
Proof. vm_compute. reflexivity. Qed.

Example percentile_past_the_end : percentile [1; 2] 200 = None.
Proof. reflexivity. Qed.

Example convert_http_url : convert_to_ws_url "http://localhost:8000/" = "ws://localhost:8000/ws"%string.
Proof. reflexivity. Qed.

Example convert_https_url : convert_to_ws_url "https://a.b//" = "wss://a.b/ws"%string.
Proof. reflexivity. Qed.

Example convert_ws_url_kept : convert_to_ws_url "ws://a.b/ws" = "ws://a.b/ws"%string.
Proof. reflexivity. Qed.

Example http_session_completes :
  run (http_session env_ok 60 "http://host" 3 1)
  = Ret (SessionResult.mk 3 "http" "2026-01-01T00:00:00Z" 1 0 "cpu-basic"
           0 1 1 5 1 7 "a1b2" "http://host" true None None).
Proof. reflexivity. Qed.

Example ws_session_times_out :
  run (ws_session true env_timeout "ws://host/ws" 3 1 60)
  = Ret (SessionResult.mk 3 "ws" "2026-01-01T00:00:00Z" 1 0 "cpu-basic"
           0 0 0 2 0 0 "" "" false (Some "TimeoutError"%string) (Some ""%string)).
Proof. reflexivity. Qed.

Example unique_pids_of_five :
  count_unique_Z [7; 7; 7; 9; 9]%Z = 2%Z.
Proof. reflexivity. Qed.

Example summary_of_three :
  exists s,
    compute_summary "2026-01-01T00:00:01Z" [sample_failed; sample_ok; sample_ok]
      "http" "http://host" 3 1 1 (3 # 2) "cpu-basic" = Ret s
    /\ RunSummary.successful s = 2%Z /\ RunSummary.failed s = 1%Z
    /\ RunSummary.error_rate s == 1 # 3
    /\ RunSummary.requests_per_second s == 4 # 3
    /\ RunSummary.effective_concurrency s == 2
    /\ RunSummary.unique_pids s = 1%Z.
Proof. eexists. split; [reflexivity|]. repeat split. Qed.

(** ** Sorting *)

Section Sorting.

Lemma insert_sorted_perm (x : Q) (l : list Q) :
  Permutation (insert_sorted x l) (x :: l).
Proof.
  induction l as [|y l IH]; simpl; [reflexivity|].
  destruct (Qlt_le_dec x y); [reflexivity|].
  rewrite IH. apply perm_swap.
Qed.

Lemma sorted_perm (l : list Q) : Permutation (sorted l) l.
Proof.
  induction l as [|x l IH]; simpl; [constructor|].
  rewrite insert_sorted_perm. now constructor.
Qed.

Lemma sorted_length (l : list Q) : List.length (sorted l) = List.length l.
Proof. apply Permutation_length, sorted_perm. Qed.

Lemma len_sorted (l : list Q) : len (sorted l) = len l.
Proof. unfold len. now rewrite sorted_length. Qed.

Lemma insert_sorted_Forall (P : Q -> Prop) (x : Q) (l : list Q) :
  P x -> Forall P l -> Forall P (insert_sorted x l).
Proof.
  intros Hx Hl. eapply Permutation_Forall.
  - symmetry. apply insert_sorted_perm.
  - now constructor.
Qed.

Lemma insert_sorted_sorted (x : Q) (l : list Q) :
  StronglySorted Qle l -> StronglySorted Qle (insert_sorted x l).
Proof.
  induction 1 as [|y l Hs IH Hy]; simpl.
  - repeat constructor.
  - destruct (Qlt_le_dec x y) as [Hlt|Hle].
    + constructor; [now constructor|].
      constructor; [now apply Qlt_le_weak|].
      eapply Forall_impl; [|exact Hy].
      intros z Hz. apply Qle_trans with y; [now apply Qlt_le_weak|exact Hz].
    + constructor; [exact IH|].
      now apply insert_sorted_Forall.
Qed.

Lemma sorted_sorted (l : list Q) : StronglySorted Qle (sorted l).
Proof.
  induction l as [|x l IH]; simpl; [constructor|].
  now apply insert_sorted_sorted.
Qed.

(** In a sorted list the element at a smaller index is the smaller one. *)
Lemma StronglySorted_nth (s : list Q) (d : Q) :
  StronglySorted Qle s ->
  forall i j : nat, (i <= j < List.length s)%nat -> nth i s d <= nth j s d.
Proof.
  induction 1 as [|x s Hs IH Hx]; intros i j [Hij Hj]; simpl in Hj; [lia|].
  destruct i as [|i], j as [|j]; simpl; try lia.
  - apply Qle_refl.
  - rewrite Forall_forall in Hx. apply Hx, nth_In. lia.
  - apply IH. lia.
Qed.

End Sorting.

(** ** Indexing and truncation *)

Lemma py_int_floor (k : Q) : 0 <= k -> py_int k = Qfloor k.
Proof.
  destruct k as [n d]. unfold Qle, py_int, Qfloor. simpl. intros Hn.
  apply Z.quot_div_nonneg; lia.
Qed.

Lemma py_getitem_nth {A : Type} (l : list A) (i : Z) (d : A) :
  (0 <= i < len l)%Z -> py_getitem l i = Some (nth (Z.to_nat i) l d).
Proof.
  unfold py_getitem, len. intros Hi.
  destruct (Z.leb_spec 0 i); [|lia].
  apply nth_error_nth'. lia.
Qed.

Lemma len_nonneg {A : Type} (l : list A) : (0 <= len l)%Z.
Proof. unfold len. lia. Qed.

Lemma len_pos {A : Type} (l : list A) : l <> [] -> (1 <= len l)%Z.
Proof. destruct l; [congruence|]. unfold len. simpl. lia. Qed.

(** ** Rank, floor and interpolation *)

Section Interpolation.

Lemma rank_bounds (n : Z) (p : Q) :
  (1 <= n)%Z -> 0 <= p <= 100 -> 0 <= rank n p <= inject_Z (n - 1).
Proof.
  intros Hn [Hp0 Hp1]. unfold rank.
  assert (Hm : 0 <= inject_Z (n - 1)).
  { change 0 with (inject_Z 0). rewrite <- Zle_Qle. lia. }
  set (m := inject_Z (n - 1)) in *.
  split.
  - apply Qle_shift_div_l; [reflexivity|]. nra.
  - apply Qle_shift_div_r; [reflexivity|]. nra.
Qed.

Lemma floor_bounds (n : Z) (k : Q) :
  0 <= k <= inject_Z (n - 1) -> (0 <= Qfloor k <= n - 1)%Z.
Proof.
  intros [H0 H1]. split.
  - change 0%Z with (Qfloor 0). now apply Qfloor_resp_le.
  - rewrite <- (Qfloor_Z (n - 1)). now apply Qfloor_resp_le.
Qed.

Lemma frac_bounds (k : Q) : 0 <= k - inject_Z (Qfloor k) /\ k - inject_Z (Qfloor k) < 1.
Proof.
  pose proof (Qfloor_le k) as Hle. pose proof (Qlt_floor k) as Hlt.
  rewrite inject_Z_plus in Hlt. change (inject_Z 1) with 1 in Hlt.
  split; lra.
Qed.

Variable s : list Q.
Hypothesis s_sorted : StronglySorted Qle s.

Lemma item_mono (i j : Z) : (0 <= i <= j)%Z -> (j < len s)%Z -> item s i <= item s j.
Proof.
  intros Hij Hj. unfold item, len in *.
  apply StronglySorted_nth; [exact s_sorted|]. lia.
Qed.

(** The interpolated value lies between the two order statistics. *)
Lemma interpolation_between (p : Q) :
  (1 <= len s)%Z -> 0 <= p <= 100 ->
  let f := Qfloor (rank (len s) p) in
  let c := Z.min (f + 1) (len s - 1) in
  item s f <= percentile_spec s p <= item s c.
Proof.
  intros Hn Hp f c.
  pose proof (floor_bounds _ _ (rank_bounds _ _ Hn Hp)) as Hf. fold f in Hf.
  assert (Hfc : item s f <= item s c) by (apply item_mono; lia).
  destruct (frac_bounds (rank (len s) p)) as [Ht0 Ht1]. fold f in Ht0, Ht1.
  unfold percentile_spec. fold f. fold c.
  set (t := rank (len s) p - inject_Z f) in *.
  set (a := item s f) in *. set (b := item s c) in *.
  split; nra.
Qed.

(** The percentile does not decrease with the rank. *)
Lemma percentile_spec_mono (p1 p2 : Q) :
  (1 <= len s)%Z -> 0 <= p1 -> p1 <= p2 -> p2 <= 100 ->
  percentile_spec s p1 <= percentile_spec s p2.
Proof.
  intros Hn H1 H12 H2.
  assert (Hp1 : 0 <= p1 <= 100) by (split; lra).
  assert (Hp2 : 0 <= p2 <= 100) by (split; lra).
  pose proof (interpolation_between p1 Hn Hp1) as B1.
  pose proof (interpolation_between p2 Hn Hp2) as B2.
  pose proof (floor_bounds _ _ (rank_bounds _ _ Hn Hp1)) as Hf1.
  pose proof (floor_bounds _ _ (rank_bounds _ _ Hn Hp2)) as Hf2.
  assert (Hk : rank (len s) p1 <= rank (len s) p2).
  { unfold rank.
    assert (Hm : 0 <= inject_Z (len s - 1)).
    { change 0 with (inject_Z 0). rewrite <- Zle_Qle. lia. }
    set (m := inject_Z (len s - 1)) in *.
    apply Qle_shift_div_l; [reflexivity|].
    setoid_replace (m * p1 / 100 * 100) with (m * p1) by (field).
    nra. }
  pose proof (Qfloor_resp_le _ _ Hk) as Hff.
  simpl in B1, B2.
  set (f1 := Qfloor (rank (len s) p1)) in *.
  set (f2 := Qfloor (rank (len s) p2)) in *.
  destruct (Z.eq_dec f1 f2) as [E|NE].
  - unfold percentile_spec. fold f1. fold f2. rewrite <- E.
    assert (Hfc : item s f1 <= item s (Z.min (f1 + 1) (len s - 1)))
      by (apply item_mono; lia).
    set (a := item s f1) in *. set (b := item s (Z.min (f1 + 1) (len s - 1))) in *.
    set (k1 := rank (len s) p1) in *. set (k2 := rank (len s) p2) in *.
    nra.
  - apply Qle_trans with (item s (Z.min (f1 + 1) (len s - 1))); [apply B1|].
    apply Qle_trans with (item s f2); [|apply B2].
    apply item_mono; lia.
Qed.

End Interpolation.

(** The code computes the specified value on every non-empty sample. *)
Lemma percentile_eq_spec (data : list Q) (p : Q) :
  data <> [] -> 0 <= p <= 100 ->
  percentile data p = Some (percentile_spec (sorted data) p).
Proof.
  intros Hne Hp. unfold percentile.
  destruct data as [|x l]; [congruence|].
  set (data := x :: l) in *.
  assert (Hn : (1 <= len (sorted data))%Z) by (rewrite len_sorted; now apply len_pos).
  pose proof (rank_bounds _ _ Hn Hp) as Hk.
  pose proof (floor_bounds _ _ Hk) as Hf.
  unfold rank in Hk, Hf.
  rewrite (py_int_floor _ (proj1 Hk)).
  set (k := inject_Z (len (sorted data) - 1) * p / 100) in *.
  rewrite (py_getitem_nth _ (Qfloor k) 0) by lia.
  rewrite (py_getitem_nth _ (Z.min (Qfloor k + 1) (len (sorted data) - 1)) 0) by lia.
  reflexivity.
Qed.

(** ** Minimum and maximum *)

Section Extrema.

Lemma fold_min_spec (l : list Q) (x : Q) :
  let m := fold_left (fun m y => if Qlt_le_dec y m then y else m) l x in
  In m (x :: l) /\ Forall (fun y => m <= y) (x :: l).
Proof.
  revert x. induction l as [|y l IH]; intros x; simpl.
  - split; [now left|]. constructor; [apply Qle_refl|constructor].
  - destruct (Qlt_le_dec y x) as [Hlt|Hle].
    + destruct (IH y) as [Hin Hall]. simpl in Hin. split; [tauto|].
      inversion Hall as [|? ? Hy Hl]; subst.
      constructor; [|now constructor].
      apply Qle_trans with y; [exact Hy|now apply Qlt_le_weak].
    + destruct (IH x) as [Hin Hall]. simpl in Hin. split; [tauto|].
      inversion Hall as [|? ? Hx Hl]; subst.
      constructor; [exact Hx|]. constructor; [|exact Hl].
      now apply Qle_trans with x.
Qed.

Lemma fold_max_spec (l : list Q) (x : Q) :
  let m := fold_left (fun m y => if Qlt_le_dec m y then y else m) l x in
  In m (x :: l) /\ Forall (fun y => y <= m) (x :: l).
Proof.
  revert x. induction l as [|y l IH]; intros x; simpl.
  - split; [now left|]. constructor; [apply Qle_refl|constructor].
  - destruct (Qlt_le_dec x y) as [Hlt|Hle].
    + destruct (IH y) as [Hin Hall]. simpl in Hin. split; [tauto|].
      inversion Hall as [|? ? Hy Hl]; subst.
      constructor; [|now constructor].
      apply Qle_trans with y; [now apply Qlt_le_weak|exact Hy].
    + destruct (IH x) as [Hin Hall]. simpl in Hin. split; [tauto|].
      inversion Hall as [|? ? Hx Hl]; subst.
      constructor; [exact Hx|]. constructor; [|exact Hl].
      now apply Qle_trans with x.
Qed.

Lemma py_min_spec (data : list Q) :
  data <> [] ->
  exists m, py_min data = Some m /\ In m data /\ Forall (fun y => m <= y) data.
Proof.
  destruct data as [|x l]; [congruence|]. intros _.
  eexists. split; [reflexivity|]. apply fold_min_spec.
Qed.

Lemma py_max_spec (data : list Q) :
  data <> [] ->
  exists m, py_max data = Some m /\ In m data /\ Forall (fun y => y <= m) data.
Proof.
  destruct data as [|x l]; [congruence|]. intros _.
  eexists. split; [reflexivity|]. apply fold_max_spec.
Qed.

Lemma item_in_sorted (data : list Q) (i : Z) :
  (0 <= i < len data)%Z -> In (item (sorted data) i) data.
Proof.
  intros Hi. apply (Permutation_in _ (sorted_perm data)).
  unfold item. apply nth_In. rewrite sorted_length. unfold len in Hi. lia.
Qed.

(** The first element of the sorted sample is the minimum, the last one
    the maximum. *)
Lemma sorted_first_min (data : list Q) (m : Q) :
  py_min data = Some m -> item (sorted data) 0 == m.
Proof.
  intros Hm.
  assert (Hne : data <> []) by (destruct data; [discriminate|congruence]).
  destruct (py_min_spec data Hne) as (m' & Hm' & Hin & Hall).
  rewrite Hm in Hm'. injection Hm' as <-.
  pose proof (len_pos data Hne) as Hn.
  apply Qle_antisym.
  - apply (Permutation_in _ (Permutation_sym (sorted_perm data))) in Hin.
    destruct (In_nth _ _ 0 Hin) as (j & Hj & <-).
    unfold item. apply StronglySorted_nth; [apply sorted_sorted|].
    simpl. lia.
  - rewrite Forall_forall in Hall. apply Hall, item_in_sorted. lia.
Qed.

Lemma sorted_last_max (data : list Q) (m : Q) :
  py_max data = Some m -> item (sorted data) (len data - 1) == m.
Proof.
  intros Hm.
  assert (Hne : data <> []) by (destruct data; [discriminate|congruence]).
  destruct (py_max_spec data Hne) as (m' & Hm' & Hin & Hall).
  rewrite Hm in Hm'. injection Hm' as <-.
  pose proof (len_pos data Hne) as Hn.
  apply Qle_antisym.
  - rewrite Forall_forall in Hall. apply Hall, item_in_sorted. lia.
  - apply (Permutation_in _ (Permutation_sym (sorted_perm data))) in Hin.
    destruct (In_nth _ _ 0 Hin) as (j & Hj & <-).
    unfold item. apply StronglySorted_nth; [apply sorted_sorted|].
    rewrite sorted_length in *. unfold len in *. lia.
Qed.

Lemma percentile_spec_0 (s : list Q) : percentile_spec s 0 == item s 0.
Proof.
  unfold percentile_spec.
  assert (Hk : rank (len s) 0 == 0) by (unfold rank; field).
  assert (Hf : Qfloor (rank (len s) 0) = 0%Z) by (now rewrite Hk).
  rewrite Hf, Hk. change (inject_Z 0) with 0. ring.
Qed.

Lemma percentile_spec_100 (s : list Q) :
  percentile_spec s 100 == item s (len s - 1).
Proof.
  unfold percentile_spec.
  assert (Hk : rank (len s) 100 == inject_Z (len s - 1)) by (unfold rank; field).
  assert (Hf : Qfloor (rank (len s) 100) = (len s - 1)%Z)
    by (rewrite Hk; apply Qfloor_Z).
  rewrite Hf, Hk. rewrite Z.min_r by lia. ring.
Qed.

End Extrema.

(** ** The percentile function *)

Lemma percentile_empty (p : Q) : percentile [] p = Some 0.
Proof. reflexivity. Qed.

Lemma percentile_min (data : list Q) :
  data <> [] -> oQeq (percentile data 0) (py_min data).
Proof.
  intros Hne.
  rewrite percentile_eq_spec by (try assumption; split; lra).
  destruct (py_min_spec data Hne) as (m & Hm & _). rewrite Hm. simpl.
  rewrite percentile_spec_0. now apply sorted_first_min.
Qed.

Lemma percentile_max (data : list Q) :
  data <> [] -> oQeq (percentile data 100) (py_max data).
Proof.
  intros Hne.
  rewrite percentile_eq_spec by (try assumption; split; lra).
  destruct (py_max_spec data Hne) as (m & Hm & _). rewrite Hm. simpl.
  rewrite percentile_spec_100, len_sorted. now apply sorted_last_max.
Qed.

(** On every sample the percentile returns, and does not decrease with
    [p] in [0, 100]. *)
Lemma percentile_mono (data : list Q) (p1 p2 : Q) :
  0 <= p1 -> p1 <= p2 -> p2 <= 100 ->
  exists v1 v2,
    percentile data p1 = Some v1 /\ percentile data p2 = Some v2 /\ v1 <= v2.
Proof.
  intros H1 H12 H2.
  destruct data as [|x l].
  - exists 0, 0. repeat split; apply Qle_refl.
  - set (data := x :: l).
    assert (Hne : data <> []) by discriminate.
    exists (percentile_spec (sorted data) p1), (percentile_spec (sorted data) p2).
    split; [apply percentile_eq_spec; [assumption|split; lra]|].
    split; [apply percentile_eq_spec; [assumption|split; lra]|].
    apply percentile_spec_mono; try assumption.
    + apply sorted_sorted.
    + rewrite len_sorted. now apply len_pos.
Qed.

(** The value lies between the minimum and the maximum of the sample. *)
Lemma percentile_spec_range (data : list Q) (p mn mx : Q) :
  0 <= p <= 100 -> py_min data = Some mn -> py_max data = Some mx ->
  mn <= percentile_spec (sorted data) p <= mx.
Proof.
  intros Hp Hmn Hmx.
  assert (Hne : data <> []) by (destruct data; [discriminate|congruence]).
  assert (Hn : (1 <= len (sorted data))%Z) by (rewrite len_sorted; now apply len_pos).
  pose proof (interpolation_between _ (sorted_sorted data) p Hn Hp) as [Blo Bhi].
  pose proof (floor_bounds _ _ (rank_bounds _ _ Hn Hp)) as Hf.
  destruct (py_min_spec data Hne) as (m1 & Hm1 & _ & Hlo).
  destruct (py_max_spec data Hne) as (m2 & Hm2 & _ & Hhi).
  rewrite Hmn in Hm1. injection Hm1 as <-.
  rewrite Hmx in Hm2. injection Hm2 as <-.
  rewrite Forall_forall in Hlo, Hhi.
  rewrite len_sorted in *.
  split.
  - eapply Qle_trans; [|exact Blo]. apply Hlo, item_in_sorted. lia.
  - eapply Qle_trans; [exact Bhi|]. apply Hhi, item_in_sorted. lia.
Qed.

(** C1: [percentile] is the linearly interpolated order statistic.  On a
    non-empty sample and [p] in [0, 100] it returns
    [s[f] + (k-f) * (s[c] - s[f])] for the ascending sort [s] of the sample,
    [k = (n-1)*p/100], [f = floor(k)] and [c = min(f+1, n-1)]; hence
    [percentile(data, 0)] is [min(data)], [percentile(data, 100)] is
    [max(data)], [percentile([1,2,3,4,5], 50)] is 3, and on the empty
    sample the result is 0 for every [p]. *)
Theorem percentile_linear_interpolation :
  (forall (data : list Q) (p : Q),
      data <> [] -> 0 <= p <= 100 ->
      exists s : list Q,
        Permutation s data /\ StronglySorted Qle s /\
        let n := len s in
        let k := inject_Z (n - 1) * p / 100 in
        let f := Qfloor k in
        let c := Z.min (f + 1) (n - 1) in
        percentile data p
        = Some (item s f + (k - inject_Z f) * (item s c - item s f)))
  /\ (forall data : list Q,
         data <> [] ->
         oQeq (percentile data 0) (py_min data)
         /\ oQeq (percentile data 100) (py_max data))
  /\ oQeq (percentile [1; 2; 3; 4; 5] 50) (Some 3)
  /\ (forall p : Q, percentile [] p = Some 0).
Proof.
  split; [|split; [|split]].
  - intros data p Hne Hp. exists (sorted data).
    split; [apply sorted_perm|]. split; [apply sorted_sorted|].
    now apply percentile_eq_spec.
  - intros data Hne. split; [now apply percentile_min|now apply percentile_max].
  - vm_compute. reflexivity.
  - exact percentile_empty.
Qed.

Lemma percentile_linear_interpolation_witness :
  (exists s : list Q,
      Permutation s [3; 1; 2] /\ StronglySorted Qle s /\
      percentile [3; 1; 2] 25
      = Some (item s (Qfloor (inject_Z (len s - 1) * 25 / 100))
              + (inject_Z (len s - 1) * 25 / 100
                 - inject_Z (Qfloor (inject_Z (len s - 1) * 25 / 100)))
                * (item s (Z.min (Qfloor (inject_Z (len s - 1) * 25 / 100) + 1)
                                 (len s - 1))
                   - item s (Qfloor (inject_Z (len s - 1) * 25 / 100)))))
  /\ oQeq (percentile [3; 1; 2] 0) (py_min [3; 1; 2])
  /\ oQeq (percentile [3; 1; 2] 100) (py_max [3; 1; 2]).
Proof.
  split.
  - apply (proj1 percentile_linear_interpolation [3; 1; 2] 25).
    + discriminate.
    + split; vm_compute; discriminate.
  - apply (proj1 (proj2 percentile_linear_interpolation) [3; 1; 2]).
    discriminate.
Defined.

(** C10: on a non-empty sample with [0 <= p <= 100] both subscripts of
    [percentile] are within bounds, so the function returns, and its
    value lies between [min(data)] and [max(data)]; the bound on [p] is
    needed, since for [p > 100] the index can pass the end of the list. *)
Theorem percentile_indices_in_bounds :
  (forall (data : list Q) (p : Q),
      data <> [] -> 0 <= p <= 100 ->
      let sorted_data := sorted data in
      let k := inject_Z (len sorted_data - 1) * p / 100 in
      let f := py_int k in
      let c := Z.min (f + 1) (len sorted_data - 1) in
      (0 <= f < len sorted_data)%Z /\ (0 <= c < len sorted_data)%Z
      /\ exists v mn mx : Q,
          percentile data p = Some v
          /\ py_min data = Some mn /\ py_max data = Some mx
          /\ mn <= v <= mx)
  /\ (exists (data : list Q) (p : Q),
         data <> [] /\ 100 < p
         /\ (len (sorted data) <= py_int (inject_Z (len (sorted data) - 1) * p / 100))%Z
         /\ percentile data p = None).
Proof.
  split.
  - intros data p Hne Hp sorted_data k f c.
    assert (Hn : (1 <= len sorted_data)%Z)
      by (unfold sorted_data; rewrite len_sorted; now apply len_pos).
    pose proof (rank_bounds _ _ Hn Hp) as Hk.
    pose proof (floor_bounds _ _ Hk) as Hf.
    unfold rank in Hk, Hf. fold k in Hk, Hf.
    assert (Ef : f = Qfloor k) by (apply py_int_floor, Hk).
    split; [lia|]. split; [unfold c; lia|].
    destruct (py_min_spec data Hne) as (mn & Hmn & _).
    destruct (py_max_spec data Hne) as (mx & Hmx & _).
    exists (percentile_spec (sorted data) p), mn, mx.
    split; [now apply percentile_eq_spec|].
    split; [exact Hmn|]. split; [exact Hmx|].
    now apply percentile_spec_range.
  - exists [1; 2], 200. split; [discriminate|].
    split; [reflexivity|]. split; [vm_compute; discriminate|reflexivity].
Qed.

Lemma percentile_indices_in_bounds_witness :
  exists v mn mx : Q,
    percentile [4; 1; 3] 95 = Some v
    /\ py_min [4; 1; 3] = Some mn /\ py_max [4; 1; 3] = Some mx
    /\ mn <= v <= mx.
Proof.
  apply (proj1 percentile_indices_in_bounds [4; 1; 3] 95).
  - discriminate.
  - split; vm_compute; discriminate.
Defined.

(** ** The summary aggregator *)

Lemma percentile_exc_ret (data : list Q) (p : Q) :
  data <> [] -> 0 <= p <= 100 -> percentile_exc data p = Ret (pct data p).
Proof.
  intros Hne Hp. unfold percentile_exc, pct.
  now rewrite percentile_eq_spec.
Qed.

Ltac pct_ret :=
  rewrite percentile_exc_ret by (try discriminate; split; vm_compute; discriminate).

Lemma py_div_ret (a b : Q) : ~ b == 0 -> py_div a b = Ret (a / b).
Proof. intros Hb. unfold py_div. now destruct (Qeq_dec b 0). Qed.

Lemma is_positive_spec (x : Q) : is_positive x = true <-> 0 < x.
Proof.
  unfold is_positive. destruct (Qlt_le_dec 0 x) as [H|H]; split; intros H';
    try assumption; try reflexivity; try discriminate.
  exfalso. apply (Qlt_irrefl 0). eapply Qlt_le_trans; eassumption.
Qed.

Lemma inject_len_nonzero {A : Type} (l : list A) : l <> [] -> ~ inject_Z (len l) == 0.
Proof.
  intros Hne H. apply len_pos in Hne.
  assert (E : len l = 0%Z) by (apply inject_Z_injective; exact H).
  lia.
Qed.

(** [compute_summary] never raises: it returns [summary_value]. *)
Lemma compute_summary_value now results mode url num_requests wait_seconds
    repetition total_wall_time hardware :
  compute_summary now results mode url num_requests wait_seconds repetition
    total_wall_time hardware
  = Ret (summary_value now results mode url num_requests wait_seconds repetition
           total_wall_time hardware).
Proof.
  unfold compute_summary, summary_value.
  assert (Hrate :
    match results with
    | [] => Ret 0
    | _ => py_div (inject_Z (len (filter (fun r => negb (SessionResult.success r)) results)))
                  (inject_Z (len results))
    end
    = Ret match results with
          | [] => 0
          | _ => inject_Z (len (filter (fun r => negb (SessionResult.success r)) results))
                 / inject_Z (len results)
          end).
  { destruct results as [|r l]; [reflexivity|].
    apply py_div_ret, inject_len_nonzero. discriminate. }
  rewrite Hrate. cbn [obind].
  destruct (filter SessionResult.success results) as [|r0 succ]; [reflexivity|].
  set (successful := r0 :: succ).
  assert (Hthr : forall a : Q,
             is_positive total_wall_time = true ->
             py_div a total_wall_time = Ret (a / total_wall_time)).
  { intros a Hpos. apply py_div_ret. apply is_positive_spec in Hpos.
    intros E. rewrite E in Hpos. now apply (Qlt_irrefl 0). }
  destruct (is_positive total_wall_time) eqn:Hpos;
    [rewrite !Hthr by reflexivity|];
    destruct (map SessionResult.connect_latency _) as [|c0 cs];
    destruct (map SessionResult.reset_latency _) as [|r1 rs];
    destruct (map SessionResult.step_latency _) as [|s0 ss];
    unfold successful; cbn [map obind of_option py_min py_max mean];
    repeat pct_ret; reflexivity.
Qed.

(** ** The session drivers *)

Section Sessions.

Variable env : SessionEnv.

(** Running a driver: one clock reading, then the [try] block, then the
    handler if the block raised. *)
Lemma http_session_run (client : Q) (base_url : string) (request_id : Z)
    (wait_seconds : Q) :
  run (http_session env client base_url request_id wait_seconds)
  = match http_try env client base_url request_id wait_seconds
            (now_iso env) (clock env 0%nat) 1%nat with
    | (Ret r, _) => Ret r
    | (Raise e, n) =>
        Ret (SessionResult.mk request_id "http" (now_iso env) wait_seconds
               0%Z "cpu-basic" 0 0 0 (clock env n - clock env 0%nat)
               0 0%Z "" ""
               false (Some (class_name (exc_type e))) (Some (exc_str e)))
    end.
Proof.
  unfold run, http_session, bind, try_except, perf_counter. simpl.
  destruct (http_try _ _ _ _ _ _ _ _) as [[r|e] n]; reflexivity.
Qed.

Lemma ws_session_run (ws_url : string) (request_id : Z)
    (wait_seconds timeout : Q) :
  run (ws_session true env ws_url request_id wait_seconds timeout)
  = match ws_try env ws_url request_id wait_seconds timeout
            (now_iso env) (clock env 0%nat) 1%nat with
    | (Ret r, _) => Ret r
    | (Raise e, n) =>
        Ret (SessionResult.mk request_id "ws" (now_iso env) wait_seconds
               0%Z "cpu-basic" 0 0 0 (clock env n - clock env 0%nat)
               0 0%Z "" ""
               false (Some (class_name (exc_type e))) (Some (exc_str e)))
    end.
Proof.
  unfold run, ws_session, bind, try_except, perf_counter. simpl.
  destruct (ws_try _ _ _ _ _ _ _ _) as [[r|e] n]; reflexivity.
Qed.

Lemma ws_session_import_error (ws_url : string) (request_id : Z)
    (wait_seconds timeout : Q) :
  run (ws_session false env ws_url request_id wait_seconds timeout)
  = Raise (mkExc ImportError "websockets not installed: pip install websockets").
Proof. reflexivity. Qed.

(** A [try] block that runs to its end builds a successful record. *)
Lemma http_try_ret client base_url request_id wait_seconds timestamp t0 n r n' :
  http_try env client base_url request_id wait_seconds timestamp t0 n = (Ret r, n') ->
  SessionResult.success r = true
  /\ SessionResult.connect_latency r = 0
  /\ SessionResult.error_type r = None /\ SessionResult.error_message r = None.
Proof.
  unfold http_try, bind, lift, raise_for_status, perf_counter, raise, ret.
  repeat match goal with
         | |- context [match ?x with _ => _ end] => destruct x
         end;
    intros H; inversion H; subst; simpl; auto.
Qed.

Lemma ws_try_ret ws_url request_id wait_seconds timeout timestamp t0 n r n' :
  ws_try env ws_url request_id wait_seconds timeout timestamp t0 n = (Ret r, n') ->
  SessionResult.success r = true
  /\ SessionResult.error_type r = None /\ SessionResult.error_message r = None.
Proof.
  unfold ws_try, async_with, bind, lift, perf_counter, raise, ret.
  repeat match goal with
         | |- context [match ?x with _ => _ end] => destruct x
         end;
    intros H; inversion H; subst; simpl; auto.
Qed.

(** Both drivers return a record whenever the handler is reached or the
    block ends. *)
Lemma http_session_returns client base_url request_id wait_seconds :
  exists r, run (http_session env client base_url request_id wait_seconds) = Ret r.
Proof.
  rewrite http_session_run.
  destruct (http_try _ _ _ _ _ _ _ _) as [[r|e] n]; eauto.
Qed.

Lemma ws_session_returns ws_url request_id wait_seconds timeout :
  exists r, run (ws_session true env ws_url request_id wait_seconds timeout) = Ret r.
Proof.
  rewrite ws_session_run.
  destruct (ws_try _ _ _ _ _ _ _ _) as [[r|e] n]; eauto.
Qed.

(** Every record of the HTTP driver has a zero connect latency. *)
Lemma http_session_connect_zero client base_url request_id wait_seconds r :
  run (http_session env client base_url request_id wait_seconds) = Ret r ->
  SessionResult.connect_latency r = 0.
Proof.
  rewrite http_session_run.
  destruct (http_try _ _ _ _ _ _ _ _) as [[r'|e] n] eqn:E; intros H; inversion H; subst.
  - apply http_try_ret in E. tauto.
  - reflexivity.
Qed.

End Sessions.

(** ** The batch runners *)

Section Batches.

Lemma gather_map {X A : Type} (f : X -> outcome A) (xs : list X) :
  (forall x, exists a, f x = Ret a) ->
  exists l, gather (map f xs) = Ret l /\ Forall2 (fun x a => f x = Ret a) xs l.
Proof.
  intros Hf. induction xs as [|x xs (l & Hl & HF)]; simpl.
  - exists []. split; [reflexivity|constructor].
  - destruct (Hf x) as (a & Ha). rewrite Ha, Hl.
    exists (a :: l). split; [reflexivity|now constructor].
Qed.

Lemma gather_raise {X A : Type} (f : X -> outcome A) (e : PyExc) (xs : list X) :
  xs <> [] -> (forall x, f x = Raise e) -> gather (map f xs) = Raise e.
Proof.
  intros Hne Hf. destruct xs as [|x xs]; [congruence|].
  simpl. now rewrite Hf.
Qed.

Lemma py_range_length (n : Z) : (0 <= n)%Z -> len (py_range n) = n.
Proof.
  intros Hn. unfold py_range, py_range2, len.
  rewrite length_map, length_seq. lia.
Qed.

Lemma Forall2_len {A B : Type} (R : A -> B -> Prop) (l : list A) (l' : list B) :
  Forall2 R l l' -> len l' = len l.
Proof. intros H. unfold len. now rewrite (Forall2_length H). Qed.

Lemma len_map {A B : Type} (f : A -> B) (l : list A) : len (map f l) = len l.
Proof. unfold len. now rewrite length_map. Qed.

Variable env : Z -> SessionEnv.

(** The HTTP batch: the records of the drivers in launch order, each
    stamped. *)
Lemma run_http_test_ret url num_requests wait_seconds timeout hardware :
  exists sessions,
    Forall2 (fun i r => run (http_session (env i) timeout url i wait_seconds) = Ret r)
            (py_range num_requests) sessions
    /\ run_http_test env url num_requests wait_seconds timeout hardware
       = Ret (map (stamp num_requests hardware) sessions).
Proof.
  unfold run_http_test.
  destruct (gather_map
              (fun i => run (http_session (env i) timeout url i wait_seconds))
              (py_range num_requests)) as (l & Hl & HF).
  - intros i. apply http_session_returns.
  - exists l. split; [exact HF|]. now rewrite Hl.
Qed.

Lemma run_ws_test_ret url num_requests wait_seconds timeout hardware :
  exists sessions,
    Forall2 (fun i r => run (ws_session true (env i) (convert_to_ws_url url) i
                               wait_seconds timeout) = Ret r)
            (py_range num_requests) sessions
    /\ run_ws_test true env url num_requests wait_seconds timeout hardware
       = Ret (map (stamp num_requests hardware) sessions).
Proof.
  unfold run_ws_test.
  destruct (gather_map
              (fun i => run (ws_session true (env i) (convert_to_ws_url url) i
                               wait_seconds timeout))
              (py_range num_requests)) as (l & Hl & HF).
  - intros i. apply ws_session_returns.
  - exists l. split; [exact HF|]. now rewrite Hl.
Qed.

(** Without [websockets] every driver raises, and so does the batch. *)
Lemma run_ws_test_import_error url num_requests wait_seconds timeout hardware :
  (1 <= num_requests)%Z ->
  run_ws_test false env url num_requests wait_seconds timeout hardware
  = Raise (mkExc ImportError "websockets not installed: pip install websockets").
Proof.
  intros Hn. unfold run_ws_test.
  rewrite gather_raise with (e := mkExc ImportError "websockets not installed: pip install websockets");
    [reflexivity| |reflexivity].
  intros E. apply (f_equal len) in E. rewrite py_range_length in E by lia.
  unfold len in E. simpl in E. lia.
Qed.

(** A batch that was produced has one record per requested session. *)
Lemma run_http_test_len url num_requests wait_seconds timeout hardware results :
  (0 <= num_requests)%Z ->
  run_http_test env url num_requests wait_seconds timeout hardware = Ret results ->
  len results = num_requests.
Proof.
  intros Hn H.
  destruct (run_http_test_ret url num_requests wait_seconds timeout hardware)
    as (l & HF & E).
  rewrite E in H. injection H as <-.
  now rewrite len_map, (Forall2_len _ _ _ HF), py_range_length.
Qed.

Lemma run_ws_test_len ws url num_requests wait_seconds timeout hardware results :
  (1 <= num_requests)%Z ->
  run_ws_test ws env url num_requests wait_seconds timeout hardware = Ret results ->
  len results = num_requests.
Proof.
  intros Hn H. destruct ws.
  - destruct (run_ws_test_ret url num_requests wait_seconds timeout hardware)
      as (l & HF & E).
    rewrite E in H. injection H as <-.
    rewrite len_map, (Forall2_len _ _ _ HF), py_range_length; lia.
  - rewrite run_ws_test_import_error in H by assumption. discriminate.
Qed.

End Batches.

(** C4 (amended): [http_session] always returns a SessionResult, and so
    does [ws_session] when the [websockets] module was imported; without
    it [ws_session] raises ImportError before the session starts.  When
    the [try] block raises an exception [e] after [n] clock readings, the
    record has [success = False], [error_type] the (non-empty) class name
    of [e], [error_message = str(e)] (which may be empty),
    [total_latency] the reading taken by the handler minus the reading
    taken at session start, and the response-echo fields [waited_seconds],
    [pid], [session_hash], [host_url] at 0 / empty; when the block runs to
    its end the record is the successful one it built. *)
Theorem session_driver_captures_failures :
  forall (env : SessionEnv) (url : string) (request_id : Z)
         (wait_seconds timeout : Q),
    (exists r,
        run (http_session env timeout url request_id wait_seconds) = Ret r
        /\ match http_try env timeout url request_id wait_seconds
                   (now_iso env) (clock env 0%nat) 1%nat with
           | (Ret r', _) => r = r' /\ SessionResult.success r = true
           | (Raise e, n) =>
               SessionResult.success r = false
               /\ SessionResult.error_type r = Some (class_name (exc_type e))
               /\ SessionResult.error_type r <> Some ""%string
               /\ SessionResult.error_message r = Some (exc_str e)
               /\ SessionResult.total_latency r = clock env n - clock env 0%nat
               /\ SessionResult.waited_seconds r = 0
               /\ SessionResult.pid r = 0%Z
               /\ SessionResult.session_hash r = ""%string
               /\ SessionResult.host_url r = ""%string
           end)
    /\ (exists r,
           run (ws_session true env url request_id wait_seconds timeout) = Ret r
           /\ match ws_try env url request_id wait_seconds timeout
                      (now_iso env) (clock env 0%nat) 1%nat with
              | (Ret r', _) => r = r' /\ SessionResult.success r = true
              | (Raise e, n) =>
                  SessionResult.success r = false
                  /\ SessionResult.error_type r = Some (class_name (exc_type e))
                  /\ SessionResult.error_type r <> Some ""%string
                  /\ SessionResult.error_message r = Some (exc_str e)
                  /\ SessionResult.total_latency r = clock env n - clock env 0%nat
                  /\ SessionResult.waited_seconds r = 0
                  /\ SessionResult.pid r = 0%Z
                  /\ SessionResult.session_hash r = ""%string
                  /\ SessionResult.host_url r = ""%string
              end)
    /\ run (ws_session false env url request_id wait_seconds timeout)
       = Raise (mkExc ImportError "websockets not installed: pip install websockets").
Proof.
  intros env url request_id wait_seconds timeout.
  split; [|split].
  - rewrite http_session_run.
    destruct (http_try _ _ _ _ _ _ _ _) as [[r|e] n] eqn:E; eexists; (split; [reflexivity|]).
    + split; [reflexivity|]. apply http_try_ret in E. tauto.
    + simpl. repeat split. discriminate.
  - rewrite ws_session_run.
    destruct (ws_try _ _ _ _ _ _ _ _) as [[r|e] n] eqn:E; eexists; (split; [reflexivity|]).
    + split; [reflexivity|]. apply ws_try_ret in E. tauto.
    + simpl. repeat split. discriminate.
  - reflexivity.
Qed.

(** C4 as stated fails twice: without the [websockets] module
    [ws_session] raises instead of returning a record, and a timeout,
    which carries no message, leaves a failed record whose
    [error_message] is the empty string. *)
Lemma session_driver_counterexample :
  ~ (forall (websockets : bool) (env : SessionEnv) (url : string) (request_id : Z)
            (wait_seconds timeout : Q),
        exists r,
          run (ws_session websockets env url request_id wait_seconds timeout) = Ret r
          /\ (SessionResult.success r = false ->
              SessionResult.error_type r <> None
              /\ SessionResult.error_type r <> Some ""%string
              /\ SessionResult.error_message r <> None
              /\ SessionResult.error_message r <> Some ""%string))
  /\ run (ws_session false env_timeout "ws://host/ws" 0 1 60)
     = Raise (mkExc ImportError "websockets not installed: pip install websockets")
  /\ (exists r,
         run (ws_session true env_timeout "ws://host/ws" 0 1 60) = Ret r
         /\ SessionResult.success r = false
         /\ SessionResult.error_type r = Some "TimeoutError"%string
         /\ SessionResult.error_message r = Some ""%string)
  /\ (exists r,
         run (http_session env_timeout 60 "http://host" 0 1) = Ret r
         /\ SessionResult.success r = false
         /\ SessionResult.error_message r = Some ""%string).
Proof.
  split; [|split; [|split]].
  - intros H.
    destruct (H false env_timeout "ws://host/ws"%string 0%Z 1 60) as (r & Hr & _).
    discriminate Hr.
  - reflexivity.
  - eexists. split; [reflexivity|]. repeat split.
  - eexists. split; [reflexivity|]. repeat split.
Qed.

(** ** Stamping *)

(** C9: for every [N >= 1] each batch runner returns exactly [N] records:
    the records the [N] drivers returned, in launch order, failed ones
    included.  Stamping sets [batch_size] to [N] and [hardware] to the
    configured tier and leaves every other field as the driver returned
    it.  The WebSocket runner is taken where its callers run it, with the
    [websockets] module imported: [run_single_test] and [main] refuse the
    WebSocket transport before any batch otherwise. *)
Theorem batch_runner_returns_all_stamped :
  forall (env : Z -> SessionEnv) (url : string) (num_requests : Z)
         (wait_seconds timeout : Q) (hardware : string),
    (1 <= num_requests)%Z ->
    (exists sessions,
        Forall2 (fun i r => run (http_session (env i) timeout url i wait_seconds) = Ret r)
                (py_range num_requests) sessions
        /\ run_http_test env url num_requests wait_seconds timeout hardware
           = Ret (map (stamp num_requests hardware) sessions)
        /\ len (map (stamp num_requests hardware) sessions) = num_requests)
    /\ (exists sessions,
           Forall2 (fun i r => run (ws_session true (env i) (convert_to_ws_url url) i
                                      wait_seconds timeout) = Ret r)
                   (py_range num_requests) sessions
           /\ run_ws_test true env url num_requests wait_seconds timeout hardware
              = Ret (map (stamp num_requests hardware) sessions)
           /\ len (map (stamp num_requests hardware) sessions) = num_requests)
    /\ (forall r : SessionResult.t,
           let r' := stamp num_requests hardware r in
           SessionResult.batch_size r' = num_requests
           /\ SessionResult.hardware r' = hardware
           /\ SessionResult.request_id r' = SessionResult.request_id r
           /\ SessionResult.mode r' = SessionResult.mode r
           /\ SessionResult.timestamp r' = SessionResult.timestamp r
           /\ SessionResult.wait_requested r' = SessionResult.wait_requested r
           /\ SessionResult.connect_latency r' = SessionResult.connect_latency r
           /\ SessionResult.reset_latency r' = SessionResult.reset_latency r
           /\ SessionResult.step_latency r' = SessionResult.step_latency r
           /\ SessionResult.total_latency r' = SessionResult.total_latency r
           /\ SessionResult.waited_seconds r' = SessionResult.waited_seconds r
           /\ SessionResult.pid r' = SessionResult.pid r
           /\ SessionResult.session_hash r' = SessionResult.session_hash r
           /\ SessionResult.host_url r' = SessionResult.host_url r
           /\ SessionResult.success r' = SessionResult.success r
           /\ SessionResult.error_type r' = SessionResult.error_type r
           /\ SessionResult.error_message r' = SessionResult.error_message r).
Proof.
  intros env url num_requests wait_seconds timeout hardware Hn.
  split; [|split].
  - destruct (run_http_test_ret env url num_requests wait_seconds timeout hardware)
      as (l & HF & E).
    exists l. split; [exact HF|]. split; [exact E|].
    rewrite len_map, (Forall2_len _ _ _ HF), py_range_length; lia.
  - destruct (run_ws_test_ret env url num_requests wait_seconds timeout hardware)
      as (l & HF & E).
    exists l. split; [exact HF|]. split; [exact E|].
    rewrite len_map, (Forall2_len _ _ _ HF), py_range_length; lia.
  - intros r. simpl. repeat split.
Qed.

Lemma batch_runner_returns_all_stamped_witness :
  (1 <= 2)%Z
  /\ exists sessions,
      Forall2 (fun i r => run (http_session env_timeout 60 "http://host" i 1) = Ret r)
              (py_range 2) sessions
      /\ run_http_test (fun _ => env_timeout) "http://host" 2 1 60 "cpu-upgrade"
         = Ret (map (stamp 2 "cpu-upgrade") sessions)
      /\ len (map (stamp 2 "cpu-upgrade") sessions) = 2%Z.
Proof.
  split; [lia|].
  apply (batch_runner_returns_all_stamped (fun _ => env_timeout) "http://host" 2 1 60
           "cpu-upgrade").
  lia.
Defined.

(** ** Fields of the summary *)

Ltac rs_fields :=
  cbv beta iota zeta delta
    [RunSummary.set_connect RunSummary.set_reset RunSummary.set_step
     RunSummary.set_total RunSummary.set_throughput RunSummary.set_distribution
     RunSummary.mode RunSummary.url RunSummary.num_requests RunSummary.batch_size
     RunSummary.wait_seconds RunSummary.repetition RunSummary.timestamp
     RunSummary.hardware RunSummary.successful RunSummary.failed
     RunSummary.error_rate RunSummary.total_wall_time
     RunSummary.connect_p50 RunSummary.connect_p95 RunSummary.connect_p99
     RunSummary.reset_p50 RunSummary.reset_p95 RunSummary.reset_p99
     RunSummary.step_p50 RunSummary.step_p95 RunSummary.step_p99
     RunSummary.total_min RunSummary.total_max RunSummary.total_avg
     RunSummary.total_p50 RunSummary.total_p90 RunSummary.total_p95
     RunSummary.total_p99 RunSummary.requests_per_second
     RunSummary.effective_concurrency RunSummary.unique_pids
     RunSummary.unique_sessions RunSummary.unique_hosts].

(** Case analysis on the branches of [summary_value]. *)
Ltac summary_cases results total_wall_time :=
  unfold summary_value;
  destruct (filter SessionResult.success results);
  [ rs_fields
  | destruct (map SessionResult.connect_latency _);
    destruct (map SessionResult.reset_latency _);
    destruct (map SessionResult.step_latency _);
    destruct (is_positive total_wall_time);
    rs_fields ].

Section SummaryFields.

Variables (now : string) (results : list SessionResult.t) (mode url : string)
          (num_requests : Z) (wait_seconds : Q) (repetition : Z)
          (total_wall_time : Q) (hardware : string).

Let s : RunSummary.t :=
  summary_value now results mode url num_requests wait_seconds repetition
    total_wall_time hardware.

Let successful : list SessionResult.t := filter SessionResult.success results.

Let failed : list SessionResult.t :=
  filter (fun r => negb (SessionResult.success r)) results.

(** The configuration echo and the counts are those of the constructor
    call, whatever happens afterwards. *)
Lemma summary_value_config :
  RunSummary.mode s = mode /\ RunSummary.url s = url
  /\ RunSummary.num_requests s = num_requests
  /\ RunSummary.batch_size s = num_requests
  /\ RunSummary.wait_seconds s = wait_seconds
  /\ RunSummary.repetition s = repetition
  /\ RunSummary.timestamp s = now /\ RunSummary.hardware s = hardware
  /\ RunSummary.total_wall_time s = total_wall_time.
Proof.
  unfold s. summary_cases results total_wall_time; repeat split.
Qed.

Lemma summary_value_counts :
  RunSummary.successful s = len successful
  /\ RunSummary.failed s = len failed
  /\ RunSummary.error_rate s
     = match results with
       | [] => 0
       | _ => inject_Z (len failed) / inject_Z (len results)
       end.
Proof.
  unfold s, successful, failed.
  unfold summary_value.
  destruct (filter SessionResult.success results);
    [ rs_fields
    | destruct (map SessionResult.connect_latency _);
      destruct (map SessionResult.reset_latency _);
      destruct (map SessionResult.step_latency _);
      destruct (is_positive total_wall_time);
      rs_fields ]; repeat split.
Qed.

End SummaryFields.

Lemma pct_mono (l : list Q) (p1 p2 : Q) :
  l <> [] -> 0 <= p1 -> p1 <= p2 -> p2 <= 100 -> pct l p1 <= pct l p2.
Proof.
  intros Hne H1 H12 H2. unfold pct.
  apply percentile_spec_mono; try assumption.
  - apply sorted_sorted.
  - rewrite len_sorted. now apply len_pos.
Qed.

Ltac percentile_bounds := vm_compute; discriminate.

Ltac split_all := repeat match goal with |- _ /\ _ => split end.

Section SummaryStatistics.

Variables (now : string) (results : list SessionResult.t) (mode url : string)
          (num_requests : Z) (wait_seconds : Q) (repetition : Z)
          (total_wall_time : Q) (hardware : string).

Let s : RunSummary.t :=
  summary_value now results mode url num_requests wait_seconds repetition
    total_wall_time hardware.

Let successful : list SessionResult.t := filter SessionResult.success results.

(** The sample of one phase: the latencies of the successful records
    that are strictly positive. *)
Let times (latency : SessionResult.t -> Q) : list Q :=
  map latency (filter (fun r => is_positive (latency r)) successful).

Lemma summary_value_phases :
  percentile (times SessionResult.connect_latency) 50 = Some (RunSummary.connect_p50 s)
  /\ percentile (times SessionResult.connect_latency) 95 = Some (RunSummary.connect_p95 s)
  /\ percentile (times SessionResult.connect_latency) 99 = Some (RunSummary.connect_p99 s)
  /\ percentile (times SessionResult.reset_latency) 50 = Some (RunSummary.reset_p50 s)
  /\ percentile (times SessionResult.reset_latency) 95 = Some (RunSummary.reset_p95 s)
  /\ percentile (times SessionResult.reset_latency) 99 = Some (RunSummary.reset_p99 s)
  /\ percentile (times SessionResult.step_latency) 50 = Some (RunSummary.step_p50 s)
  /\ percentile (times SessionResult.step_latency) 95 = Some (RunSummary.step_p95 s)
  /\ percentile (times SessionResult.step_latency) 99 = Some (RunSummary.step_p99 s).
Proof.
  unfold s, times, successful, summary_value.
  destruct (filter SessionResult.success results) as [|r0 succ].
  - rs_fields. split_all; reflexivity.
  - destruct (map SessionResult.connect_latency _) as [|c0 cs];
      destruct (map SessionResult.reset_latency _) as [|r1 rs];
      destruct (map SessionResult.step_latency _) as [|s0 ss];
      destruct (is_positive total_wall_time);
      rs_fields; split_all;
      first [ apply percentile_eq_spec; [discriminate | split; percentile_bounds]
            | reflexivity ].
Qed.

Lemma summary_value_ordered :
  RunSummary.connect_p50 s <= RunSummary.connect_p95 s
  /\ RunSummary.connect_p95 s <= RunSummary.connect_p99 s
  /\ RunSummary.reset_p50 s <= RunSummary.reset_p95 s
  /\ RunSummary.reset_p95 s <= RunSummary.reset_p99 s
  /\ RunSummary.step_p50 s <= RunSummary.step_p95 s
  /\ RunSummary.step_p95 s <= RunSummary.step_p99 s
  /\ RunSummary.total_p50 s <= RunSummary.total_p90 s
  /\ RunSummary.total_p90 s <= RunSummary.total_p95 s
  /\ RunSummary.total_p95 s <= RunSummary.total_p99 s.
Proof.
  unfold s, summary_value.
  destruct (filter SessionResult.success results) as [|r0 succ].
  - rs_fields. split_all; apply Qle_refl.
  - cbn [map].
    destruct (map SessionResult.connect_latency _) as [|c0 cs];
      destruct (map SessionResult.reset_latency _) as [|r1 rs];
      destruct (map SessionResult.step_latency _) as [|s0 ss];
      destruct (is_positive total_wall_time);
      rs_fields; split_all;
      first [ apply Qle_refl
            | apply pct_mono; [discriminate | percentile_bounds ..] ].
Qed.

(** The throughput block runs only past the early return and under its
    guard. *)
Lemma summary_value_throughput :
  (successful <> [] -> 0 < total_wall_time ->
   RunSummary.requests_per_second s
   = inject_Z (RunSummary.successful s) / total_wall_time
   /\ RunSummary.effective_concurrency s
      = inject_Z num_requests * wait_seconds / total_wall_time)
  /\ (successful = [] \/ total_wall_time <= 0 ->
      RunSummary.requests_per_second s = 0
      /\ RunSummary.effective_concurrency s = 0).
Proof.
  unfold s, successful, summary_value.
  destruct (filter SessionResult.success results) as [|r0 succ].
  - rs_fields. split; [congruence|]. intros _. split; reflexivity.
  - assert (Hpos : is_positive total_wall_time = true <-> 0 < total_wall_time)
      by apply is_positive_spec.
    destruct (map SessionResult.connect_latency _) as [|c0 cs];
      destruct (map SessionResult.reset_latency _) as [|r1 rs];
      destruct (map SessionResult.step_latency _) as [|s0 ss];
      destruct (is_positive total_wall_time);
      rs_fields;
      (split;
       [ intros _ Hw; first [ split; reflexivity
                            | apply Hpos in Hw; discriminate Hw ]
       | intros [E|Hw];
         [ discriminate E
         | first [ split; reflexivity
                 | exfalso; apply (Qlt_irrefl 0);
                   apply Qlt_le_trans with total_wall_time;
                   [apply Hpos; reflexivity | exact Hw] ] ] ]).
Qed.

(** With no successful record the summary is the one the constructor
    call built. *)
Lemma summary_value_all_failed :
  successful = [] ->
  s = RunSummary.mk mode url num_requests num_requests wait_seconds repetition
        now hardware 0%Z (len results)
        (match results with
         | [] => 0
         | _ => inject_Z (len results) / inject_Z (len results)
         end)
        total_wall_time
        0 0 0 0 0 0 0 0 0 0 0 0 0 0 0 0 0 0 0%Z 0%Z 0%Z.
Proof.
  unfold s, successful, summary_value. intros E. rewrite E.
  assert (Hf : filter (fun r => negb (SessionResult.success r)) results = results).
  { clear s successful times. induction results as [|r l IH]; [reflexivity|].
    simpl in E |- *. destruct (SessionResult.success r); [discriminate|].
    simpl. f_equal. now apply IH. }
  rewrite Hf. reflexivity.
Qed.

End SummaryStatistics.

(** ** Claims on the summary *)

Lemma filter_partition_len {A : Type} (f : A -> bool) (l : list A) :
  (len (filter f l) + len (filter (fun x => negb (f x)) l) = len l)%Z.
Proof.
  unfold len. induction l as [|x l IH]; [reflexivity|].
  simpl. destruct (f x); simpl List.length; lia.
Qed.

Lemma ratio_in_unit_interval (a n : Z) :
  (0 <= a <= n)%Z -> (1 <= n)%Z -> 0 <= inject_Z a / inject_Z n <= 1.
Proof.
  intros Ha Hn.
  assert (Hpos : 0 < inject_Z n).
  { change 0 with (inject_Z 0). rewrite <- Zlt_Qlt. lia. }
  split.
  - apply Qle_shift_div_l; [exact Hpos|]. rewrite Qmult_0_l.
    change 0 with (inject_Z 0). rewrite <- Zle_Qle. lia.
  - apply Qle_shift_div_r; [exact Hpos|]. rewrite Qmult_1_l.
    rewrite <- Zle_Qle. lia.
Qed.

(** C2: for every list of records [compute_summary] returns a summary with
    [successful + failed == len(records)], [error_rate] equal to
    [failed / (successful + failed)] on a non-empty list and to 0.0 on the
    empty one, so within [0, 1]; for a batch a batch runner produced for
    [N >= 1] requested sessions the sum is [N]. *)
Theorem summary_counts :
  (forall (now : string) (results : list SessionResult.t) (mode url : string)
          (num_requests : Z) (wait_seconds : Q) (repetition : Z)
          (total_wall_time : Q) (hardware : string),
      exists s,
        compute_summary now results mode url num_requests wait_seconds repetition
          total_wall_time hardware = Ret s
        /\ (RunSummary.successful s + RunSummary.failed s = len results)%Z
        /\ (results <> [] ->
            RunSummary.error_rate s
            = inject_Z (RunSummary.failed s)
              / inject_Z (RunSummary.successful s + RunSummary.failed s))
        /\ (results = [] -> RunSummary.error_rate s = 0)
        /\ 0 <= RunSummary.error_rate s <= 1)
  /\ (forall (websockets : bool) (env : Z -> SessionEnv) (url : string)
             (num_requests : Z) (wait_seconds timeout : Q) (hardware : string)
             (results : list SessionResult.t),
         (1 <= num_requests)%Z ->
         run_http_test env url num_requests wait_seconds timeout hardware = Ret results
         \/ run_ws_test websockets env url num_requests wait_seconds timeout hardware
            = Ret results ->
         forall (now mode : string) (repetition : Z) (total_wall_time : Q),
         exists s,
           compute_summary now results mode url num_requests wait_seconds repetition
             total_wall_time hardware = Ret s
           /\ (RunSummary.successful s + RunSummary.failed s = num_requests)%Z).
Proof.
  assert (Hsum : forall now results mode url num_requests wait_seconds repetition
                        total_wall_time hardware,
             (RunSummary.successful
                (summary_value now results mode url num_requests wait_seconds
                   repetition total_wall_time hardware)
              + RunSummary.failed
                  (summary_value now results mode url num_requests wait_seconds
                     repetition total_wall_time hardware)
              = len results)%Z).
  { intros.
    destruct (summary_value_counts now results mode url num_requests wait_seconds
                repetition total_wall_time hardware) as (-> & -> & _).
    apply filter_partition_len. }
  split.
  - intros. eexists. split; [apply compute_summary_value|].
    pose proof (Hsum now results mode url num_requests wait_seconds repetition
                  total_wall_time hardware) as Hs.
    destruct (summary_value_counts now results mode url num_requests wait_seconds
                repetition total_wall_time hardware) as (Hsucc & Hfail & Hrate).
    split; [exact Hs|].
    split; [|split].
    + intros Hne. rewrite Hrate, Hs, Hfail. destruct results; [congruence|reflexivity].
    + intros ->. exact Hrate.
    + rewrite Hrate. destruct results as [|r l] eqn:E.
      * split; [apply Qle_refl|discriminate].
      * rewrite <- E in *. apply ratio_in_unit_interval.
        -- pose proof (filter_partition_len SessionResult.success results).
           pose proof (len_nonneg (filter SessionResult.success results)).
           pose proof (len_nonneg
                         (filter (fun r => negb (SessionResult.success r)) results)).
           lia.
        -- apply len_pos. rewrite E. discriminate.
  - intros websockets env url num_requests wait_seconds timeout hardware results
           Hn Hbatch now mode repetition total_wall_time.
    eexists. split; [apply compute_summary_value|].
    rewrite Hsum.
    destruct Hbatch as [H|H].
    + eapply run_http_test_len; [|exact H]. lia.
    + eapply run_ws_test_len; [|exact H]. lia.
Qed.

Lemma summary_counts_witness :
  (exists s,
      compute_summary "2026-01-01T00:00:01Z" [sample_failed; sample_ok] "http"
        "http://host" 2 1 1 (3 # 2) "cpu-basic" = Ret s
      /\ (RunSummary.successful s + RunSummary.failed s
          = len [sample_failed; sample_ok])%Z
      /\ ([sample_failed; sample_ok] <> [] ->
          RunSummary.error_rate s
          = inject_Z (RunSummary.failed s)
            / inject_Z (RunSummary.successful s + RunSummary.failed s))
      /\ ([sample_failed; sample_ok] = [] -> RunSummary.error_rate s = 0)
      /\ 0 <= RunSummary.error_rate s <= 1)
  /\ (exists results,
         run_http_test (fun _ => env_timeout) "http://host" 2 1 60 "cpu-basic"
         = Ret results
         /\ exists s,
             compute_summary "2026-01-01T00:00:01Z" results "http" "http://host" 2 1 1
               (3 # 2) "cpu-basic" = Ret s
             /\ (RunSummary.successful s + RunSummary.failed s = 2)%Z).
Proof.
  split.
  - apply (proj1 summary_counts).
  - eexists. split; [reflexivity|].
    apply (proj2 summary_counts true (fun _ => env_timeout) "http://host"%string 2%Z
             1 60 "cpu-basic"%string).
    + lia.
    + left. reflexivity.
Defined.

Lemma filter_nothing {A : Type} (f : A -> bool) (l : list A) :
  Forall (fun x => f x = false) l -> filter f l = [].
Proof.
  induction 1 as [|x l Hx _ IH]; [reflexivity|].
  simpl. now rewrite Hx.
Qed.

Lemma Forall_filter_incl {A : Type} (P : A -> Prop) (f : A -> bool) (l : list A) :
  Forall P l -> Forall P (filter f l).
Proof. apply incl_Forall, incl_filter. Qed.

(** A batch without a positive connect latency has zero connect
    percentiles. *)
Lemma summary_value_no_connect now results mode url num_requests wait_seconds
    repetition total_wall_time hardware :
  Forall (fun r => SessionResult.connect_latency r = 0) results ->
  let s := summary_value now results mode url num_requests wait_seconds repetition
             total_wall_time hardware in
  RunSummary.connect_p50 s = 0 /\ RunSummary.connect_p95 s = 0
  /\ RunSummary.connect_p99 s = 0.
Proof.
  intros Hzero s.
  destruct (summary_value_phases now results mode url num_requests wait_seconds
              repetition total_wall_time hardware) as (H50 & H95 & H99 & _).
  fold s in H50, H95, H99.
  rewrite filter_nothing in H50, H95, H99.
  - simpl in H50, H95, H99. repeat split; congruence.
  - apply Forall_filter_incl. eapply Forall_impl; [|exact Hzero].
    intros r Hr. simpl in Hr. rewrite Hr. reflexivity.
  - apply Forall_filter_incl. eapply Forall_impl; [|exact Hzero].
    intros r Hr. simpl in Hr. rewrite Hr. reflexivity.
  - apply Forall_filter_incl. eapply Forall_impl; [|exact Hzero].
    intros r Hr. simpl in Hr. rewrite Hr. reflexivity.
Qed.

(** C3: for each of the connect, reset and step phases the p50/p95/p99
    fields are the percentiles of the latencies of the successful records
    whose latency for that phase is strictly positive (0.0 when there is
    none); every record of an HTTP batch has connect latency 0.0, so every
    summary of an HTTP batch has [connect_p50 == connect_p95 ==
    connect_p99 == 0.0], whatever the number of records. *)
Theorem phase_percentiles_over_positive_successes :
  (forall x : Q, is_positive x = true <-> 0 < x)
  /\ (forall (now : string) (results : list SessionResult.t) (mode url : string)
             (num_requests : Z) (wait_seconds : Q) (repetition : Z)
             (total_wall_time : Q) (hardware : string),
         exists s,
           compute_summary now results mode url num_requests wait_seconds repetition
             total_wall_time hardware = Ret s
           /\ let successful := filter SessionResult.success results in
              let times (latency : SessionResult.t -> Q) :=
                map latency (filter (fun r => is_positive (latency r)) successful) in
              percentile (times SessionResult.connect_latency) 50
              = Some (RunSummary.connect_p50 s)
              /\ percentile (times SessionResult.connect_latency) 95
                 = Some (RunSummary.connect_p95 s)
              /\ percentile (times SessionResult.connect_latency) 99
                 = Some (RunSummary.connect_p99 s)
              /\ percentile (times SessionResult.reset_latency) 50
                 = Some (RunSummary.reset_p50 s)
              /\ percentile (times SessionResult.reset_latency) 95
                 = Some (RunSummary.reset_p95 s)
              /\ percentile (times SessionResult.reset_latency) 99
                 = Some (RunSummary.reset_p99 s)
              /\ percentile (times SessionResult.step_latency) 50
                 = Some (RunSummary.step_p50 s)
              /\ percentile (times SessionResult.step_latency) 95
                 = Some (RunSummary.step_p95 s)
              /\ percentile (times SessionResult.step_latency) 99
                 = Some (RunSummary.step_p99 s))
  /\ (forall (env : Z -> SessionEnv) (url : string) (num_requests : Z)
             (wait_seconds timeout : Q) (hardware : string),
         exists results,
           run_http_test env url num_requests wait_seconds timeout hardware = Ret results
           /\ Forall (fun r => SessionResult.connect_latency r = 0) results
           /\ forall (now mode : string) (repetition : Z) (total_wall_time : Q),
             exists s,
               compute_summary now results mode url num_requests wait_seconds
                 repetition total_wall_time hardware = Ret s
               /\ RunSummary.connect_p50 s = 0
               /\ RunSummary.connect_p95 s = 0
               /\ RunSummary.connect_p99 s = 0).
Proof.
  split; [exact is_positive_spec|]. split.
  - intros. eexists. split; [apply compute_summary_value|].
    apply summary_value_phases.
  - intros env url num_requests wait_seconds timeout hardware.
    destruct (run_http_test_ret env url num_requests wait_seconds timeout hardware)
      as (sessions & HF & E).
    exists (map (stamp num_requests hardware) sessions).
    split; [exact E|].
    assert (Hzero : Forall (fun r => SessionResult.connect_latency r = 0)
                      (map (stamp num_requests hardware) sessions)).
    { clear E. induction HF as [|i r ids rs Hr _ IH]; simpl; constructor.
      - simpl. eapply http_session_connect_zero. exact Hr.
      - exact IH. }
    split; [exact Hzero|].
    intros now mode repetition total_wall_time.
    eexists. split; [apply compute_summary_value|].
    now apply summary_value_no_connect.
Qed.

(** C5: when no record of the batch is successful (the empty batch
    included) [compute_summary] returns, without raising and so without
    dividing by zero, the summary its constructor call built: every
    latency statistic, both throughput fields and the three distribution
    cardinalities are zero. *)
Theorem all_failed_summary_is_zero :
  forall (now : string) (results : list SessionResult.t) (mode url : string)
         (num_requests : Z) (wait_seconds : Q) (repetition : Z)
         (total_wall_time : Q) (hardware : string),
    Forall (fun r => SessionResult.success r = false) results ->
    exists s,
      compute_summary now results mode url num_requests wait_seconds repetition
        total_wall_time hardware = Ret s
      /\ s = RunSummary.mk mode url num_requests num_requests wait_seconds repetition
               now hardware 0%Z (len results) (RunSummary.error_rate s)
               total_wall_time
               0 0 0 0 0 0 0 0 0 0 0 0 0 0 0 0 0 0 0%Z 0%Z 0%Z.
Proof.
  intros now results mode url num_requests wait_seconds repetition total_wall_time
         hardware Hfail.
  eexists. split; [apply compute_summary_value|].
  rewrite summary_value_all_failed by (now apply filter_nothing).
  reflexivity.
Qed.

Lemma all_failed_summary_is_zero_witness :
  Forall (fun r => SessionResult.success r = false) [sample_failed; sample_failed]
  /\ exists s,
      compute_summary "2026-01-01T00:00:01Z" [sample_failed; sample_failed] "http"
        "http://host" 2 1 1 (3 # 2) "cpu-basic" = Ret s
      /\ s = RunSummary.mk "http" "http://host" 2 2 1 1 "2026-01-01T00:00:01Z"
               "cpu-basic" 0%Z (len [sample_failed; sample_failed])
               (RunSummary.error_rate s) (3 # 2)
               0 0 0 0 0 0 0 0 0 0 0 0 0 0 0 0 0 0 0%Z 0%Z 0%Z.
Proof.
  assert (H : Forall (fun r => SessionResult.success r = false)
                [sample_failed; sample_failed])
    by (repeat constructor).
  split; [exact H|].
  apply (all_failed_summary_is_zero "2026-01-01T00:00:01Z" [sample_failed; sample_failed]
           "http" "http://host" 2 1 1 (3 # 2) "cpu-basic" H).
Defined.

(** C7 (amended): when the batch has a successful record and
    [total_wall_time > 0], the summary has
    [requests_per_second == successful / total_wall_time] and
    [effective_concurrency == (num_requests * wait_seconds) /
    total_wall_time], with [num_requests] the requested batch size and
    not the successful count; when no record is successful, or
    [total_wall_time <= 0], both fields keep their default 0.0. *)
Theorem throughput_fields :
  forall (now : string) (results : list SessionResult.t) (mode url : string)
         (num_requests : Z) (wait_seconds : Q) (repetition : Z)
         (total_wall_time : Q) (hardware : string),
  exists s,
    compute_summary now results mode url num_requests wait_seconds repetition
      total_wall_time hardware = Ret s
    /\ ((exists r, In r results /\ SessionResult.success r = true) ->
        0 < total_wall_time ->
        RunSummary.requests_per_second s
        = inject_Z (RunSummary.successful s) / total_wall_time
        /\ RunSummary.effective_concurrency s
           = inject_Z num_requests * wait_seconds / total_wall_time)
    /\ ((forall r, In r results -> SessionResult.success r = false)
        \/ total_wall_time <= 0 ->
        RunSummary.requests_per_second s = 0
        /\ RunSummary.effective_concurrency s = 0).
Proof.
  intros. eexists. split; [apply compute_summary_value|].
  destruct (summary_value_throughput now results mode url num_requests wait_seconds
              repetition total_wall_time hardware) as [Hrun Hskip].
  split.
  - intros (r & Hin & Hr) Hw. apply Hrun; [|exact Hw].
    intros E.
    assert (Hf : In r (filter SessionResult.success results))
      by (apply filter_In; now split).
    rewrite E in Hf. exact Hf.
  - intros [Hall|Hw]; apply Hskip; [left|right; exact Hw].
    apply filter_nothing. now apply Forall_forall.
Qed.

Lemma throughput_fields_witness :
  exists s,
    compute_summary "2026-01-01T00:00:01Z" [sample_failed; sample_ok] "http"
      "http://host" 2 1 1 (3 # 2) "cpu-basic" = Ret s
    /\ RunSummary.requests_per_second s
       = inject_Z (RunSummary.successful s) / (3 # 2)
    /\ RunSummary.effective_concurrency s = inject_Z 2 * 1 / (3 # 2).
Proof.
  destruct (throughput_fields "2026-01-01T00:00:01Z" [sample_failed; sample_ok] "http"
              "http://host" 2 1 1 (3 # 2) "cpu-basic") as (s & Hs & Hrun & _).
  exists s. split; [exact Hs|].
  apply Hrun.
  - exists sample_ok. split; [right; left; reflexivity|reflexivity].
  - reflexivity.
Defined.

(** C7 as stated fails on a batch without a successful record: four
    sessions requested with one second of wait and one second of wall
    time give [effective_concurrency = 0.0], not [4 * 1 / 1]. *)
Lemma throughput_counterexample :
  ~ (forall (now : string) (results : list SessionResult.t) (mode url : string)
            (num_requests : Z) (wait_seconds : Q) (repetition : Z)
            (total_wall_time : Q) (hardware : string) (s : RunSummary.t),
        compute_summary now results mode url num_requests wait_seconds repetition
          total_wall_time hardware = Ret s ->
        RunSummary.requests_per_second s
        == inject_Z (RunSummary.successful s) / total_wall_time
        /\ RunSummary.effective_concurrency s
           == inject_Z num_requests * wait_seconds / total_wall_time)
  /\ (exists s,
         compute_summary "2026-01-01T00:00:01Z"
           [sample_failed; sample_failed; sample_failed; sample_failed]
           "http" "http://host" 4 1 1 1 "cpu-basic" = Ret s
         /\ RunSummary.effective_concurrency s = 0
         /\ ~ 0 == inject_Z 4 * 1 / 1).
Proof.
  split.
  - intros H.
    destruct (H "2026-01-01T00:00:01Z"%string
                [sample_failed; sample_failed; sample_failed; sample_failed]
                "http"%string "http://host"%string 4%Z 1 1%Z 1 "cpu-basic"%string
                _ eq_refl) as [_ Heff].
    vm_compute in Heff. discriminate Heff.
  - eexists. split; [reflexivity|]. split; [reflexivity|].
    intros E. vm_compute in E. discriminate E.
Qed.

(** C8: on every sample [percentile] returns and does not decrease in
    [p] over [0, 100]; so in every summary each percentile group is
    ordered: [connect_p50 <= connect_p95 <= connect_p99], the same for
    reset and step, and
    [total_p50 <= total_p90 <= total_p95 <= total_p99]. *)
Theorem percentiles_monotone :
  (forall (data : list Q) (p1 p2 : Q),
      0 <= p1 -> p1 <= p2 -> p2 <= 100 ->
      exists v1 v2 : Q,
        percentile data p1 = Some v1 /\ percentile data p2 = Some v2 /\ v1 <= v2)
  /\ (forall (now : string) (results : list SessionResult.t) (mode url : string)
             (num_requests : Z) (wait_seconds : Q) (repetition : Z)
             (total_wall_time : Q) (hardware : string),
         exists s,
           compute_summary now results mode url num_requests wait_seconds repetition
             total_wall_time hardware = Ret s
           /\ RunSummary.connect_p50 s <= RunSummary.connect_p95 s
           /\ RunSummary.connect_p95 s <= RunSummary.connect_p99 s
           /\ RunSummary.reset_p50 s <= RunSummary.reset_p95 s
           /\ RunSummary.reset_p95 s <= RunSummary.reset_p99 s
           /\ RunSummary.step_p50 s <= RunSummary.step_p95 s
           /\ RunSummary.step_p95 s <= RunSummary.step_p99 s
           /\ RunSummary.total_p50 s <= RunSummary.total_p90 s
           /\ RunSummary.total_p90 s <= RunSummary.total_p95 s
           /\ RunSummary.total_p95 s <= RunSummary.total_p99 s).
Proof.
  split.
  - exact percentile_mono.
  - intros. eexists. split; [apply compute_summary_value|].
    apply summary_value_ordered.
Qed.

Lemma percentiles_monotone_witness :
  exists v1 v2 : Q,
    percentile [5; 1; 4; 2] 50 = Some v1 /\ percentile [5; 1; 4; 2] 95 = Some v2
    /\ v1 <= v2.
Proof.
  apply (proj1 percentiles_monotone [5; 1; 4; 2] 50 95); vm_compute; discriminate.
Defined.

(** ** The grid sweep *)

Section Sweep.

Lemma len_app {A : Type} (l l' : list A) : len (l ++ l') = (len l + len l')%Z.
Proof. unfold len. rewrite length_app. lia. Qed.

Lemma len_cons {A : Type} (x : A) (l : list A) : len (x :: l) = (len l + 1)%Z.
Proof. unfold len. cbn [List.length]. lia. Qed.

Lemma len_flat_map_const {A B : Type} (f : A -> list B) (k : Z) (l : list A) :
  (forall x, len (f x) = k) -> len (flat_map f l) = (len l * k)%Z.
Proof.
  intros Hf. induction l as [|x l IH]; [reflexivity|].
  cbn [flat_map]. rewrite len_app, IH, Hf, len_cons. lia.
Qed.

Lemma flat_map_singleton {A B : Type} (f : A -> B) (l : list A) :
  flat_map (fun x => [f x]) l = map f l.
Proof. induction l as [|x l IH]; [reflexivity|]. simpl. now rewrite IH. Qed.

Lemma py_range2_length (a b : Z) : (a <= b)%Z -> len (py_range2 a b) = (b - a)%Z.
Proof.
  intros H. unfold py_range2, len. rewrite length_map, length_seq. lia.
Qed.

Lemma grid_cells_length (levels : list Z) (waits : list Q) (R : Z) :
  (0 <= R)%Z -> len (grid_cells levels waits R) = (len levels * len waits * R)%Z.
Proof.
  intros HR. unfold grid_cells.
  rewrite (len_flat_map_const _ (len waits * R)%Z); [lia|].
  intros n. rewrite (len_flat_map_const _ R); [lia|].
  intros wt. rewrite len_map, py_range2_length; lia.
Qed.

Variable w : World.
Variables (url mode hardware : string) (timeout : Q).

(** The transport of the sweep is available in the process. *)
Hypothesis transport_available : mode = "ws"%string -> websockets w = true.

(** One cell: the batch runs, the aggregator returns, and the summary
    carries the configuration of the cell. *)
Lemma run_single_test_cell (cell : CellEnv) (n : Z) (wt : Q) (rep : Z) :
  exists s,
    run (run_single_test (websockets w) cell url n wt mode timeout rep hardware)
    = Ret s
    /\ cell_of s = (n, wt, rep).
Proof.
  unfold run, run_single_test, bind, perf_counter, lift, raise, ret.
  destruct (String.eqb_spec mode "ws") as [Ews|Ews].
  - rewrite (transport_available Ews). cbn [negb].
    destruct (run_ws_test_ret (cell_sessions cell) url n wt timeout hardware)
      as (l & _ & E).
    rewrite E, compute_summary_value. cbn [fst].
    eexists. split; [reflexivity|].
    unfold cell_of.
    destruct (summary_value_config (cell_now cell)
                (map (stamp n hardware) l) mode url n wt rep
                (cell_clock cell 1%nat - cell_clock cell 0%nat) hardware)
      as (_ & _ & -> & _ & -> & -> & _).
    reflexivity.
  - destruct (run_http_test_ret (cell_sessions cell) url n wt timeout hardware)
      as (l & _ & E).
    rewrite E, compute_summary_value. cbn [fst].
    eexists. split; [reflexivity|].
    unfold cell_of.
    destruct (summary_value_config (cell_now cell)
                (map (stamp n hardware) l) mode url n wt rep
                (cell_clock cell 1%nat - cell_clock cell 0%nat) hardware)
      as (_ & _ & -> & _ & -> & -> & _).
    reflexivity.
Qed.

(** What a loop adds to the two local variables: the cells [cs], in
    order, and as many runs. *)
Let extends (st st' : SweepState) (cs : list (Z * Q * Z)) : Prop :=
  map cell_of (all_summaries st') = (map cell_of (all_summaries st) ++ cs)%list
  /\ current st' = (current st + len cs)%Z.

Lemma for_each_extends {X : Type} (xs : list X)
    (body : X -> SweepState -> outcome SweepState)
    (cells_of : X -> list (Z * Q * Z)) :
  (forall x st, exists st', body x st = Ret st' /\ extends st st' (cells_of x)) ->
  forall st,
  exists st', for_each xs body st = Ret st' /\ extends st st' (flat_map cells_of xs).
Proof.
  intros Hbody. induction xs as [|x xs IH]; intros st; simpl.
  - exists st. split; [reflexivity|]. split.
    + now rewrite app_nil_r.
    + unfold len. simpl. lia.
  - destruct (Hbody x st) as (st1 & E1 & H1a & H1b). rewrite E1.
    destruct (IH st1) as (st2 & E2 & H2a & H2b).
    exists st2. split; [exact E2|]. split.
    + rewrite H2a, H1a. now rewrite app_assoc.
    + rewrite H2b, H1b, len_app. lia.
Qed.

Lemma run_grid_sweep_cells (requests_grid : list Z) (wait_grid : list Q)
    (repetitions : Z) :
  exists summaries,
    run_grid_sweep w url requests_grid wait_grid mode timeout repetitions hardware
    = Ret summaries
    /\ map cell_of summaries = grid_cells requests_grid wait_grid repetitions.
Proof.
  unfold run_grid_sweep.
  edestruct (for_each_extends requests_grid) as (st & E & Ha & _);
    [|rewrite E; cbn [obind]; exists (all_summaries st); split;
      [reflexivity|exact Ha]].
  intros n st0.
  apply (for_each_extends wait_grid _
           (fun wt => map (fun rep => (n, wt, rep)) (py_range2 1 (repetitions + 1)))).
  intros wt st1.
  rewrite <- flat_map_singleton.
  apply (for_each_extends _ _ (fun rep => [(n, wt, rep)])).
  intros rep st2.
  destruct (run_single_test_cell (cells w (current st2 + 1)%Z) n wt rep)
    as (s & Es & Hs).
  rewrite Es. cbn [obind].
  eexists. split; [reflexivity|]. split.
  - cbn [all_summaries]. rewrite map_app. simpl. now rewrite Hs.
  - reflexivity.
Qed.

End Sweep.

(** C6: for every list of concurrency levels, every list of wait values
    and every repetition count [R], a grid sweep whose transport is
    available (any mode but ["ws"], or ["ws"] with the [websockets] module
    imported, as [main] checks before it starts a sweep) returns exactly
    [len(levels) * len(waits) * R] summaries, in the nested order
    concurrency, then wait, then repetition [1 .. R], each carrying the
    [(num_requests, wait_seconds, repetition)] of its cell; levels [1, 2],
    waits [0.1, 0.5] and [R = 2] give the eight summaries
    (1,0.1,1), (1,0.1,2), (1,0.5,1), (1,0.5,2), (2,0.1,1), (2,0.1,2),
    (2,0.5,1), (2,0.5,2). *)
Theorem grid_sweep_nested_order :
  forall (w : World) (url mode hardware : string) (timeout : Q),
    (mode = "ws"%string -> websockets w = true) ->
    (forall (requests_grid : list Z) (wait_grid : list Q) (R : nat),
        exists summaries,
          run_grid_sweep w url requests_grid wait_grid mode timeout (Z.of_nat R)
            hardware = Ret summaries
          /\ len summaries = (len requests_grid * len wait_grid * Z.of_nat R)%Z
          /\ map (fun s => (RunSummary.num_requests s, RunSummary.wait_seconds s,
                            RunSummary.repetition s)) summaries
             = flat_map (fun n =>
                 flat_map (fun wt =>
                   map (fun rep => (n, wt, rep)) (py_range2 1 (Z.of_nat R + 1)))
                   wait_grid)
                 requests_grid)
    /\ (exists summaries,
           run_grid_sweep w url [1; 2]%Z [1 # 10; 1 # 2] mode timeout 2 hardware
           = Ret summaries
           /\ map (fun s => (RunSummary.num_requests s, RunSummary.wait_seconds s,
                             RunSummary.repetition s)) summaries
              = [(1, 1 # 10, 1); (1, 1 # 10, 2); (1, 1 # 2, 1); (1, 1 # 2, 2);
                 (2, 1 # 10, 1); (2, 1 # 10, 2); (2, 1 # 2, 1); (2, 1 # 2, 2)]%Z).
Proof.
  intros w url mode hardware timeout Hws. split.
  - intros requests_grid wait_grid R.
    destruct (run_grid_sweep_cells w url mode hardware timeout Hws requests_grid
                wait_grid (Z.of_nat R)) as (summaries & E & Hcells).
    exists summaries. split; [exact E|]. split; [|exact Hcells].
    rewrite <- (len_map cell_of), Hcells. apply grid_cells_length. lia.
  - destruct (run_grid_sweep_cells w url mode hardware timeout Hws [1; 2]%Z
                [1 # 10; 1 # 2] 2%Z) as (summaries & E & Hcells).
    exists summaries. split; [exact E|exact Hcells].
Qed.

Lemma grid_sweep_nested_order_witness :
  exists summaries,
    run_grid_sweep world_ok "http://host" [1; 2]%Z [1 # 10; 1 # 2] "ws" 60 2
      "cpu-basic" = Ret summaries
    /\ map (fun s => (RunSummary.num_requests s, RunSummary.wait_seconds s,
                      RunSummary.repetition s)) summaries
       = [(1, 1 # 10, 1); (1, 1 # 10, 2); (1, 1 # 2, 1); (1, 1 # 2, 2);
          (2, 1 # 10, 1); (2, 1 # 10, 2); (2, 1 # 2, 1); (2, 1 # 2, 2)]%Z.
Proof.
  apply (grid_sweep_nested_order world_ok "http://host" "ws" "cpu-basic" 60).
  intros _. reflexivity.
Defined.

(** * Further properties of the module *)

(** ** Strings *)

Section Strings.

Local Open Scope string_scope.

Lemma prefix_iff (pre s : string) :
  String.prefix pre s = true <-> exists rest, s = pre ++ rest.
Proof.
  revert s. induction pre as [|a pre IH]; intros s.
  - split; [intros _; now exists s|intros _; now destruct s].
  - destruct s as [|b s]; simpl.
    + split; [discriminate|]. intros (rest & E). discriminate E.
    + destruct (ascii_dec a b) as [->|Hab].
      * rewrite IH. split; intros (rest & E); exists rest; [now rewrite E|].
        now injection E.
      * split; [discriminate|]. intros (rest & E). injection E as E1 _. congruence.
Qed.

Lemma substring_all (s : string) : substring 0 (String.length s) s = s.
Proof. induction s as [|c s IH]; [reflexivity|]. simpl. now rewrite IH. Qed.

Lemma drop_chars_app (a b : string) : drop_chars (String.length a) (a ++ b) = b.
Proof.
  unfold drop_chars. induction a as [|c a IH]; simpl.
  - rewrite Nat.sub_0_r. apply substring_all.
  - exact IH.
Qed.

Lemma length_append (a b : string) :
  String.length (a ++ b) = (String.length a + String.length b)%nat.
Proof. induction a as [|c a IH]; simpl; [reflexivity|now rewrite IH]. Qed.

Lemma append_assoc (a b c : string) : (a ++ b) ++ c = a ++ (b ++ c).
Proof. induction a as [|x a IH]; simpl; [reflexivity|now rewrite IH]. Qed.

Lemma drop_chars_split (s : string) (n : nat) :
  (n <= String.length s)%nat ->
  exists head, s = head ++ drop_chars n s /\ String.length head = n.
Proof.
  revert n. induction s as [|c s IH]; intros n Hn.
  - simpl in Hn. assert (n = 0)%nat by lia. subst. exists "". split; reflexivity.
  - destruct n as [|n].
    + exists "". split; [|reflexivity]. unfold drop_chars. rewrite Nat.sub_0_r.
      now rewrite substring_all.
    + simpl in Hn. destruct (IH n) as (h & E & L); [lia|].
      exists (String c h). split; [|simpl; now rewrite L].
      unfold drop_chars in *. simpl. now rewrite <- E.
Qed.

Lemma endswith_iff (s suf : string) :
  endswith s suf = true <-> exists body, s = body ++ suf.
Proof.
  unfold endswith. rewrite andb_true_iff, Nat.leb_le, String.eqb_eq. split.
  - intros [Hlen E].
    destruct (drop_chars_split s (String.length s - String.length suf))
      as (h & Hs & _); [lia|].
    exists h. now rewrite E in Hs.
  - intros (body & ->). rewrite length_append. split; [lia|].
    replace (String.length body + String.length suf - String.length suf)%nat
      with (String.length body) by lia.
    apply drop_chars_app.
Qed.

(** Stripping looks at the end of the string only. *)
Lemma rstrip_slash_app_slash (s : string) : rstrip_slash (s ++ "/") = rstrip_slash s.
Proof.
  induction s as [|c s IH]; [reflexivity|].
  simpl. now rewrite IH.
Qed.

Lemma rstrip_slash_last (body : string) (c : ascii) :
  c <> "/"%char -> rstrip_slash (body ++ String c "") = body ++ String c "".
Proof.
  intros Hc. induction body as [|x body IH]; simpl.
  - destruct (Ascii.eqb_spec c "/"); [contradiction|reflexivity].
  - rewrite IH. destruct body; reflexivity.
Qed.

End Strings.

(** ** The WebSocket URL *)

Section WsUrl.

Local Open Scope string_scope.

Lemma convert_to_ws_url_scheme (url : string) :
  exists rest,
    convert_to_ws_url url = "ws://" ++ rest \/ convert_to_ws_url url = "wss://" ++ rest.
Proof.
  unfold convert_to_ws_url. set (u := rstrip_slash url).
  destruct (startswith u "http://"); [eexists; left; reflexivity|].
  destruct (startswith u "https://"); [eexists; right; reflexivity|].
  destruct (startswith u "ws://") eqn:E1.
  - apply prefix_iff in E1. destruct E1 as (rest & E1). simpl orb.
    destruct (endswith u "/ws").
    + exists rest. now left.
    + exists (rest ++ "/ws"). left. rewrite E1. now rewrite append_assoc.
  - destruct (startswith u "wss://") eqn:E2.
    + apply prefix_iff in E2. destruct E2 as (rest & E2). simpl orb.
      destruct (endswith u "/ws").
      * exists rest. now right.
      * exists (rest ++ "/ws"). right. rewrite E2. now rewrite append_assoc.
    + simpl orb. eexists; left; reflexivity.
Qed.

Lemma convert_to_ws_url_suffix (url : string) :
  exists body, convert_to_ws_url url = body ++ "/ws".
Proof.
  unfold convert_to_ws_url. set (u := rstrip_slash url).
  destruct (startswith u "http://");
    [exists ("ws://" ++ drop_chars 7 u); now rewrite append_assoc|].
  destruct (startswith u "https://");
    [exists ("wss://" ++ drop_chars 8 u); now rewrite append_assoc|].
  destruct (startswith u "ws://" || startswith u "wss://").
  - destruct (endswith u "/ws") eqn:E.
    + now apply endswith_iff.
    + now exists u.
  - exists ("ws://" ++ u). now rewrite append_assoc.
Qed.

(** X1: whatever the URL, the converted URL starts with [ws://] or
    [wss://] and ends with [/ws]. *)
Theorem convert_to_ws_url_shape :
  forall url : string,
    (exists rest,
        convert_to_ws_url url = "ws://" ++ rest
        \/ convert_to_ws_url url = "wss://" ++ rest)
    /\ (exists body, convert_to_ws_url url = body ++ "/ws").
Proof.
  intros url. split; [apply convert_to_ws_url_scheme|apply convert_to_ws_url_suffix].
Qed.

(** X2: converting twice is converting once: a URL that is already a
    WebSocket URL with the [/ws] path is returned as it is. *)
Theorem convert_to_ws_url_idempotent :
  forall url : string,
    convert_to_ws_url (convert_to_ws_url url) = convert_to_ws_url url.
Proof.
  intros url.
  destruct (convert_to_ws_url_scheme url) as (rest & Hscheme).
  destruct (convert_to_ws_url_suffix url) as (body & Hsuffix).
  remember (convert_to_ws_url url) as r eqn:Er. clear Er url.
  assert (Hstrip : rstrip_slash r = r).
  { rewrite Hsuffix.
    change (body ++ "/ws") with (body ++ ("/w" ++ String "s" "")).
    rewrite <- append_assoc. apply rstrip_slash_last. discriminate. }
  assert (Hhttp : startswith r "http://" = false)
    by (destruct Hscheme as [->| ->]; reflexivity).
  assert (Hhttps : startswith r "https://" = false)
    by (destruct Hscheme as [->| ->]; reflexivity).
  assert (Hws : startswith r "ws://" || startswith r "wss://" = true).
  { apply orb_true_iff. unfold startswith. rewrite !prefix_iff.
    destruct Hscheme as [E|E]; [left|right]; now exists rest. }
  assert (Hend : endswith r "/ws" = true) by (apply endswith_iff; now exists body).
  unfold convert_to_ws_url. rewrite Hstrip, Hhttp, Hhttps, Hws, Hend. reflexivity.
Qed.

(** X3: trailing slashes of the URL do not matter. *)
Theorem convert_to_ws_url_trailing_slash :
  forall url : string,
    convert_to_ws_url (url ++ "/") = convert_to_ws_url url.
Proof.
  intros url. unfold convert_to_ws_url. now rewrite rstrip_slash_app_slash.
Qed.

(** X4: an [http://] URL is mapped to [ws://] and an [https://] URL to
    [wss://], with the rest kept and [/ws] appended, provided the rest is
    not empty and does not end with a slash. *)
Theorem convert_to_ws_url_http :
  forall (host : string) (c : ascii),
    c <> "/"%char ->
    convert_to_ws_url ("http://" ++ host ++ String c "")
    = "ws://" ++ host ++ String c "" ++ "/ws"
    /\ convert_to_ws_url ("https://" ++ host ++ String c "")
       = "wss://" ++ host ++ String c "" ++ "/ws".
Proof.
  intros host c Hc. unfold convert_to_ws_url. split.
  - change ("http://" ++ host ++ String c "")
      with (("http://" ++ host) ++ String c "") at 1.
    rewrite <- (append_assoc "http://" host (String c "")).
    rewrite rstrip_slash_last by exact Hc.
    rewrite append_assoc.
    replace (startswith ("http://" ++ host ++ String c "") "http://") with true
      by (symmetry; apply prefix_iff; eexists; reflexivity).
    change 7%nat with (String.length "http://").
    rewrite drop_chars_app. now rewrite append_assoc.
  - rewrite <- (append_assoc "https://" host (String c "")).
    rewrite rstrip_slash_last by exact Hc.
    rewrite append_assoc.
    replace (startswith ("https://" ++ host ++ String c "") "http://") with false
      by reflexivity.
    replace (startswith ("https://" ++ host ++ String c "") "https://") with true
      by (symmetry; apply prefix_iff; eexists; reflexivity).
    change 8%nat with (String.length "https://").
    rewrite drop_chars_app. now rewrite append_assoc.
Qed.

Lemma convert_to_ws_url_http_witness :
  convert_to_ws_url "http://localhost:8000" = "ws://localhost:8000/ws"
  /\ convert_to_ws_url "https://localhost:8000" = "wss://localhost:8000/ws".
Proof.
  apply (convert_to_ws_url_http "localhost:800" "0"%char). discriminate.
Defined.

End WsUrl.

(** ** Records of the session drivers *)

Ltac session_unfold :=
  unfold run, http_session, ws_session, http_try, ws_try, session_except,
    async_with, try_except, bind, lift, raise_for_status, perf_counter, raise, ret.

(** Case analysis on the innermost scrutinee, so that the clock state of
    the continuation stays visible. *)
Ltac destruct_matches :=
  repeat (cbv beta iota zeta;
          match goal with
          | |- context [match ?x with _ => _ end] =>
              lazymatch x with
              | context [match _ with _ => _ end] => fail
              | _ => destruct x
              end
          end).

Section SessionRecords.

Variable env : SessionEnv.

(** The fields of the record a completed [try] block builds, when the
    block is entered after [n] clock readings. *)
Lemma http_try_fields client base_url request_id wait_seconds timestamp t0 n r n' :
  http_try env client base_url request_id wait_seconds timestamp t0 n = (Ret r, n') ->
  SessionResult.request_id r = request_id
  /\ SessionResult.mode r = "http"%string
  /\ SessionResult.timestamp r = timestamp
  /\ SessionResult.wait_requested r = wait_seconds
  /\ SessionResult.batch_size r = 0%Z
  /\ SessionResult.hardware r = "cpu-basic"%string
  /\ SessionResult.connect_latency r = 0
  /\ SessionResult.reset_latency r = clock env (1 + n) - clock env n
  /\ SessionResult.step_latency r = clock env (3 + n) - clock env (2 + n)
  /\ SessionResult.total_latency r = clock env (4 + n) - t0
  /\ SessionResult.success r = true.
Proof.
  unfold http_try, bind, lift, raise_for_status, perf_counter, raise, ret.
  destruct_matches; intros H; inversion H; subst; cbn; repeat split.
Qed.

Lemma ws_try_fields ws_url request_id wait_seconds timeout timestamp t0 n r n' :
  ws_try env ws_url request_id wait_seconds timeout timestamp t0 n = (Ret r, n') ->
  SessionResult.request_id r = request_id
  /\ SessionResult.mode r = "ws"%string
  /\ SessionResult.timestamp r = timestamp
  /\ SessionResult.wait_requested r = wait_seconds
  /\ SessionResult.batch_size r = 0%Z
  /\ SessionResult.hardware r = "cpu-basic"%string
  /\ SessionResult.connect_latency r = clock env (1 + n) - clock env n
  /\ SessionResult.reset_latency r = clock env (3 + n) - clock env (2 + n)
  /\ SessionResult.step_latency r = clock env (5 + n) - clock env (4 + n)
  /\ SessionResult.total_latency r = clock env (6 + n) - t0
  /\ SessionResult.success r = true.
Proof.
  unfold ws_try, async_with, bind, lift, perf_counter, raise, ret.
  destruct_matches; intros H; inversion H; subst; cbn; repeat split.
Qed.

End SessionRecords.

(** X5: with a clock that never runs backwards, every record of either
    driver has non-negative connect, reset, step and total latencies, and
    no phase latency above the total latency.  Each latency is one
    difference of two clock readings taken between the first and the last
    reading of the session, so these comparisons are also those of the
    rounded float differences, rounding being monotone. *)
Theorem session_latencies_consistent :
  forall (env : SessionEnv) (url : string) (request_id : Z)
         (wait_seconds timeout : Q) (r : SessionResult.t),
    (forall i j : nat, (i <= j)%nat -> clock env i <= clock env j) ->
    run (http_session env timeout url request_id wait_seconds) = Ret r
    \/ run (ws_session true env url request_id wait_seconds timeout) = Ret r ->
    0 <= SessionResult.connect_latency r <= SessionResult.total_latency r
    /\ 0 <= SessionResult.reset_latency r <= SessionResult.total_latency r
    /\ 0 <= SessionResult.step_latency r <= SessionResult.total_latency r
    /\ 0 <= SessionResult.total_latency r.
Proof.
  intros env url request_id wait_seconds timeout r Hmono [H|H].
  - rewrite http_session_run in H.
    destruct (http_try _ _ _ _ _ _ _ _) as [[r'|e] n] eqn:E;
      injection H as <-.
    + apply http_try_fields in E.
      destruct E as (_ & _ & _ & _ & _ & _ & -> & -> & -> & -> & _).
      pose proof (Hmono 0 1 ltac:(lia))%nat. pose proof (Hmono 1 2 ltac:(lia))%nat.
      pose proof (Hmono 2 3 ltac:(lia))%nat. pose proof (Hmono 3 4 ltac:(lia))%nat.
      pose proof (Hmono 4 5 ltac:(lia))%nat.
      cbn [Nat.add]. repeat split; lra.
    + cbn. pose proof (Hmono 0%nat n ltac:(lia)). repeat split; lra.
  - rewrite ws_session_run in H.
    destruct (ws_try _ _ _ _ _ _ _ _) as [[r'|e] n] eqn:E;
      injection H as <-.
    + apply ws_try_fields in E.
      destruct E as (_ & _ & _ & _ & _ & _ & -> & -> & -> & -> & _).
      pose proof (Hmono 0 1 ltac:(lia))%nat. pose proof (Hmono 1 2 ltac:(lia))%nat.
      pose proof (Hmono 2 3 ltac:(lia))%nat. pose proof (Hmono 3 4 ltac:(lia))%nat.
      pose proof (Hmono 4 5 ltac:(lia))%nat. pose proof (Hmono 5 6 ltac:(lia))%nat.
      pose proof (Hmono 6 7 ltac:(lia))%nat.
      cbn [Nat.add]. repeat split; lra.
    + cbn. pose proof (Hmono 0%nat n ltac:(lia)). repeat split; lra.
Qed.

Lemma sample_clock_monotone (i j : nat) :
  (i <= j)%nat -> clock env_ok i <= clock env_ok j.
Proof.
  intros H. cbn. unfold sample_clock. rewrite <- Zle_Qle. lia.
Qed.

Lemma session_latencies_consistent_witness :
  exists r,
    run (ws_session true env_ok "ws://host/ws" 3 1 60) = Ret r
    /\ 0 <= SessionResult.connect_latency r <= SessionResult.total_latency r
    /\ 0 <= SessionResult.reset_latency r <= SessionResult.total_latency r
    /\ 0 <= SessionResult.step_latency r <= SessionResult.total_latency r
    /\ 0 <= SessionResult.total_latency r.
Proof.
  eexists. split; [reflexivity|].
  apply (session_latencies_consistent env_ok "ws://host/ws" 3 1 60 _
           sample_clock_monotone).
  right. reflexivity.
Defined.

Lemma http_session_identity (env : SessionEnv) (url : string) (request_id : Z)
    (wait_seconds timeout : Q) :
  exists r,
    run (http_session env timeout url request_id wait_seconds) = Ret r
    /\ SessionResult.request_id r = request_id
    /\ SessionResult.mode r = "http"%string
    /\ SessionResult.timestamp r = now_iso env
    /\ SessionResult.wait_requested r = wait_seconds
    /\ SessionResult.batch_size r = 0%Z
    /\ SessionResult.hardware r = "cpu-basic"%string
    /\ (SessionResult.success r = true <-> SessionResult.error_type r = None)
    /\ (SessionResult.success r = true <-> SessionResult.error_message r = None).
Proof.
  rewrite http_session_run.
  destruct (http_try _ _ _ _ _ _ _ _) as [[r|e] n] eqn:E;
    eexists; (split; [reflexivity|]).
  - pose proof (http_try_ret _ _ _ _ _ _ _ _ _ _ E) as (Hs & _ & Ht & Hm).
    apply http_try_fields in E.
    destruct E as (-> & -> & -> & -> & -> & -> & _).
    rewrite Hs, Ht, Hm. repeat split.
  - cbn. repeat split; discriminate.
Qed.

Lemma ws_session_identity (env : SessionEnv) (url : string) (request_id : Z)
    (wait_seconds timeout : Q) :
  exists r,
    run (ws_session true env url request_id wait_seconds timeout) = Ret r
    /\ SessionResult.request_id r = request_id
    /\ SessionResult.mode r = "ws"%string
    /\ SessionResult.timestamp r = now_iso env
    /\ SessionResult.wait_requested r = wait_seconds
    /\ SessionResult.batch_size r = 0%Z
    /\ SessionResult.hardware r = "cpu-basic"%string
    /\ (SessionResult.success r = true <-> SessionResult.error_type r = None)
    /\ (SessionResult.success r = true <-> SessionResult.error_message r = None).
Proof.
  rewrite ws_session_run.
  destruct (ws_try _ _ _ _ _ _ _ _) as [[r|e] n] eqn:E;
    eexists; (split; [reflexivity|]).
  - pose proof (ws_try_ret _ _ _ _ _ _ _ _ _ _ E) as (Hs & Ht & Hm).
    apply ws_try_fields in E.
    destruct E as (-> & -> & -> & -> & -> & -> & _).
    rewrite Hs, Ht, Hm. repeat split.
  - cbn. repeat split; discriminate.
Qed.

(** X6: every record a driver returns carries the request id, the mode of
    the driver, the timestamp taken at session start and the requested
    wait, is not yet stamped ([batch_size] 0, [hardware] "cpu-basic"), and
    is successful exactly when it has no error type and exactly when it
    has no error message. *)
Theorem session_record_identity :
  forall (env : SessionEnv) (url : string) (request_id : Z)
         (wait_seconds timeout : Q),
    (exists r,
        run (http_session env timeout url request_id wait_seconds) = Ret r
        /\ SessionResult.request_id r = request_id
        /\ SessionResult.mode r = "http"%string
        /\ SessionResult.timestamp r = now_iso env
        /\ SessionResult.wait_requested r = wait_seconds
        /\ SessionResult.batch_size r = 0%Z
        /\ SessionResult.hardware r = "cpu-basic"%string
        /\ (SessionResult.success r = true <-> SessionResult.error_type r = None)
        /\ (SessionResult.success r = true <-> SessionResult.error_message r = None))
    /\ (exists r,
           run (ws_session true env url request_id wait_seconds timeout) = Ret r
           /\ SessionResult.request_id r = request_id
           /\ SessionResult.mode r = "ws"%string
           /\ SessionResult.timestamp r = now_iso env
           /\ SessionResult.wait_requested r = wait_seconds
           /\ SessionResult.batch_size r = 0%Z
           /\ SessionResult.hardware r = "cpu-basic"%string
           /\ (SessionResult.success r = true <-> SessionResult.error_type r = None)
           /\ (SessionResult.success r = true
               <-> SessionResult.error_message r = None)).
Proof.
  intros env url request_id wait_seconds timeout.
  split; [apply http_session_identity|apply ws_session_identity].
Qed.

(** ** Failures inside a session *)

Section SessionFailures.

Variables (env : SessionEnv) (url : string) (request_id : Z)
          (wait_seconds timeout : Q).

(** The failed record both handlers build from an exception and the
    clock reading they take. *)
Let failed_record (mode : string) (t_fail : Q) (class message : string)
    : SessionResult.t :=
  SessionResult.mk request_id mode (now_iso env) wait_seconds 0%Z "cpu-basic"
    0 0 0 (t_fail - clock env 0%nat) 0 0%Z "" ""
    false (Some class) (Some message).

(** X7: an error-typed reply to the reset message, or to the step
    message, fails the session with a RuntimeError whose message quotes
    the reply; the record keeps none of the phase latencies measured
    before the reply. *)
Theorem ws_error_reply_fails_session :
  forall reset_response : WsMessage,
    ws_connect env url timeout = Ret tt ->
    ws_send env WsReset = Ret tt ->
    ws_recv env WsReset timeout = Ret reset_response ->
    ws_aexit env = None ->
    (msg_type reset_response = Some "error"%string ->
     run (ws_session true env url request_id wait_seconds timeout)
     = Ret (failed_record "ws" (clock env 5%nat) "RuntimeError"
              ("Reset error: " ++ msg_text reset_response)))
    /\ (forall step_response : WsMessage,
           is_error reset_response = false ->
           ws_send env (WsStep wait_seconds) = Ret tt ->
           ws_recv env (WsStep wait_seconds) timeout = Ret step_response ->
           msg_type step_response = Some "error"%string ->
           run (ws_session true env url request_id wait_seconds timeout)
           = Ret (failed_record "ws" (clock env 7%nat) "RuntimeError"
                    ("Step error: " ++ msg_text step_response))).
Proof.
  intros reset_response Hconnect Hsend Hrecv Hexit. split.
  - intros Htype. session_unfold. cbn [negb].
    rewrite Hconnect, Hsend, Hrecv, Hexit. unfold is_error. rewrite Htype.
    reflexivity.
  - intros step_response Hok Hsend2 Hrecv2 Htype. session_unfold. cbn [negb].
    rewrite Hconnect, Hsend, Hrecv, Hexit, Hok, Hsend2, Hrecv2.
    unfold is_error. rewrite Htype. reflexivity.
Qed.

(** X8: a session whose reset and step were both answered still fails
    when the close message cannot be sent, or when leaving the connection
    block raises: the record is the failed one of that exception. *)
Theorem ws_close_failure_fails_session :
  forall (reset_response step_response : WsMessage) (e : PyExc),
    ws_connect env url timeout = Ret tt ->
    ws_send env WsReset = Ret tt ->
    ws_recv env WsReset timeout = Ret reset_response ->
    is_error reset_response = false ->
    ws_send env (WsStep wait_seconds) = Ret tt ->
    ws_recv env (WsStep wait_seconds) timeout = Ret step_response ->
    is_error step_response = false ->
    (ws_send env WsClose = Raise e /\ ws_aexit env = None)
    \/ (ws_send env WsClose = Ret tt /\ ws_aexit env = Some e) ->
    run (ws_session true env url request_id wait_seconds timeout)
    = Ret (failed_record "ws" (clock env 7%nat) (class_name (exc_type e)) (exc_str e)).
Proof.
  intros reset_response step_response e Hconnect Hsend Hrecv Hok Hsend2 Hrecv2 Hok2
         [[Hclose Hexit]|[Hclose Hexit]];
    session_unfold; cbn [negb];
    rewrite Hconnect, Hsend, Hrecv, Hexit, Hok, Hsend2, Hrecv2, Hok2, Hclose;
    reflexivity.
Qed.

(** X9: an HTTP session fails with the exception of the reset request,
    raised by the request itself or by the status check, and with that of
    the status check of the step request; what the server would have
    answered afterwards plays no part. *)
Theorem http_request_failure_fails_session :
  forall e : PyExc,
    (post env timeout (url ++ "/reset")%string None = Raise e
     \/ (exists resp, post env timeout (url ++ "/reset")%string None = Ret resp
                      /\ status_error resp = Some e) ->
     run (http_session env timeout url request_id wait_seconds)
     = Ret (failed_record "http" (clock env 2%nat) (class_name (exc_type e))
              (exc_str e)))
    /\ (forall reset_resp step_resp,
           post env timeout (url ++ "/reset")%string None = Ret reset_resp ->
           status_error reset_resp = None ->
           post env timeout (url ++ "/step")%string (Some wait_seconds) = Ret step_resp ->
           status_error step_resp = Some e ->
           run (http_session env timeout url request_id wait_seconds)
           = Ret (failed_record "http" (clock env 4%nat) (class_name (exc_type e))
                    (exc_str e))).
Proof.
  intros e. split.
  - intros [H|(resp & H & Hstatus)]; session_unfold; rewrite H;
      [|rewrite Hstatus]; reflexivity.
  - intros reset_resp step_resp H1 Hs1 H2 Hs2. session_unfold.
    rewrite H1, Hs1, H2, Hs2. reflexivity.
Qed.

(** X10: a step reply without an observation object does not fail the
    session: the record is successful, with the measured latencies and
    every response-echo field at its default. *)
Theorem missing_observation_defaults :
  (forall reset_resp step_resp,
      post env timeout (url ++ "/reset")%string None = Ret reset_resp ->
      status_error reset_resp = None ->
      post env timeout (url ++ "/step")%string (Some wait_seconds) = Ret step_resp ->
      status_error step_resp = None ->
      json_observation step_resp = Ret None ->
      run (http_session env timeout url request_id wait_seconds)
      = Ret (SessionResult.mk request_id "http" (now_iso env) wait_seconds
               0%Z "cpu-basic"
               0 (clock env 2%nat - clock env 1%nat)
               (clock env 4%nat - clock env 3%nat)
               (clock env 5%nat - clock env 0%nat)
               0 0%Z "" "" true None None))
  /\ (forall reset_response step_response,
         ws_connect env url timeout = Ret tt ->
         ws_send env WsReset = Ret tt ->
         ws_recv env WsReset timeout = Ret reset_response ->
         is_error reset_response = false ->
         ws_send env (WsStep wait_seconds) = Ret tt ->
         ws_recv env (WsStep wait_seconds) timeout = Ret step_response ->
         is_error step_response = false ->
         ws_send env WsClose = Ret tt ->
         ws_aexit env = None ->
         msg_observation step_response = None ->
         run (ws_session true env url request_id wait_seconds timeout)
         = Ret (SessionResult.mk request_id "ws" (now_iso env) wait_seconds
                  0%Z "cpu-basic"
                  (clock env 2%nat - clock env 1%nat)
                  (clock env 4%nat - clock env 3%nat)
                  (clock env 6%nat - clock env 5%nat)
                  (clock env 7%nat - clock env 0%nat)
                  0 0%Z "" "" true None None)).
Proof.
  split.
  - intros reset_resp step_resp H1 Hs1 H2 Hs2 Hjson. session_unfold.
    rewrite H1, Hs1, H2, Hs2, Hjson. reflexivity.
  - intros reset_response step_response Hconnect Hsend Hrecv Hok Hsend2 Hrecv2 Hok2
           Hclose Hexit Hobs.
    session_unfold. cbn [negb].
    rewrite Hconnect, Hsend, Hrecv, Hexit, Hok, Hsend2, Hrecv2, Hok2, Hclose, Hobs.
    reflexivity.
Qed.

End SessionFailures.

Lemma ws_error_reply_fails_session_witness :
  run (ws_session true env_reset_error "ws://host/ws" 3 1 60)
  = Ret (SessionResult.mk 3 "ws" "2026-01-01T00:00:00Z" 1 0%Z "cpu-basic"
           0 0 0 (sample_clock 5 - sample_clock 0) 0 0%Z "" ""
           false (Some "RuntimeError"%string)
           (Some "Reset error: {'type': 'error'}"%string)).
Proof.
  apply (proj1 (ws_error_reply_fails_session env_reset_error "ws://host/ws" 3 1 60
                  (mkWsMessage (Some "error"%string) "{'type': 'error'}" None)
                  eq_refl eq_refl eq_refl eq_refl)).
  reflexivity.
Defined.

Lemma ws_close_failure_fails_session_witness :
  run (ws_session true env_close_fails "ws://host/ws" 3 1 60)
  = Ret (SessionResult.mk 3 "ws" "2026-01-01T00:00:00Z" 1 0%Z "cpu-basic"
           0 0 0 (sample_clock 7 - sample_clock 0) 0 0%Z "" ""
           false (Some "ConnectionClosed"%string)
           (Some "no close frame received or sent"%string)).
Proof.
  apply (ws_close_failure_fails_session env_close_fails "ws://host/ws" 3 1 60
           (mkWsMessage (Some "observation"%string) "{}" (Some sample_observation))
           (mkWsMessage (Some "observation"%string) "{}" (Some sample_observation))
           (mkExc ConnectionClosed "no close frame received or sent")
           eq_refl eq_refl eq_refl eq_refl eq_refl eq_refl eq_refl).
  left. split; reflexivity.
Defined.

Lemma http_request_failure_fails_session_witness :
  run (http_session env_http_500 60 "http://host" 3 1)
  = Ret (SessionResult.mk 3 "http" "2026-01-01T00:00:00Z" 1 0%Z "cpu-basic"
           0 0 0 (sample_clock 2 - sample_clock 0) 0 0%Z "" ""
           false (Some "HTTPStatusError"%string)
           (Some "Server error '500 Internal Server Error'"%string)).
Proof.
  apply (proj1 (http_request_failure_fails_session env_http_500 "http://host" 3 1 60
                  (mkExc HTTPStatusError "Server error '500 Internal Server Error'"))).
  right. eexists. split; reflexivity.
Defined.

Lemma missing_observation_defaults_witness :
  run (http_session env_no_observation 60 "http://host" 3 1)
  = Ret (SessionResult.mk 3 "http" "2026-01-01T00:00:00Z" 1 0%Z "cpu-basic"
           0 (sample_clock 2 - sample_clock 1) (sample_clock 4 - sample_clock 3)
           (sample_clock 5 - sample_clock 0)
           0 0%Z "" "" true None None).
Proof.
  apply (proj1 (missing_observation_defaults env_no_observation "http://host" 3 1 60)
           (mkResponse None (Ret None)) (mkResponse None (Ret None))
           eq_refl eq_refl eq_refl eq_refl eq_refl).
Defined.

(** ** Batches in launch order *)

Section BatchOrder.

Variable env : Z -> SessionEnv.
Variables (url : string) (num_requests : Z) (wait_seconds timeout : Q)
          (hardware : string).

Lemma http_session_request_id i r :
  run (http_session (env i) timeout url i wait_seconds) = Ret r ->
  SessionResult.request_id r = i /\ SessionResult.mode r = "http"%string.
Proof.
  intros H.
  destruct (http_session_identity (env i) url i wait_seconds timeout)
    as (r' & Hr' & Hid & Hmode & _).
  rewrite H in Hr'. injection Hr' as <-. now split.
Qed.

Lemma ws_session_request_id ws_url i r :
  run (ws_session true (env i) ws_url i wait_seconds timeout) = Ret r ->
  SessionResult.request_id r = i /\ SessionResult.mode r = "ws"%string.
Proof.
  intros H.
  destruct (ws_session_identity (env i) ws_url i wait_seconds timeout)
    as (r' & Hr' & Hid & Hmode & _).
  rewrite H in Hr'. injection Hr' as <-. now split.
Qed.

(** X11: the records of a batch are in launch order: the [request_id]s
    of the list a batch runner returns are [0, 1, ..., N-1], and every
    record carries the mode of the runner. *)
Theorem batch_in_launch_order :
  (exists results,
      run_http_test env url num_requests wait_seconds timeout hardware = Ret results
      /\ map SessionResult.request_id results = py_range num_requests
      /\ Forall (fun r => SessionResult.mode r = "http"%string) results)
  /\ (exists results,
         run_ws_test true env url num_requests wait_seconds timeout hardware
         = Ret results
         /\ map SessionResult.request_id results = py_range num_requests
         /\ Forall (fun r => SessionResult.mode r = "ws"%string) results).
Proof.
  split.
  - destruct (run_http_test_ret env url num_requests wait_seconds timeout hardware)
      as (sessions & HF & E).
    eexists. split; [exact E|]. clear E.
    induction HF as [|i r ids rs Hr _ [IH1 IH2]]; [split; [reflexivity|constructor]|].
    apply http_session_request_id in Hr. destruct Hr as [Hid Hmode].
    cbn [map]. split.
    + f_equal; [exact Hid|exact IH1].
    + constructor; [exact Hmode|exact IH2].
  - destruct (run_ws_test_ret env url num_requests wait_seconds timeout hardware)
      as (sessions & HF & E).
    eexists. split; [exact E|]. clear E.
    induction HF as [|i r ids rs Hr _ [IH1 IH2]]; [split; [reflexivity|constructor]|].
    apply ws_session_request_id in Hr. destruct Hr as [Hid Hmode].
    cbn [map]. split.
    + f_equal; [exact Hid|exact IH1].
    + constructor; [exact Hmode|exact IH2].
Qed.

(** X12: a batch of size zero or less is empty: no driver is started, so
    the WebSocket runner returns the empty list even when the
    [websockets] module is missing. *)
Theorem batch_of_nothing :
  forall websockets : bool,
    (num_requests <= 0)%Z ->
    run_http_test env url num_requests wait_seconds timeout hardware = Ret []
    /\ run_ws_test websockets env url num_requests wait_seconds timeout hardware
       = Ret [].
Proof.
  intros websockets Hn.
  assert (E : py_range num_requests = []).
  { unfold py_range, py_range2.
    replace (Z.to_nat (num_requests - 0)) with 0%nat by lia. reflexivity. }
  unfold run_http_test, run_ws_test. rewrite E. split; reflexivity.
Qed.

End BatchOrder.

Lemma batch_of_nothing_witness :
  run_http_test (fun _ => env_ok) "http://host" 0 1 60 "cpu-basic" = Ret []
  /\ run_ws_test false (fun _ => env_ok) "http://host" 0 1 60 "cpu-basic" = Ret [].
Proof.
  apply (batch_of_nothing (fun _ => env_ok) "http://host" 0 1 60 "cpu-basic" false).
  lia.
Defined.

(** ** The summary in closed form *)

Lemma summary_value_closed now results mode url num_requests wait_seconds
    repetition total_wall_time hardware :
  summary_value now results mode url num_requests wait_seconds repetition
    total_wall_time hardware
  = summary_closed now results mode url num_requests wait_seconds repetition
      total_wall_time hardware.
Proof.
  unfold summary_value, summary_closed, stat.
  destruct (filter SessionResult.success results) as [|r0 succ]; [reflexivity|].
  cbn [map].
  destruct (map SessionResult.connect_latency _) as [|c0 cs];
    destruct (map SessionResult.reset_latency _) as [|r1 rs];
    destruct (map SessionResult.step_latency _) as [|s0 ss];
    destruct (is_positive total_wall_time);
    reflexivity.
Qed.

Lemma compute_summary_closed now results mode url num_requests wait_seconds
    repetition total_wall_time hardware :
  compute_summary now results mode url num_requests wait_seconds repetition
    total_wall_time hardware
  = Ret (summary_closed now results mode url num_requests wait_seconds repetition
           total_wall_time hardware).
Proof. rewrite compute_summary_value. f_equal. apply summary_value_closed. Qed.

(** ** Statistics of the total latency *)

Section TotalStatistics.

Lemma fold_sum_lower (m : Q) (l : list Q) (a : Q) :
  Forall (fun y => m <= y) l ->
  a + m * inject_Z (len l) <= fold_left Qplus l a.
Proof.
  intros H. revert a. induction H as [|x l Hx _ IH]; intros a.
  - change (len (@nil Q)) with 0%Z. change (inject_Z 0) with 0.
    cbn [fold_left]. lra.
  - cbn [fold_left]. eapply Qle_trans; [|apply IH].
    rewrite len_cons, inject_Z_plus. change (inject_Z 1) with 1.
    set (L := inject_Z (len l)). nra.
Qed.

Lemma fold_sum_upper (m : Q) (l : list Q) (a : Q) :
  Forall (fun y => y <= m) l ->
  fold_left Qplus l a <= a + m * inject_Z (len l).
Proof.
  intros H. revert a. induction H as [|x l Hx _ IH]; intros a.
  - change (len (@nil Q)) with 0%Z. change (inject_Z 0) with 0.
    cbn [fold_left]. lra.
  - cbn [fold_left]. eapply Qle_trans; [apply IH|].
    rewrite len_cons, inject_Z_plus. change (inject_Z 1) with 1.
    set (L := inject_Z (len l)). nra.
Qed.

(** The mean of a sample lies between its minimum and its maximum. *)
Lemma mean_range (l : list Q) :
  get (py_min l) 0 <= get (mean l) 0 /\ get (mean l) 0 <= get (py_max l) 0.
Proof.
  destruct l as [|x l']; [split; apply Qle_refl|].
  set (l := x :: l').
  assert (Hne : l <> []) by discriminate.
  destruct (py_min_spec l Hne) as (mn & Hmn & _ & Hlo).
  destruct (py_max_spec l Hne) as (mx & Hmx & _ & Hhi).
  rewrite Hmn, Hmx. cbn [get mean l].
  fold l. unfold py_sum.
  assert (Hpos : 0 < inject_Z (len l)).
  { change 0 with (inject_Z 0). rewrite <- Zlt_Qlt. apply len_pos in Hne. lia. }
  pose proof (fold_sum_lower mn l 0 Hlo) as Hl.
  pose proof (fold_sum_upper mx l 0 Hhi) as Hu.
  split.
  - apply Qle_shift_div_l; [exact Hpos|]. lra.
  - apply Qle_shift_div_r; [exact Hpos|]. lra.
Qed.

(** A percentile of a sample lies between its minimum and its maximum. *)
Lemma stat_range (l : list Q) (p : Q) :
  0 <= p <= 100 ->
  get (py_min l) 0 <= stat l p /\ stat l p <= get (py_max l) 0.
Proof.
  intros Hp. destruct l as [|x l']; [split; apply Qle_refl|].
  set (l := x :: l').
  assert (Hne : l <> []) by discriminate.
  destruct (py_min_spec l Hne) as (mn & Hmn & _).
  destruct (py_max_spec l Hne) as (mx & Hmx & _).
  rewrite Hmn, Hmx. cbn [get]. unfold stat, pct. fold l.
  now apply percentile_spec_range.
Qed.

(** X13: in every summary the statistics of the total latency are
    consistent: the percentiles and the mean lie between [total_min] and
    [total_max]. *)
Theorem total_statistics_between_extrema :
  forall (now : string) (results : list SessionResult.t) (mode url : string)
         (num_requests : Z) (wait_seconds : Q) (repetition : Z)
         (total_wall_time : Q) (hardware : string),
  exists s,
    compute_summary now results mode url num_requests wait_seconds repetition
      total_wall_time hardware = Ret s
    /\ RunSummary.total_min s <= RunSummary.total_p50 s
    /\ RunSummary.total_p99 s <= RunSummary.total_max s
    /\ RunSummary.total_min s <= RunSummary.total_avg s
    /\ RunSummary.total_avg s <= RunSummary.total_max s.
Proof.
  intros. eexists. split; [apply compute_summary_closed|].
  unfold summary_closed. rs_fields.
  split; [apply stat_range; split; percentile_bounds|].
  split; [apply stat_range; split; percentile_bounds|].
  apply mean_range.
Qed.

End TotalStatistics.

(** ** Distribution cardinalities *)

Section Distribution.

Lemma nodup_len_le {A : Type} (dec : forall x y : A, {x = y} + {x <> y}) (l : list A) :
  (len (nodup dec l) <= len l)%Z.
Proof.
  unfold len. induction l as [|x l IH]; [reflexivity|].
  simpl. destruct (in_dec dec x l); simpl List.length; lia.
Qed.

Lemma filter_len_le {A : Type} (f : A -> bool) (l : list A) :
  (len (filter f l) <= len l)%Z.
Proof.
  pose proof (filter_partition_len f l).
  pose proof (len_nonneg (filter (fun x => negb (f x)) l)). lia.
Qed.

(** The distinct keys of the kept records. *)
Lemma distinct_keys {K : Type} (dec : forall x y : K, {x = y} + {x <> y})
    (key : SessionResult.t -> K) (keep : SessionResult.t -> bool)
    (l : list SessionResult.t) :
  let keys := nodup dec (map key (filter keep l)) in
  NoDup keys
  /\ (forall k, In k keys <-> exists r, In r l /\ keep r = true /\ key r = k)
  /\ (0 <= len keys <= len l)%Z.
Proof.
  intros keys. split; [apply NoDup_nodup|]. split.
  - intros k. unfold keys. rewrite nodup_In, in_map_iff. split.
    + intros (r & Hk & Hin). apply filter_In in Hin. exists r. tauto.
    + intros (r & Hin & Hkeep & Hk). exists r. split; [exact Hk|].
      apply filter_In. now split.
  - split; [apply len_nonneg|].
    eapply Z.le_trans; [apply nodup_len_le|].
    rewrite len_map. apply filter_len_le.
Qed.

(** X14: [unique_pids] is the number of distinct non-zero pids among the
    successful records, [unique_sessions] and [unique_hosts] the numbers
    of distinct non-empty session hashes and host URLs; a pid of 0 or an
    empty string is never counted, and no count exceeds [successful]. *)
Theorem distribution_counts_distinct_values :
  forall (now : string) (results : list SessionResult.t) (mode url : string)
         (num_requests : Z) (wait_seconds : Q) (repetition : Z)
         (total_wall_time : Q) (hardware : string),
  exists s,
    compute_summary now results mode url num_requests wait_seconds repetition
      total_wall_time hardware = Ret s
    /\ (exists pids : list Z,
           NoDup pids
           /\ (forall p, In p pids <->
                         exists r, In r results /\ SessionResult.success r = true
                                   /\ p <> 0%Z /\ SessionResult.pid r = p)
           /\ RunSummary.unique_pids s = len pids)
    /\ (exists hashes : list string,
           NoDup hashes
           /\ (forall h, In h hashes <->
                         exists r, In r results /\ SessionResult.success r = true
                                   /\ h <> ""%string
                                   /\ SessionResult.session_hash r = h)
           /\ RunSummary.unique_sessions s = len hashes)
    /\ (exists hosts : list string,
           NoDup hosts
           /\ (forall h, In h hosts <->
                         exists r, In r results /\ SessionResult.success r = true
                                   /\ h <> ""%string
                                   /\ SessionResult.host_url r = h)
           /\ RunSummary.unique_hosts s = len hosts)
    /\ (0 <= RunSummary.unique_pids s <= RunSummary.successful s)%Z
    /\ (0 <= RunSummary.unique_sessions s <= RunSummary.successful s)%Z
    /\ (0 <= RunSummary.unique_hosts s <= RunSummary.successful s)%Z.
Proof.
  intros. eexists. split; [apply compute_summary_closed|].
  unfold summary_closed. rs_fields.
  set (successful := filter SessionResult.success results).
  destruct (distinct_keys Z.eq_dec SessionResult.pid
              (fun r => negb (SessionResult.pid r =? 0)%Z) successful)
    as (Hp1 & Hp2 & Hp3).
  destruct (distinct_keys string_dec SessionResult.session_hash
              (fun r => negb (String.eqb (SessionResult.session_hash r) ""))
              successful) as (Hs1 & Hs2 & Hs3).
  destruct (distinct_keys string_dec SessionResult.host_url
              (fun r => negb (String.eqb (SessionResult.host_url r) ""))
              successful) as (Hh1 & Hh2 & Hh3).
  split; [|split; [|split; [|split; [|split]]]];
    try assumption.
  - eexists. split; [exact Hp1|]. split; [|reflexivity].
    intros p. rewrite Hp2. unfold successful. split.
    + intros (r & Hin & Hkeep & Hk). apply filter_In in Hin.
      exists r. rewrite negb_true_iff, Z.eqb_neq in Hkeep.
      repeat split; try tauto. congruence.
    + intros (r & Hin & Hsucc & Hp & Hk). exists r.
      split; [apply filter_In; now split|]. split; [|exact Hk].
      rewrite negb_true_iff, Z.eqb_neq. congruence.
  - eexists. split; [exact Hs1|]. split; [|reflexivity].
    intros h. rewrite Hs2. unfold successful. split.
    + intros (r & Hin & Hkeep & Hk). apply filter_In in Hin.
      exists r. rewrite negb_true_iff, String.eqb_neq in Hkeep.
      repeat split; try tauto. congruence.
    + intros (r & Hin & Hsucc & Hp & Hk). exists r.
      split; [apply filter_In; now split|]. split; [|exact Hk].
      rewrite negb_true_iff, String.eqb_neq. congruence.
  - eexists. split; [exact Hh1|]. split; [|reflexivity].
    intros h. rewrite Hh2. unfold successful. split.
    + intros (r & Hin & Hkeep & Hk). apply filter_In in Hin.
      exists r. rewrite negb_true_iff, String.eqb_neq in Hkeep.
      repeat split; try tauto. congruence.
    + intros (r & Hin & Hsucc & Hp & Hk). exists r.
      split; [apply filter_In; now split|]. split; [|exact Hk].
      rewrite negb_true_iff, String.eqb_neq. congruence.
Qed.

End Distribution.

(** ** The order of the records does not matter *)

Section OrderIndependence.

Lemma filter_perm {A : Type} (f : A -> bool) (l l' : list A) :
  Permutation l l' -> Permutation (filter f l) (filter f l').
Proof.
  induction 1 as [|x l l' _ IH|x y l|l1 l2 l3 _ IH1 _ IH2]; simpl.
  - constructor.
  - destruct (f x); [now constructor|exact IH].
  - destruct (f x), (f y); try reflexivity. apply perm_swap.
  - now transitivity (filter f l2).
Qed.

Lemma filter_count_perm {A : Type} (f : A -> bool) (l l' : list A) :
  Permutation l l' -> List.length (filter f l) = List.length (filter f l').
Proof. intros H. apply Permutation_length. now apply filter_perm. Qed.

Lemma filter_count_mono {A : Type} (f g : A -> bool) (l : list A) :
  (forall x, f x = true -> g x = true) ->
  (List.length (filter f l) <= List.length (filter g l))%nat.
Proof.
  intros Hfg. induction l as [|x l IH]; [reflexivity|].
  simpl. destruct (f x) eqn:Ef.
  - rewrite (Hfg x Ef). simpl. lia.
  - destruct (g x); simpl; lia.
Qed.

(** [x < v] and [x <= v] as tests. *)
Let below (v x : Q) : bool := if Qlt_le_dec x v then true else false.
Let upto (v x : Q) : bool := if Qlt_le_dec v x then false else true.

Lemma below_count_sorted (s : list Q) :
  StronglySorted Qle s ->
  forall i : nat, (i < List.length s)%nat ->
  (List.length (filter (below (nth i s 0%Q)) s) <= i)%nat.
Proof.
  induction 1 as [|x s Hs IH Hx]; intros i Hi; simpl in Hi; [lia|].
  destruct i as [|i]; cbn [nth filter].
  - assert (E : filter (below x) s = []).
    { apply filter_nothing. eapply Forall_impl; [|exact Hx].
      intros y Hy. unfold below. destruct (Qlt_le_dec y x) as [Hlt|_]; [|reflexivity].
      exfalso. apply (Qlt_irrefl y). now apply Qlt_le_trans with x. }
    unfold below at 1. destruct (Qlt_le_dec x x) as [Hlt|_].
    + exfalso. now apply (Qlt_irrefl x).
    + rewrite E. reflexivity.
  - specialize (IH i ltac:(lia)).
    destruct (below (nth i s 0) x); simpl; lia.
Qed.

Lemma upto_count_sorted (s : list Q) :
  StronglySorted Qle s ->
  forall i : nat, (i < List.length s)%nat ->
  (i < List.length (filter (upto (nth i s 0%Q)) s))%nat.
Proof.
  induction 1 as [|x s Hs IH Hx]; intros i Hi; simpl in Hi; [lia|].
  destruct i as [|i]; cbn [nth filter].
  - unfold upto at 1. destruct (Qlt_le_dec x x) as [Hlt|_].
    + exfalso. now apply (Qlt_irrefl x).
    + simpl. lia.
  - specialize (IH i ltac:(lia)).
    assert (Hle : x <= nth i s 0).
    { rewrite Forall_forall in Hx. apply Hx, nth_In. lia. }
    unfold upto at 1. destruct (Qlt_le_dec (nth i s 0) x) as [Hlt|_].
    + exfalso. apply (Qlt_irrefl x). now apply Qle_lt_trans with (nth i s 0).
    + simpl. lia.
Qed.

(** Two ascending arrangements of the same sample agree at every index. *)
Lemma sorted_nth_unique (s s' : list Q) (i : nat) :
  StronglySorted Qle s -> StronglySorted Qle s' -> Permutation s s' ->
  (i < List.length s)%nat -> nth i s 0 == nth i s' 0.
Proof.
  intros Hs Hs' Hperm Hi.
  assert (Hi' : (i < List.length s')%nat)
    by (rewrite <- (Permutation_length Hperm); exact Hi).
  assert (Hstep : forall t t' : list Q,
             StronglySorted Qle t -> StronglySorted Qle t' -> Permutation t t' ->
             (i < List.length t)%nat -> (i < List.length t')%nat ->
             ~ nth i t 0 < nth i t' 0).
  { intros t t' Ht Ht' Hp Hit Hit' Hlt.
    pose proof (upto_count_sorted t Ht i Hit) as H1.
    pose proof (below_count_sorted t' Ht' i Hit') as H2.
    rewrite (filter_count_perm _ _ _ Hp) in H1.
    pose proof (filter_count_mono (upto (nth i t 0)) (below (nth i t' 0)) t') as H3.
    assert (Himp : forall x, upto (nth i t 0) x = true -> below (nth i t' 0) x = true).
    { intros x. unfold upto, below.
      destruct (Qlt_le_dec (nth i t 0) x) as [|Hle]; [discriminate|]. intros _.
      destruct (Qlt_le_dec x (nth i t' 0)) as [|Hge]; [reflexivity|].
      exfalso. apply (Qlt_irrefl x).
      apply Qle_lt_trans with (nth i t 0); [exact Hle|].
      now apply Qlt_le_trans with (nth i t' 0). }
    specialize (H3 Himp). lia. }
  destruct (Q_dec (nth i s 0) (nth i s' 0)) as [[Hlt|Hgt]|Heq]; [| |exact Heq].
  - exfalso. exact (Hstep s s' Hs Hs' Hperm Hi Hi' Hlt).
  - exfalso. exact (Hstep s' s Hs' Hs (Permutation_sym Hperm) Hi' Hi Hgt).
Qed.

Lemma len_perm {A : Type} (l l' : list A) : Permutation l l' -> len l = len l'.
Proof. intros H. unfold len. now rewrite (Permutation_length H). Qed.

(** The percentile does not depend on the order of the sample. *)
Lemma pct_perm (l l' : list Q) (p : Q) :
  Permutation l l' -> l <> [] -> 0 <= p <= 100 -> pct l p == pct l' p.
Proof.
  intros Hperm Hne Hp. unfold pct, percentile_spec.
  assert (Hss : Permutation (sorted l) (sorted l')).
  { rewrite (sorted_perm l), (sorted_perm l'). exact Hperm. }
  rewrite <- (len_perm _ _ Hss).
  assert (Hn : (1 <= len (sorted l))%Z) by (rewrite len_sorted; now apply len_pos).
  pose proof (floor_bounds _ _ (rank_bounds _ _ Hn Hp)) as Hf.
  set (k := rank (len (sorted l)) p) in *.
  set (f := Qfloor k) in *.
  set (c := Z.min (f + 1) (len (sorted l) - 1)).
  assert (Ef : item (sorted l) f == item (sorted l') f).
  { unfold item. apply sorted_nth_unique; try apply sorted_sorted; [exact Hss|].
    unfold len in *. lia. }
  assert (Ec : item (sorted l) c == item (sorted l') c).
  { unfold item. apply sorted_nth_unique; try apply sorted_sorted; [exact Hss|].
    unfold c, len in *. lia. }
  rewrite Ef, Ec. reflexivity.
Qed.

Lemma stat_perm (l l' : list Q) (p : Q) :
  Permutation l l' -> 0 <= p <= 100 -> stat l p == stat l' p.
Proof.
  intros Hperm Hp. unfold stat.
  destruct l as [|x l0].
  - apply Permutation_nil in Hperm. subst. reflexivity.
  - destruct l' as [|x' l0'].
    + apply Permutation_sym, Permutation_nil in Hperm. discriminate.
    + apply pct_perm; [exact Hperm|discriminate|exact Hp].
Qed.

Lemma py_min_perm (l l' : list Q) :
  Permutation l l' -> get (py_min l) 0 == get (py_min l') 0.
Proof.
  intros Hperm. destruct l as [|x l0].
  - apply Permutation_nil in Hperm. subst. reflexivity.
  - assert (Hne : x :: l0 <> []) by discriminate.
    assert (Hne' : l' <> []).
    { intros ->. apply Permutation_sym, Permutation_nil in Hperm. discriminate. }
    destruct (py_min_spec _ Hne) as (m & Hm & Hin & Hall).
    destruct (py_min_spec _ Hne') as (m' & Hm' & Hin' & Hall').
    rewrite Hm, Hm'. cbn [get]. rewrite Forall_forall in Hall, Hall'.
    apply Qle_antisym.
    + apply Hall. eapply Permutation_in; [apply Permutation_sym, Hperm|exact Hin'].
    + apply Hall'. eapply Permutation_in; [exact Hperm|exact Hin].
Qed.

Lemma py_max_perm (l l' : list Q) :
  Permutation l l' -> get (py_max l) 0 == get (py_max l') 0.
Proof.
  intros Hperm. destruct l as [|x l0].
  - apply Permutation_nil in Hperm. subst. reflexivity.
  - assert (Hne : x :: l0 <> []) by discriminate.
    assert (Hne' : l' <> []).
    { intros ->. apply Permutation_sym, Permutation_nil in Hperm. discriminate. }
    destruct (py_max_spec _ Hne) as (m & Hm & Hin & Hall).
    destruct (py_max_spec _ Hne') as (m' & Hm' & Hin' & Hall').
    rewrite Hm, Hm'. cbn [get]. rewrite Forall_forall in Hall, Hall'.
    apply Qle_antisym.
    + apply Hall'. eapply Permutation_in; [exact Hperm|exact Hin].
    + apply Hall. eapply Permutation_in; [apply Permutation_sym, Hperm|exact Hin'].
Qed.

Lemma fold_sum_compat (l : list Q) (a b : Q) :
  a == b -> fold_left Qplus l a == fold_left Qplus l b.
Proof.
  revert a b. induction l as [|x l IH]; intros a b E; [exact E|].
  cbn [fold_left]. apply IH. now rewrite E.
Qed.

Lemma fold_sum_perm (l l' : list Q) :
  Permutation l l' -> forall a, fold_left Qplus l a == fold_left Qplus l' a.
Proof.
  induction 1 as [|x l l' _ IH|x y l|l1 l2 l3 _ IH1 _ IH2]; intros a; cbn [fold_left].
  - reflexivity.
  - apply IH.
  - apply fold_sum_compat. ring.
  - now rewrite IH1.
Qed.

Lemma mean_perm (l l' : list Q) :
  Permutation l l' -> get (mean l) 0 == get (mean l') 0.
Proof.
  intros Hperm. destruct l as [|x l0].
  - apply Permutation_nil in Hperm. subst. reflexivity.
  - destruct l' as [|x' l0'].
    + apply Permutation_sym, Permutation_nil in Hperm. discriminate.
    + cbn [mean get]. unfold py_sum.
      rewrite (fold_sum_perm _ _ Hperm 0), (len_perm _ _ Hperm). reflexivity.
Qed.

Lemma nodup_len_perm {A : Type} (dec : forall x y : A, {x = y} + {x <> y})
    (l l' : list A) :
  Permutation l l' -> len (nodup dec l) = len (nodup dec l').
Proof.
  intros Hperm. apply len_perm.
  apply NoDup_Permutation; try apply NoDup_nodup.
  intros x. rewrite !nodup_In. split; apply Permutation_in;
    [exact Hperm|apply Permutation_sym, Hperm].
Qed.

End OrderIndependence.

(** X15: the summary does not depend on the order of the records: two
    batches that are permutations of one another have the same counts,
    rates, percentiles, extrema, mean, throughput and cardinalities. *)
Theorem summary_independent_of_record_order :
  forall (now : string) (results results' : list SessionResult.t) (mode url : string)
         (num_requests : Z) (wait_seconds : Q) (repetition : Z)
         (total_wall_time : Q) (hardware : string),
    Permutation results results' ->
    exists s s',
      compute_summary now results mode url num_requests wait_seconds repetition
        total_wall_time hardware = Ret s
      /\ compute_summary now results' mode url num_requests wait_seconds repetition
           total_wall_time hardware = Ret s'
      /\ summary_equiv s s'.
Proof.
  intros now results results' mode url num_requests wait_seconds repetition
         total_wall_time hardware Hperm.
  eexists. eexists.
  split; [apply compute_summary_closed|]. split; [apply compute_summary_closed|].
  unfold summary_equiv, summary_closed. rs_fields.
  pose proof (filter_perm SessionResult.success _ _ Hperm) as Hs.
  pose proof (filter_perm (fun r => negb (SessionResult.success r)) _ _ Hperm) as Hf.
  set (successful := filter SessionResult.success results) in *.
  set (successful' := filter SessionResult.success results') in *.
  assert (Htimes : forall (latency : SessionResult.t -> Q) (p : Q),
             0 <= p <= 100 ->
             stat (map latency (filter (fun r => is_positive (latency r)) successful)) p
             == stat (map latency (filter (fun r => is_positive (latency r)) successful')) p).
  { intros latency p Hp. apply stat_perm; [|exact Hp].
    apply Permutation_map. now apply filter_perm. }
  assert (Htotal : Permutation (map SessionResult.total_latency successful)
                     (map SessionResult.total_latency successful'))
    by now apply Permutation_map.
  assert (Hthr : forall work : Q,
             match successful with
             | [] => 0
             | _ => if is_positive total_wall_time then work / total_wall_time else 0
             end
             == match successful' with
                | [] => 0
                | _ => if is_positive total_wall_time then work / total_wall_time else 0
                end).
  { intros work. destruct successful as [|a l], successful' as [|a' l'];
      try reflexivity;
      exfalso;
      first [ apply Permutation_nil in Hs; discriminate
            | apply Permutation_sym, Permutation_nil in Hs; discriminate ]. }
  split_all; try reflexivity.
  - now apply len_perm.
  - now apply len_perm.
  - rewrite (len_perm _ _ Hf), (len_perm _ _ Hperm).
    destruct results as [|a l], results' as [|a' l']; try reflexivity;
      exfalso;
      first [ apply Permutation_nil in Hperm; discriminate
            | apply Permutation_sym, Permutation_nil in Hperm; discriminate ].
  - apply Htimes; split; percentile_bounds.
  - apply Htimes; split; percentile_bounds.
  - apply Htimes; split; percentile_bounds.
  - apply Htimes; split; percentile_bounds.
  - apply Htimes; split; percentile_bounds.
  - apply Htimes; split; percentile_bounds.
  - apply Htimes; split; percentile_bounds.
  - apply Htimes; split; percentile_bounds.
  - apply Htimes; split; percentile_bounds.
  - now apply py_min_perm.
  - now apply py_max_perm.
  - now apply mean_perm.
  - apply stat_perm; [exact Htotal|split; percentile_bounds].
  - apply stat_perm; [exact Htotal|split; percentile_bounds].
  - apply stat_perm; [exact Htotal|split; percentile_bounds].
  - apply stat_perm; [exact Htotal|split; percentile_bounds].
  - rewrite (len_perm _ _ Hs). apply Hthr.
  - apply Hthr.
  - unfold count_unique_Z. apply nodup_len_perm, Permutation_map. now apply filter_perm.
  - unfold count_unique_string. apply nodup_len_perm, Permutation_map.
    now apply filter_perm.
  - unfold count_unique_string. apply nodup_len_perm, Permutation_map.
    now apply filter_perm.
Qed.

Lemma summary_independent_of_record_order_witness :
  exists s s',
    compute_summary "2026-01-01T00:00:01Z" [sample_failed; sample_ok] "http"
      "http://host" 2 1 1 (3 # 2) "cpu-basic" = Ret s
    /\ compute_summary "2026-01-01T00:00:01Z" [sample_ok; sample_failed] "http"
         "http://host" 2 1 1 (3 # 2) "cpu-basic" = Ret s'
    /\ summary_equiv s s'.
Proof.
  apply (summary_independent_of_record_order "2026-01-01T00:00:01Z"
           [sample_failed; sample_ok] [sample_ok; sample_failed]).
  apply perm_swap.
Defined.

(** ** More on the percentile *)

Section PercentileExtras.

(** X16: for [p] in [0, 100] the percentile does not depend on the order
    of the sample. *)
Theorem percentile_independent_of_order :
  forall (data data' : list Q) (p : Q),
    Permutation data data' -> 0 <= p <= 100 ->
    oQeq (percentile data p) (percentile data' p).
Proof.
  intros data data' p Hperm Hp.
  destruct data as [|x l].
  - apply Permutation_nil in Hperm. subst. cbn. reflexivity.
  - assert (Hne : x :: l <> []) by discriminate.
    assert (Hne' : data' <> []).
    { intros ->. apply Permutation_sym, Permutation_nil in Hperm. discriminate. }
    rewrite (percentile_eq_spec _ p Hne Hp), (percentile_eq_spec _ p Hne' Hp).
    cbn [oQeq]. now apply pct_perm.
Qed.

Lemma percentile_independent_of_order_witness :
  oQeq (percentile [3; 1; 2] 95) (percentile [2; 3; 1] 95).
Proof.
  apply (percentile_independent_of_order [3; 1; 2] [2; 3; 1] 95).
  - apply Permutation_sym, Permutation_cons_append.
  - split; vm_compute; discriminate.
Defined.

(** X17: when all samples are equal, every percentile for [p] in
    [0, 100] is that value; on a single sample this holds for every [p],
    also outside [0, 100], where longer samples may raise. *)
Theorem percentile_of_equal_samples :
  (forall (data : list Q) (v p : Q),
      data <> [] -> Forall (fun x => x == v) data -> 0 <= p <= 100 ->
      oQeq (percentile data p) (Some v))
  /\ (forall v p : Q, oQeq (percentile [v] p) (Some v)).
Proof.
  split.
  - intros data v p Hne Hall Hp.
    rewrite (percentile_eq_spec _ p Hne Hp). cbn [oQeq].
    destruct (py_min_spec data Hne) as (mn & Hmn & Hin & _).
    destruct (py_max_spec data Hne) as (mx & Hmx & Hin' & _).
    pose proof (percentile_spec_range data p mn mx Hp Hmn Hmx) as [Hlo Hhi].
    rewrite Forall_forall in Hall.
    pose proof (Hall _ Hin) as E1. pose proof (Hall _ Hin') as E2.
    apply Qle_antisym; lra.
  - intros v p. unfold percentile.
    cbn [sorted insert_sorted]. change (len [v] - 1)%Z with 0%Z.
    assert (Hk : inject_Z 0 * p / 100 == 0) by (field).
    assert (Hf : py_int (inject_Z 0 * p / 100) = 0%Z).
    { unfold py_int. destruct p as [n d]. cbn. reflexivity. }
    rewrite Hf. change (py_getitem [v] 0) with (Some v).
    change (py_getitem [v] (Z.min (0 + 1) 0)) with (Some v).
    cbn [oQeq]. rewrite Hk. change (inject_Z 0) with 0. ring.
Qed.

Lemma percentile_of_equal_samples_witness :
  oQeq (percentile [2; 2; 2] 95) (Some 2).
Proof.
  apply (proj1 percentile_of_equal_samples [2; 2; 2] 2 95).
  - discriminate.
  - repeat constructor.
  - split; vm_compute; discriminate.
Defined.

End PercentileExtras.

(** ** When the percentile raises *)

Section PercentileDomain.

Lemma py_getitem_none {A : Type} (l : list A) (i : Z) :
  py_getitem l i = None <-> (i < - len l \/ len l <= i)%Z.
Proof.
  unfold py_getitem, len.
  destruct (Z.leb_spec 0 i) as [H0|H0].
  - rewrite nth_error_None. lia.
  - destruct (Z.leb_spec (- Z.of_nat (List.length l)) i) as [H1|H1].
    + rewrite nth_error_None. lia.
    + split; [lia|reflexivity].
Qed.

Lemma quot_lower (a d m : Z) :
  (0 < d)%Z -> (0 < m)%Z -> (m <= Z.quot a d <-> m * d <= a)%Z.
Proof.
  intros Hd Hm.
  destruct (Z.le_gt_cases 0 a) as [Ha|Ha].
  - rewrite Z.quot_div_nonneg by lia.
    pose proof (Z.mul_div_le a d Hd).
    split; intros H1.
    + nia.
    + apply Z.div_le_lower_bound; lia.
  - pose proof (Z.quot_opp_l a d ltac:(lia)) as E.
    assert (0 <= Z.quot (- a) d)%Z by (apply Z.quot_pos; lia).
    split; intros H1; nia.
Qed.

Lemma quot_upper (a d m : Z) :
  (0 < d)%Z -> (m < 0)%Z -> (Z.quot a d <= m <-> a <= m * d)%Z.
Proof.
  intros Hd Hm.
  pose proof (quot_lower (- a) d (- m) Hd ltac:(lia)) as H.
  rewrite Z.quot_opp_l in H by lia. lia.
Qed.

(** Truncation against an integer bound. *)
Lemma py_int_lower (k : Q) (m : Z) :
  (0 < m)%Z -> (m <= py_int k)%Z <-> inject_Z m <= k.
Proof.
  intros Hm. destruct k as [a d]. unfold py_int, Qle. cbn.
  rewrite quot_lower by lia. lia.
Qed.

Lemma py_int_upper (k : Q) (m : Z) :
  (m < 0)%Z -> (py_int k <= m)%Z <-> k <= inject_Z m.
Proof.
  intros Hm. destruct k as [a d]. unfold py_int, Qle. cbn.
  rewrite quot_upper by lia. lia.
Qed.

(** X18: on a sample of [n >= 1] values [percentile] raises IndexError
    exactly when the rank [k = (n-1) * p / 100] is at least [n] or at
    most [-(n+1)]; in between it returns, negative ranks reading the
    sorted sample from its end. *)
Theorem percentile_raises_iff :
  forall (data : list Q) (p : Q),
    data <> [] ->
    let n := len data in
    let k := inject_Z (n - 1) * p / 100 in
    percentile data p = None <-> (k <= inject_Z (- (n + 1)) \/ inject_Z n <= k).
Proof.
  intros data p Hne n k.
  pose proof (len_pos data Hne) as Hn. fold n in Hn.
  unfold percentile. destruct data as [|x l]; [congruence|].
  set (d := x :: l) in *.
  rewrite len_sorted. fold n. fold k.
  set (f := py_int k).
  assert (Hrange : (f < - n \/ n <= f)%Z
                   <-> (k <= inject_Z (- (n + 1)) \/ inject_Z n <= k)).
  { unfold f. rewrite <- (py_int_lower k n) by lia.
    rewrite <- (py_int_upper k (- (n + 1))) by lia. lia. }
  rewrite <- Hrange.
  destruct (py_getitem (sorted d) f) as [sf|] eqn:Ef.
  - assert (Hin : ~ (f < - n \/ n <= f)%Z).
    { intros H.
      assert (Hlen : len (sorted d) = n) by apply len_sorted.
      rewrite <- Hlen in H. apply py_getitem_none in H. congruence. }
    destruct (py_getitem (sorted d) (Z.min (f + 1) (n - 1))) as [sc|] eqn:Ec.
    + split; [discriminate|]. intros H. contradiction.
    + apply py_getitem_none in Ec. rewrite len_sorted in Ec. fold n in Ec. lia.
  - apply py_getitem_none in Ef. rewrite len_sorted in Ef. fold n in Ef.
    split; [intros _; exact Ef|reflexivity].
Qed.

Lemma percentile_raises_iff_witness :
  percentile [1; 2; 3] 150 = None
  <-> (inject_Z (len [1; 2; 3] - 1) * 150 / 100 <= inject_Z (- (len [1; 2; 3] + 1))
       \/ inject_Z (len [1; 2; 3]) <= inject_Z (len [1; 2; 3] - 1) * 150 / 100).
Proof.
  apply (percentile_raises_iff [1; 2; 3] 150). discriminate.
Defined.

End PercentileDomain.

(** ** Output files *)

Section OutputFiles.

Variable json_dumps : SessionResult.t -> string.
Variable csv_row : RunSummary.t -> string.
Variables (dir name : string).

Lemma append_records_same (fs : FileSystem) (records : list string) :
  append_records fs dir name records dir name
  = Some (get (fs dir name) [] ++ records)%list.
Proof. unfold append_records. now rewrite !String.eqb_refl. Qed.

Lemma append_records_other (fs : FileSystem) (records : list string) (d n : string) :
  (d, n) <> (dir, name) -> append_records fs dir name records d n = fs d n.
Proof.
  intros Hne. unfold append_records.
  destruct (String.eqb_spec d dir) as [->|]; [|reflexivity].
  destruct (String.eqb_spec n name) as [->|]; [|reflexivity].
  congruence.
Qed.

(** Writing batch after batch of summaries to one file. *)
Let write_batches (batches : list (list RunSummary.t)) (fs : FileSystem) : FileSystem :=
  fold_left (fun fs summaries => write_csv_summary csv_row summaries dir name fs)
            batches fs.

Lemma write_batches_existing (batches : list (list RunSummary.t)) :
  forall (fs : FileSystem) (old : list string),
    fs dir name = Some old ->
    write_batches batches fs dir name
    = Some (old ++ map csv_row (List.concat batches))%list.
Proof.
  unfold write_batches.
  induction batches as [|b bs IH]; intros fs old Hold; cbn [fold_left List.concat].
  - now rewrite app_nil_r.
  - destruct b as [|s b'].
    + cbn [write_csv_summary app]. now apply IH.
    + rewrite (IH _ (old ++ map csv_row (s :: b'))%list).
      * now rewrite map_app, app_assoc.
      * unfold write_csv_summary, file_exists.
        rewrite append_records_same, Hold. reflexivity.
Qed.

Lemma write_batches_other (batches : list (list RunSummary.t)) (d n : string) :
  (d, n) <> (dir, name) ->
  forall fs : FileSystem, write_batches batches fs d n = fs d n.
Proof.
  intros Hne. unfold write_batches.
  induction batches as [|b bs IH]; intros fs; cbn [fold_left]; [reflexivity|].
  rewrite IH. destruct b as [|s b']; [reflexivity|].
  unfold write_csv_summary. now apply append_records_other.
Qed.

(** X19: however many batches of summaries are appended to a CSV file
    that did not exist, the file starts with the header, written once,
    followed by one row per summary in order; when no summary is written
    the file is not created; a file that existed, even empty, gets its
    rows appended without a header; no other file changes. *)
Theorem csv_header_written_once :
  forall (batches : list (list RunSummary.t)) (fs : FileSystem),
    let fs' := fold_left
                 (fun fs summaries => write_csv_summary csv_row summaries dir name fs)
                 batches fs in
    (fs dir name = None ->
     fs' dir name
     = match List.concat batches with
       | [] => None
       | rows => Some (csv_header :: map csv_row rows)
       end)
    /\ (forall old : list string,
           fs dir name = Some old ->
           fs' dir name = Some (old ++ map csv_row (List.concat batches))%list)
    /\ (forall d n : string, (d, n) <> (dir, name) -> fs' d n = fs d n).
Proof.
  intros batches fs fs'. split; [|split].
  - unfold fs'. clear fs'. revert fs.
    induction batches as [|b bs IH]; intros fs Hnone; cbn [fold_left List.concat].
    + exact Hnone.
    + destruct b as [|s b'].
      * cbn [write_csv_summary app]. now apply IH.
      * fold (write_batches bs (write_csv_summary csv_row (s :: b') dir name fs)).
        rewrite (write_batches_existing bs _ (csv_header :: map csv_row (s :: b'))).
        -- cbn [app map]. now rewrite map_app.
        -- unfold write_csv_summary, file_exists.
           rewrite append_records_same, Hnone. reflexivity.
  - intros old Hold. now apply write_batches_existing.
  - intros d n Hne. now apply write_batches_other.
Qed.

(** X20: [write_jsonl] appends one record per session result, in order,
    after what the file held; writing two batches in turn is writing
    their concatenation; an empty batch still creates the file; no other
    file changes. *)
Theorem write_jsonl_appends :
  forall (fs : FileSystem) (batch batch' : list SessionResult.t),
    write_jsonl json_dumps batch dir name fs dir name
    = Some (get (fs dir name) [] ++ map json_dumps batch)%list
    /\ write_jsonl json_dumps batch' dir name
         (write_jsonl json_dumps batch dir name fs) dir name
       = write_jsonl json_dumps (batch ++ batch') dir name fs dir name
    /\ write_jsonl json_dumps [] dir name fs dir name <> None
    /\ (forall d n : string,
           (d, n) <> (dir, name) ->
           write_jsonl json_dumps batch dir name fs d n = fs d n).
Proof.
  intros fs batch batch'. unfold write_jsonl.
  split; [apply append_records_same|]. split; [|split].
  - rewrite !append_records_same. cbn [get]. now rewrite map_app, app_assoc.
  - rewrite append_records_same. discriminate.
  - intros d n Hne. now apply append_records_other.
Qed.

End OutputFiles.

Lemma csv_header_written_once_witness :
  fold_left (fun fs summaries =>
               write_csv_summary RunSummary.url summaries "out" "summary.csv" fs)
    [[]; [summary_closed "t1" [] "http" "http://a" 1 1 1 1 "cpu-basic"];
     [summary_closed "t2" [] "http" "http://b" 2 1 1 1 "cpu-basic"]]
    no_files "out"%string "summary.csv"%string
  = Some [csv_header; "http://a"; "http://b"]%string.
Proof.
  apply (proj1 (csv_header_written_once RunSummary.url "out" "summary.csv"
                  [[]; [summary_closed "t1" [] "http" "http://a" 1 1 1 1 "cpu-basic"];
                   [summary_closed "t2" [] "http" "http://b" 2 1 1 1 "cpu-basic"]]
                  no_files)).
  reflexivity.
Defined.

Lemma write_jsonl_appends_witness :
  write_jsonl SessionResult.mode [sample_ok] "out" "raw.jsonl" no_files
    "out"%string "summary.csv"%string
  = None.
Proof.
  apply (write_jsonl_appends SessionResult.mode "out" "raw.jsonl" no_files
           [sample_ok] []).
  discriminate.
Defined.

(** ** Runs with an output directory *)

Section OutputRuns.

Variable json_dumps : SessionResult.t -> string.
Variable csv_row : RunSummary.t -> string.

(** The files after one run that returned [s] from the batch [results]. *)
Let files_after (output_dir : option string) (s : RunSummary.t)
    (results : list SessionResult.t) (fs : FileSystem) : FileSystem :=
  match output_dir with
  | Some dir =>
      write_csv_summary csv_row [s] dir "summary.csv"
        (write_jsonl json_dumps results dir "raw.jsonl" fs)
  | None => fs
  end.

(** One run with an output directory: the outcome of the run without
    one, and the two files written from the batch behind the summary. *)
Lemma run_single_test_out_spec websockets cell url num_requests wait_seconds mode
    timeout repetition output_dir hardware fs :
  match run (run_single_test websockets cell url num_requests wait_seconds mode
               timeout repetition hardware) with
  | Raise e =>
      run (run_single_test_out json_dumps csv_row websockets cell url num_requests
             wait_seconds mode timeout repetition output_dir hardware fs)
      = Raise e
  | Ret s =>
      exists results,
        len results = (RunSummary.successful s + RunSummary.failed s)%Z
        /\ run (run_single_test_out json_dumps csv_row websockets cell url
                  num_requests wait_seconds mode timeout repetition output_dir
                  hardware fs)
           = Ret (s, files_after output_dir s results fs)
  end.
Proof.
  assert (Hcount : forall results total_wall_time,
             len results
             = (RunSummary.successful
                  (summary_value (cell_now cell) results mode url num_requests
                     wait_seconds repetition total_wall_time hardware)
                + RunSummary.failed
                    (summary_value (cell_now cell) results mode url num_requests
                       wait_seconds repetition total_wall_time hardware))%Z).
  { intros results total_wall_time.
    destruct (summary_value_counts (cell_now cell) results mode url num_requests
                wait_seconds repetition total_wall_time hardware) as (-> & -> & _).
    symmetry. apply filter_partition_len. }
  unfold run, run_single_test, run_single_test_out, bind, perf_counter, lift, raise, ret.
  destruct (String.eqb mode "ws").
  - destruct websockets; cbn [negb]; [|reflexivity].
    destruct (run_ws_test _ _ _ _ _ _ _) as [results|e]; [|reflexivity].
    rewrite compute_summary_value. cbn [fst].
    exists results. split; [apply Hcount|reflexivity].
  - destruct (run_http_test _ _ _ _ _ _) as [results|e]; [|reflexivity].
    rewrite compute_summary_value. cbn [fst].
    exists results. split; [apply Hcount|reflexivity].
Qed.


Variables (w : World) (url mode hardware : string) (timeout : Q).
Variable output_dir : option string.
Variable fs0 : FileSystem.






End OutputRuns.


(** ** Splitting at commas *)

Section Split.

Local Open Scope string_scope.

Lemma append_nil_r (a : string) : a ++ "" = a.
Proof. induction a as [|x a IH]; simpl; [reflexivity|now rewrite IH]. Qed.

Lemma split_comma_from_join (s current : string) :
  String.concat "," (split_comma_from current s) = current ++ s.
Proof.
  revert current. induction s as [|ch s IH]; intros current; cbn [split_comma_from].
  - cbn. now rewrite append_nil_r.
  - destruct (Ascii.eqb_spec ch ",") as [->|Hch].
    + specialize (IH "").
      destruct (split_comma_from "" s) as [|piece pieces] eqn:E.
      * destruct s; cbn in E; [discriminate|].
        destruct (Ascii.eqb a ","); discriminate.
      * change (String.concat "," (current :: piece :: pieces))
          with (current ++ "," ++ String.concat "," (piece :: pieces)).
        rewrite IH. reflexivity.
    + rewrite IH. now rewrite append_assoc.
Qed.

Lemma split_comma_from_pieces (s current : string) :
  (forall rest1 rest2, current <> rest1 ++ "," ++ rest2) ->
  Forall (fun piece => forall rest1 rest2, piece <> rest1 ++ "," ++ rest2)
         (split_comma_from current s).
Proof.
  revert current. induction s as [|ch s IH]; intros current Hcur; cbn [split_comma_from].
  - constructor; [exact Hcur|constructor].
  - destruct (Ascii.eqb_spec ch ",") as [->|Hch].
    + constructor; [exact Hcur|]. apply IH.
      intros rest1 rest2 E. destruct rest1; discriminate E.
    + apply IH. intros rest1 rest2 E.
      assert (Hlast : forall a b c : string, forall x : ascii,
                 x <> ","%char -> a ++ String x "" = b ++ "," ++ c ->
                 exists c', a = b ++ "," ++ c').
      { clear. intros a b. revert a. induction b as [|y b IHb]; intros a c x Hx E.
        - destruct a as [|z a]; cbn in E.
          + injection E as E1 _. congruence.
          + injection E as -> E. exists a. reflexivity.
        - destruct a as [|z a]; cbn in E.
          + injection E as _ E. destruct b; discriminate E.
          + injection E as -> E. destruct (IHb a c x Hx E) as (c' & ->).
            exists c'. reflexivity. }
      destruct (Hlast _ _ _ _ Hch E) as (c' & Ec). exact (Hcur _ _ Ec).
Qed.

(** X22: splitting at commas and joining with commas gives the string
    back, there is always at least one piece, and no piece contains a
    comma. *)
Theorem split_comma_join :
  forall s : string,
    String.concat "," (split_comma s) = s
    /\ split_comma s <> []
    /\ Forall (fun piece => forall rest1 rest2, piece <> rest1 ++ "," ++ rest2)
              (split_comma s).
Proof.
  intros s. unfold split_comma. split; [apply split_comma_from_join|]. split.
  - destruct s as [|ch s]; cbn; [discriminate|].
    destruct (Ascii.eqb ch ","); [discriminate|].
    intros E. pose proof (split_comma_from_join s (String ch "")) as H.
    rewrite E in H. discriminate H.
  - apply split_comma_from_pieces. intros rest1 rest2 E.
    destruct rest1; discriminate E.
Qed.

End Split.

(** ** Comparison and command line *)

Section Comparison.

Variable json_dumps : SessionResult.t -> string.
Variable csv_row : RunSummary.t -> string.

(** One run in an available transport, with its files. *)
Lemma run_single_test_out_ret ws cell url num_requests wait_seconds mode
    timeout repetition output_dir hardware fs :
  (mode = "ws"%string -> ws = true) ->
  exists s results,
    run (run_single_test ws cell url num_requests wait_seconds mode timeout
           repetition hardware) = Ret s
    /\ RunSummary.mode s = mode
    /\ cell_of s = (num_requests, wait_seconds, repetition)
    /\ run (run_single_test_out json_dumps csv_row ws cell url num_requests
              wait_seconds mode timeout repetition output_dir hardware fs)
       = Ret (s, match output_dir with
                 | Some dir =>
                     write_csv_summary csv_row [s] dir "summary.csv"
                       (write_jsonl json_dumps results dir "raw.jsonl" fs)
                 | None => fs
                 end).
Proof.
  intros Hws.
  pose proof (run_single_test_out_spec json_dumps csv_row ws cell url
                num_requests wait_seconds mode timeout repetition output_dir
                hardware fs) as Hout.
  destruct (run_single_test_cell (mkWorld ws (fun _ => cell)) url mode
              hardware timeout Hws cell num_requests wait_seconds repetition)
    as (s & Hs & Hcell).
  cbn [websockets] in Hs.
  rewrite Hs in Hout. destruct Hout as (results & _ & Hout).
  exists s, results. split; [exact Hs|]. split; [|split; [exact Hcell|exact Hout]].
  unfold run, run_single_test, bind, perf_counter, lift, raise, ret in Hs.
  destruct (String.eqb mode "ws").
  - destruct ws; cbn [negb] in Hs; [|discriminate Hs].
    destruct (run_ws_test _ _ _ _ _ _ _) as [rs|e]; [|discriminate Hs].
    rewrite compute_summary_value in Hs. cbn [fst] in Hs. injection Hs as <-.
    apply summary_value_config.
  - destruct (run_http_test _ _ _ _ _ _) as [rs|e]; [|discriminate Hs].
    rewrite compute_summary_value in Hs. cbn [fst] in Hs. injection Hs as <-.
    apply summary_value_config.
Qed.

Variables (http_cell ws_cell : CellEnv) (url : string) (num_requests : Z)
          (wait_seconds timeout : Q) (output_dir : option string)
          (hardware : string) (fs : FileSystem).

(** What the comparison does with and without the module. *)
Lemma run_comparison_spec :
  run_comparison json_dumps csv_row false http_cell ws_cell url num_requests
    wait_seconds timeout output_dir hardware fs = Exited 1
  /\ exists http_summary ws_summary fs',
      run_comparison json_dumps csv_row true http_cell ws_cell url num_requests
        wait_seconds timeout output_dir hardware fs
      = Finished (Ret (http_summary, ws_summary, fs'))
      /\ run (run_single_test true http_cell url num_requests wait_seconds "http"
                timeout 1 hardware) = Ret http_summary
      /\ run (run_single_test true ws_cell url num_requests wait_seconds "ws"
                timeout 1 hardware) = Ret ws_summary
      /\ RunSummary.mode http_summary = "http"%string
      /\ RunSummary.mode ws_summary = "ws"%string
      /\ cell_of http_summary = (num_requests, wait_seconds, 1%Z)
      /\ cell_of ws_summary = (num_requests, wait_seconds, 1%Z)
      /\ (forall dir : string,
             output_dir = Some dir ->
             fs dir "summary.csv"%string = None ->
             fs' dir "summary.csv"%string
             = Some [csv_header; csv_row http_summary; csv_row ws_summary]).
Proof.
  split; [reflexivity|].
  unfold run_comparison. cbn [negb].
  destruct (run_single_test_out_ret true http_cell url num_requests wait_seconds
              "http" timeout 1%Z output_dir hardware fs ltac:(discriminate))
    as (h & r1 & Hh & Hmode1 & Hcell1 & Hout1).
  rewrite Hout1. cbn [obind fst snd].
  destruct (run_single_test_out_ret true ws_cell url num_requests wait_seconds
              "ws" timeout 1%Z output_dir hardware
              (match output_dir with
               | Some dir =>
                   write_csv_summary csv_row [h] dir "summary.csv"
                     (write_jsonl json_dumps r1 dir "raw.jsonl" fs)
               | None => fs
               end) ltac:(reflexivity))
    as (s & r2 & Hs & Hmode2 & Hcell2 & Hout2).
  rewrite Hout2. cbn [obind fst snd].
  eexists. eexists. eexists. split; [reflexivity|].
  split; [exact Hh|]. split; [exact Hs|]. split; [exact Hmode1|].
  split; [exact Hmode2|]. split; [exact Hcell1|]. split; [exact Hcell2|].
  intros dir -> Hnone.
  unfold write_csv_summary, write_jsonl, file_exists.
  repeat (rewrite ?append_records_same;
          rewrite ?append_records_other by discriminate).
  rewrite Hnone. reflexivity.
Qed.

(** X23: without the [websockets] module the comparison exits with
    status 1 before any run; with it the comparison always returns the
    pair of the summaries of an HTTP run and of a WebSocket run of the
    same configuration (repetition 1), HTTP first, and an output
    directory where [summary.csv] did not exist holds both rows under one
    header. *)
Theorem comparison_pairs_both_transports :
  run_comparison json_dumps csv_row false http_cell ws_cell url num_requests
    wait_seconds timeout output_dir hardware fs = Exited 1
  /\ exists http_summary ws_summary fs',
      run_comparison json_dumps csv_row true http_cell ws_cell url num_requests
        wait_seconds timeout output_dir hardware fs
      = Finished (Ret (http_summary, ws_summary, fs'))
      /\ run (run_single_test true http_cell url num_requests wait_seconds "http"
                timeout 1 hardware) = Ret http_summary
      /\ run (run_single_test true ws_cell url num_requests wait_seconds "ws"
                timeout 1 hardware) = Ret ws_summary
      /\ RunSummary.mode http_summary = "http"%string
      /\ RunSummary.mode ws_summary = "ws"%string
      /\ cell_of http_summary = (num_requests, wait_seconds, 1%Z)
      /\ cell_of ws_summary = (num_requests, wait_seconds, 1%Z)
      /\ (forall dir : string,
             output_dir = Some dir ->
             fs dir "summary.csv"%string = None ->
             fs' dir "summary.csv"%string
             = Some [csv_header; csv_row http_summary; csv_row ws_summary]).
Proof. exact run_comparison_spec. Qed.

End Comparison.

Lemma comparison_pairs_both_transports_witness :
  exists http_summary ws_summary fs',
    run_comparison SessionResult.mode RunSummary.mode true cell_ok cell_ok
      "http://host" 2 1 60 (Some "out"%string) "cpu-basic" no_files
    = Finished (Ret (http_summary, ws_summary, fs'))
    /\ fs' "out"%string "summary.csv"%string
       = Some [csv_header; "http"; "ws"]%string.
Proof.
  destruct (proj2 (comparison_pairs_both_transports SessionResult.mode
                     RunSummary.mode cell_ok cell_ok "http://host" 2 1 60
                     (Some "out"%string) "cpu-basic" no_files))
    as (h & s & fs' & Hrun & _ & _ & Hm1 & Hm2 & _ & _ & Hcsv).
  exists h, s, fs'. split; [exact Hrun|].
  rewrite (Hcsv "out"%string eq_refl eq_refl), Hm1, Hm2. reflexivity.
Defined.

Section CommandLineRuns.

Variable json_dumps : SessionResult.t -> string.
Variable csv_row : RunSummary.t -> string.
Variable int_of_string : string -> outcome Z.
Variable float_of_string : string -> outcome Q.






End CommandLineRuns.


(** ** The 50th percentile *)

Section Median.

Lemma Qfloor_unique (x : Q) (z : Z) :
  inject_Z z <= x -> x < inject_Z (z + 1) -> Qfloor x = z.
Proof.
  intros Hlo Hhi.
  pose proof (Qfloor_resp_le _ _ Hlo) as H1. rewrite Qfloor_Z in H1.
  pose proof (Qfloor_le x) as H2.
  assert (H3 : inject_Z (Qfloor x) < inject_Z (z + 1))
    by (eapply Qle_lt_trans; eassumption).
  rewrite <- Zlt_Qlt in H3. lia.
Qed.

(** X25: [percentile(data, 50)] of a sample of [2m + 1] values is the
    middle value [s[m]] of the sorted sample (rank [m], fraction 0); of a
    sample of [2m] values it is the lower middle value plus half of the
    gap to the upper one, [s[m-1] + 0.5 * (s[m] - s[m-1])], the expression
    the function evaluates at rank [m - 0.5], floor [m - 1] and ceiling
    [m]. *)
Theorem percentile_50_middle_values :
  forall (data : list Q) (m : Z),
    (len data = (2 * m + 1)%Z ->
     oQeq (percentile data 50) (Some (item (sorted data) m)))
    /\ (len data = (2 * m)%Z -> (1 <= m)%Z ->
        oQeq (percentile data 50)
             (Some (item (sorted data) (m - 1)
                    + (1 # 2) * (item (sorted data) m - item (sorted data) (m - 1))))).
Proof.
  intros data m. split.
  - intros Hlen.
    assert (Hne : data <> []).
    { intros ->. change (len (@nil Q)) with 0%Z in Hlen. lia. }
    assert (Hm : (0 <= m)%Z) by (pose proof (len_pos data Hne); lia).
    rewrite (percentile_eq_spec data 50 Hne) by (split; percentile_bounds).
    cbn [oQeq]. unfold percentile_spec. rewrite len_sorted, Hlen.
    replace (2 * m + 1 - 1)%Z with (2 * m)%Z by lia.
    assert (Hk : rank (2 * m + 1) 50 == inject_Z m).
    { unfold rank. replace (2 * m + 1 - 1)%Z with (2 * m)%Z by lia.
      rewrite inject_Z_mult. change (inject_Z 2) with 2. field. }
    assert (Hf : Qfloor (rank (2 * m + 1) 50) = m)
      by (rewrite Hk; apply Qfloor_Z).
    rewrite Hf, Hk. ring.
  - intros Hlen Hm.
    assert (Hne : data <> []).
    { intros ->. change (len (@nil Q)) with 0%Z in Hlen. lia. }
    rewrite (percentile_eq_spec data 50 Hne) by (split; percentile_bounds).
    cbn [oQeq]. unfold percentile_spec. rewrite len_sorted, Hlen.
    assert (Hk : rank (2 * m) 50 == inject_Z m - (1 # 2)).
    { unfold rank. unfold Z.sub. rewrite inject_Z_plus, inject_Z_mult.
      change (inject_Z 2) with 2. change (inject_Z (- (1))) with (- (1)). field. }
    assert (Hf : Qfloor (rank (2 * m) 50) = (m - 1)%Z).
    { apply Qfloor_unique; rewrite Hk.
      - unfold Z.sub. rewrite inject_Z_plus. change (inject_Z (- (1))) with (- (1)). lra.
      - replace (m - 1 + 1)%Z with m by lia. lra. }
    rewrite Hf, Hk.
    replace (Z.min (m - 1 + 1) (2 * m - 1)) with m by lia.
    unfold Z.sub at 2. rewrite inject_Z_plus. change (inject_Z (- (1))) with (- (1)).
    field.
Qed.

Lemma percentile_50_middle_values_witness :
  oQeq (percentile [4; 1; 3; 2] 50)
       (Some (item (sorted [4; 1; 3; 2]) (2 - 1)
              + (1 # 2) * (item (sorted [4; 1; 3; 2]) 2 - item (sorted [4; 1; 3; 2]) (2 - 1)))).
Proof.
  apply (proj2 (percentile_50_middle_values [4; 1; 3; 2] 2)); [reflexivity|lia].
Defined.

End Median.

(** ** Extreme error rates *)

(** X26: on a non-empty batch the error rate is 0.0 exactly when no
    record failed, and 1.0 exactly when no record succeeded. *)
Theorem error_rate_extremes :
  forall (now : string) (results : list SessionResult.t) (mode url : string)
         (num_requests : Z) (wait_seconds : Q) (repetition : Z)
         (total_wall_time : Q) (hardware : string),
    results <> [] ->
    exists s,
      compute_summary now results mode url num_requests wait_seconds repetition
        total_wall_time hardware = Ret s
      /\ (RunSummary.error_rate s == 0 <-> RunSummary.failed s = 0%Z)
      /\ (RunSummary.error_rate s == 1 <-> RunSummary.successful s = 0%Z).
Proof.
  intros now results mode url num_requests wait_seconds repetition total_wall_time
         hardware Hne.
  eexists. split; [apply compute_summary_closed|].
  unfold summary_closed. rs_fields.
  pose proof (filter_partition_len SessionResult.success results) as Hsum.
  pose proof (len_pos results Hne) as Hn.
  pose proof (len_nonneg (filter SessionResult.success results)) as Hs.
  pose proof (len_nonneg (filter (fun r => negb (SessionResult.success r)) results))
    as Hf.
  set (f := len (filter (fun r => negb (SessionResult.success r)) results)) in *.
  set (n := len results) in *.
  set (k := len (filter SessionResult.success results)) in *.
  destruct results as [|r l]; [congruence|].
  clearbody f n k.
  assert (Hpos : 0 < inject_Z n).
  { change 0 with (inject_Z 0). rewrite <- Zlt_Qlt. lia. }
  assert (Hnz : ~ inject_Z n == 0) by lra.
  split; split; intros H.
  - assert (E : inject_Z f == 0).
    { setoid_replace (inject_Z f) with (inject_Z f / inject_Z n * inject_Z n)
        by (field; exact Hnz).
      rewrite H. ring. }
    apply inject_Z_injective. exact E.
  - rewrite H. change (inject_Z 0) with 0. field. exact Hnz.
  - assert (E : inject_Z f == inject_Z n).
    { setoid_replace (inject_Z f) with (inject_Z f / inject_Z n * inject_Z n)
        by (field; exact Hnz).
      rewrite H. ring. }
    assert (E' : f = n) by (apply inject_Z_injective; exact E). lia.
  - assert (E : f = n) by lia. rewrite E. field. exact Hnz.
Qed.

Lemma error_rate_extremes_witness :
  exists s,
    compute_summary "2026-01-01T00:00:01Z" [sample_failed; sample_failed] "http"
      "http://host" 2 1 1 (3 # 2) "cpu-basic" = Ret s
    /\ (RunSummary.error_rate s == 0 <-> RunSummary.failed s = 0%Z)
    /\ (RunSummary.error_rate s == 1 <-> RunSummary.successful s = 0%Z).
Proof.
  apply (error_rate_extremes "2026-01-01T00:00:01Z" [sample_failed; sample_failed]).
  discriminate.
Defined.

(** ** When the sweep raises *)

Section SweepFailure.

Lemma for_each_unchanged {X S : Type} (xs : list X) (body : X -> S -> outcome S) :
  (forall x st, body x st = Ret st) -> forall st, for_each xs body st = Ret st.
Proof.
  intros Hbody. induction xs as [|x xs IH]; intros st; cbn [for_each]; [reflexivity|].
  rewrite Hbody. apply IH.
Qed.

Lemma py_range2_from_one (R : Z) :
  (1 <= R)%Z -> exists rest, py_range2 1 (R + 1) = 1%Z :: rest.
Proof.
  intros HR. unfold py_range2.
  replace (Z.to_nat (R + 1 - 1)) with (S (Z.to_nat (R - 1))) by lia.
  cbn [seq map]. eexists. reflexivity.
Qed.

Lemma py_range2_empty (R : Z) : (R < 1)%Z -> py_range2 1 (R + 1) = [].
Proof.
  intros HR. unfold py_range2.
  replace (Z.to_nat (R + 1 - 1)) with 0%nat by lia. reflexivity.
Qed.

(** X27: the grid sweep raises exactly when it runs in ["ws"] mode without
    the [websockets] module and the grid has a cell (a concurrency level,
    a wait value and a repetition count of at least 1); the exception is
    the ImportError of the first run.  A sweep of no cell (no concurrency
    level, no wait value, or a repetition count below 1) returns the empty
    list whatever the mode and whether or not the module was imported. *)
Theorem grid_sweep_raises_iff :
  forall (w : World) (url : string) (requests_grid : list Z) (wait_grid : list Q)
         (mode : string) (timeout : Q) (repetitions : Z) (hardware : string),
    (forall e : PyExc,
        run_grid_sweep w url requests_grid wait_grid mode timeout repetitions hardware
        = Raise e
        <-> mode = "ws"%string /\ websockets w = false
            /\ requests_grid <> [] /\ wait_grid <> [] /\ (1 <= repetitions)%Z
            /\ e = mkExc ImportError "websockets not installed for ws mode")
    /\ (requests_grid = [] \/ wait_grid = [] \/ (repetitions < 1)%Z ->
        run_grid_sweep w url requests_grid wait_grid mode timeout repetitions hardware
        = Ret []).
Proof.
  intros w url requests_grid wait_grid mode timeout repetitions hardware.
  assert (Hempty : requests_grid = [] \/ wait_grid = [] \/ (repetitions < 1)%Z ->
                   run_grid_sweep w url requests_grid wait_grid mode timeout
                     repetitions hardware = Ret []).
  { intros [->|[->|HR]]; unfold run_grid_sweep.
    - reflexivity.
    - rewrite for_each_unchanged; [reflexivity|]. intros n st. reflexivity.
    - rewrite for_each_unchanged; [reflexivity|]. intros n st.
      apply for_each_unchanged. intros wt st'.
      rewrite (py_range2_empty _ HR). reflexivity. }
  assert (Hraise : mode = "ws"%string -> websockets w = false ->
                   requests_grid <> [] -> wait_grid <> [] -> (1 <= repetitions)%Z ->
                   run_grid_sweep w url requests_grid wait_grid mode timeout
                     repetitions hardware
                   = Raise (mkExc ImportError "websockets not installed for ws mode")).
  { intros -> Ews Hl Hw HR. unfold run_grid_sweep.
    destruct requests_grid as [|n ls]; [congruence|].
    destruct wait_grid as [|wt wts]; [congruence|].
    destruct (py_range2_from_one _ HR) as (rest & ->).
    cbn [for_each]. rewrite Ews. reflexivity. }
  split; [|exact Hempty].
  intros e. split.
  - intros H.
    destruct (String.eqb_spec mode "ws") as [Emode|Emode].
    + destruct (websockets w) eqn:Ews.
      * destruct (run_grid_sweep_cells w url mode hardware timeout
                    ltac:(intros _; exact Ews) requests_grid wait_grid repetitions)
          as (ss & E & _).
        rewrite E in H. discriminate H.
      * destruct requests_grid as [|n ls];
          [rewrite Hempty in H by (now left); discriminate H|].
        destruct wait_grid as [|wt wts];
          [rewrite Hempty in H by (right; now left); discriminate H|].
        destruct (Z_lt_le_dec repetitions 1) as [HR|HR];
          [rewrite Hempty in H by (right; now right); discriminate H|].
        rewrite (Hraise Emode eq_refl ltac:(discriminate) ltac:(discriminate) HR) in H.
        injection H as <-. split_all; try assumption; try discriminate; reflexivity.
    + destruct (run_grid_sweep_cells w url mode hardware timeout
                  ltac:(intros E; contradiction) requests_grid wait_grid repetitions)
        as (ss & E & _).
      rewrite E in H. discriminate H.
  - intros (Hmode & Ews & Hl & Hw & HR & ->). now apply Hraise.
Qed.

Lemma grid_sweep_raises_iff_witness :
  run_grid_sweep world_without_websockets "http://host" [1; 2]%Z [1] "ws" 60 0
    "cpu-basic" = Ret [].
Proof.
  apply (proj2 (grid_sweep_raises_iff world_without_websockets "http://host" [1; 2]%Z
                  [1] "ws" 60 0 "cpu-basic")).
  right. right. lia.
Defined.

End SweepFailure.
